(** * The BizHawk bridge of mGBA (src/platform/bizhawk/bizinterface.c)

    A shallow embedding of the bridge's entry points and proofs of the
    properties its design document states about them.

    The bridge is glue code: it owns one aggregate [bizctx], and reaches the
    emulation engine, the virtual-file adapter, the audio ring buffer and the
    C allocator through calls.  Those collaborators are interfaces here
    (type classes); the bridge's own functions are transcribed statement by
    statement.

    The loader of the Qt front end (src/platform/qt/CoreManager.cpp), the
    second glue layer over the same engine, follows the bridge: its calls
    into Qt, the virtual-file layer and the core are recorded as events. *)

From Stdlib Require Import ZArith Lia.
From stdpp Require Import base numbers option list gmap strings.

(** ** C integers *)

Module CInt.

(** Conversion to a signed [bits]-wide integer (two's complement). *)
Definition sint (bits : Z) (z : Z) : Z :=
  ((z + 2 ^ (bits - 1)) mod 2 ^ bits - 2 ^ (bits - 1))%Z.

(** Conversion to [uint8_t]. *)
Definition uint8 (z : Z) : Z := Z.land z 255.

Definition int32 := sint 32.

Definition in_sint (bits : Z) (z : Z) : Prop :=
  (- 2 ^ (bits - 1) <= z < 2 ^ (bits - 1))%Z.

Definition is_uint8 (z : Z) : Prop := (0 <= z < 256)%Z.

End CInt.

(** ** Outcomes of a C call

    [Undefined] is what the C standard leaves undefined and the bridge does
    not guard: a null or out-of-bounds access.  [OutOfFuel] belongs to the
    model only: the bound given to a loop was reached before its guard
    failed. *)

Inductive result (A : Type) : Type :=
| Ok (a : A)
| Undefined
| OutOfFuel.

Arguments Ok {A} a.
Arguments Undefined {A}.
Arguments OutOfFuel {A}.

#[global] Instance result_ret : MRet result := λ A a, Ok a.
#[global] Instance result_bind : MBind result := λ A B f m,
  match m with
  | Ok a => f a
  | Undefined => Undefined
  | OutOfFuel => OutOfFuel
  end.

(** ** Byte buffers

    A buffer is the list of its bytes; its length is the size of the object
    in C.  Accesses outside it are undefined behaviour. *)

Abbreviation bytes := (list Z).

Definition load (buf : bytes) (i : nat) : result Z :=
  match buf !! i with
  | Some b => Ok b
  | None => Undefined
  end.

Definition store (buf : bytes) (i : nat) (v : Z) : result bytes :=
  if decide (i < length buf) then Ok (<[i := v]> buf) else Undefined.

(** [memcpy(dst, src, n)]: the first [n] bytes of [dst] are replaced by the
    first [n] bytes of [src]; [n] is a [size_t], so a negative C [int]
    converts to a size no object has. *)
Definition memcpy (dst src : bytes) (n : Z) : result bytes :=
  if decide (0 ≤ n ∧ n ≤ Z.of_nat (length src) ∧ n ≤ Z.of_nat (length dst))%Z
  then Ok (take (Z.to_nat n) src ++ drop (Z.to_nat n) dst)
  else Undefined.

(** [memset(dst, c, sizeof dst)] on a whole array. *)
Definition memset (dst : bytes) (c : Z) : bytes :=
  replicate (length dst) (CInt.uint8 c).

(** ** What the bridge takes from the engine's headers *)

(** The enumerators of [enum SavedataType] that [BizGetSaveRamSize]
    switches on. *)
Inductive SavedataType : Set :=
| SAVEDATA_AUTODETECT
| SAVEDATA_FORCE_NONE
| SAVEDATA_SRAM
| SAVEDATA_FLASH512
| SAVEDATA_FLASH1M
| SAVEDATA_EEPROM.

#[global] Instance SavedataType_eq_dec : EqDecision SavedataType.
Proof. solve_decision. Defined.

(** Modelled from the spec: the macros of gba/video.h, gba/memory.h and
    gba/gba.h, and the width the C library gives [time_t]; none of these
    headers is under src/, so the values are parameters.  The spec fixes only
    their relations ("fixed frame resolution", "4 bytes per pixel", "distinct
    fixed sizes", save buffer "sized to the largest supported cartridge save
    type"), which [PlatformOk] records.  The last two are the layout
    [BizLoad] relies on when it reads the game code out of the ROM:
    [offsetof(struct GBACartridge, id)] of gba/gba.h and
    [sizeof(override.id)] of gba/supervisor/overrides.h. *)
Class Platform : Type := {
  VIDEO_HORIZONTAL_PIXELS : Z;
  VIDEO_VERTICAL_PIXELS : Z;
  BYTES_PER_PIXEL : Z;
  SIZE_CART_FLASH1M : Z;
  SIZE_CART_FLASH512 : Z;
  SIZE_CART_EEPROM : Z;
  SIZE_CART_SRAM : Z;
  GBA_ARM7TDMI_FREQUENCY : Z;
  IDLE_LOOP_IGNORE : Z;
  time_t_bits : Z;
  CARTRIDGE_ID_OFFSET : nat;
  OVERRIDE_ID_SIZE : nat;
}.

Definition FRAME_BYTES `{Platform} : Z :=
  VIDEO_HORIZONTAL_PIXELS * VIDEO_VERTICAL_PIXELS * BYTES_PER_PIXEL.

Class PlatformOk `{Platform} : Prop := {
  frame_bytes_nonneg : (0 ≤ FRAME_BYTES)%Z;
  frame_bytes_groups : (16 | FRAME_BYTES)%Z;
  flash1m_pos : (0 < SIZE_CART_FLASH1M)%Z;
  flash512_pos : (0 < SIZE_CART_FLASH512)%Z;
  eeprom_pos : (0 < SIZE_CART_EEPROM)%Z;
  sram_pos : (0 < SIZE_CART_SRAM)%Z;
  flash512_fits : (SIZE_CART_FLASH512 ≤ SIZE_CART_FLASH1M)%Z;
  eeprom_fits : (SIZE_CART_EEPROM ≤ SIZE_CART_FLASH1M)%Z;
  sram_fits : (SIZE_CART_SRAM ≤ SIZE_CART_FLASH1M)%Z;
  sizes_distinct :
    NoDup [SIZE_CART_FLASH1M; SIZE_CART_FLASH512; SIZE_CART_EEPROM; SIZE_CART_SRAM];
  time_t_wide : (64 ≤ time_t_bits)%Z;
}.

(** The values mGBA's headers give on a 64-bit build: a 240x160 screen of
    32-bit pixels, 128 KiB / 64 KiB flash, 8 KiB EEPROM, 32 KiB SRAM, and the
    four-byte game code at offset 0xAC of the cartridge header. *)
Definition mgba_platform : Platform := {|
  VIDEO_HORIZONTAL_PIXELS := 240;
  VIDEO_VERTICAL_PIXELS := 160;
  BYTES_PER_PIXEL := 4;
  SIZE_CART_FLASH1M := 0x20000;
  SIZE_CART_FLASH512 := 0x10000;
  SIZE_CART_EEPROM := 0x2000;
  SIZE_CART_SRAM := 0x8000;
  GBA_ARM7TDMI_FREQUENCY := 0x1000000;
  IDLE_LOOP_IGNORE := -1;
  time_t_bits := 64;
  CARTRIDGE_ID_OFFSET := 0xAC;
  OVERRIDE_ID_SIZE := 4;
|}.

(** The peripheral accessors of the bridge, as the values a function pointer
    of a capability object can take. *)
Inductive hook : Set :=
| Hook_Dummy
| Hook_GetX
| Hook_GetY
| Hook_GetZ
| Hook_GetLight
| Hook_GetTime.

(** [struct GBARotationSource], [struct GBALuminanceSource] and
    [struct GBARTCSource]: tables of function pointers, null ([None]) in
    zeroed memory. *)
Record GBARotationSource : Set := {
  rot_sample : option hook;
  readTiltX : option hook;
  readTiltY : option hook;
  readGyroZ : option hook;
}.

Record GBALuminanceSource : Set := {
  luma_sample : option hook;
  readLuminance : option hook;
}.

Record GBARTCSource : Set := {
  rtc_sample : option hook;
  unixTime : option hook;
}.

(** What the engine gets when it calls through the three capability objects
    during a step: the result of each accessor. *)
Record Sensors : Type := {
  sens_tiltX : result Z;
  sens_tiltY : result Z;
  sens_gyroZ : result Z;
  sens_luminance : result Z;
  sens_unixTime : result Z;
}.

(** The only log handler the bridge installs. *)
Inductive log_handler : Set := logdebug.

(** ** The heap

    A ledger of what has been allocated and not yet released, keyed by
    address.  A pointer is an [option nat]; [None] is the null pointer. *)

(** The memory a virtual file made by [VFileFromMemory] views. *)
Inductive vf_backing : Set :=
| VfBios              (* [ctx->bios] *)
| VfRom (blk : nat)   (* the block [ctx->rom] points to *)
| VfSavedata.         (* [ctx->savedata] *)

Inductive block : Type :=
| BlkContext                  (* [calloc(1, sizeof(bizctx))] *)
| BlkBytes (data : bytes)     (* [malloc(length)] *)
| BlkVFile (mem : vf_backing) (* the wrapper [VFileFromMemory] returns *)
| BlkEngine.                  (* what the engine instance owns until [GBADestroy] *)

Abbreviation heap := (gmap nat block).

Inductive request : Set :=
| ReqContext          (* [calloc(1, sizeof(bizctx))] *)
| ReqBytes (n : Z).   (* [malloc(n)], with [n] as the C [int] passed *)

(** The C allocator decides whether a request is served.  Nothing is assumed
    about the decision. *)
Class Allocator : Type := {
  alloc_succeeds : heap → request → bool;
}.

Definition alloc (h : heap) (b : block) : nat * heap :=
  let p := fresh (dom h) in (p, <[p := b]> h).

Definition calloc_bizctx `{Allocator} (h : heap) : option nat * heap :=
  if alloc_succeeds h ReqContext
  then let '(p, h) := alloc h BlkContext in (Some p, h)
  else (None, h).

(** The new block's bytes are indeterminate in C; the bridge overwrites all
    of them before any read, so zeros stand for them. *)
Definition malloc `{Allocator} (h : heap) (n : Z) : option nat * heap :=
  if alloc_succeeds h (ReqBytes n)
  then let '(p, h) := alloc h (BlkBytes (replicate (Z.to_nat n) 0%Z)) in (Some p, h)
  else (None, h).

(** [free(p)]: nothing for a null pointer, undefined for a pointer that is
    not live. *)
Definition free (h : heap) (p : option nat) : result heap :=
  match p with
  | None => Ok h
  | Some a =>
      match h !! a with
      | Some _ => Ok (delete a h)
      | None => Undefined
      end
  end.

(** The bytes of a live [malloc]ed block. *)
Definition block_bytes (h : heap) (p : option nat) : result bytes :=
  match p with
  | None => Undefined
  | Some a =>
      match h !! a with
      | Some (BlkBytes data) => Ok data
      | _ => Undefined
      end
  end.

(** [memcpy(p, src, n)] into a [malloc]ed block. *)
Definition memcpy_block (h : heap) (p : option nat) (src : bytes) (n : Z) : result heap :=
  old ← block_bytes h p;
  new ← memcpy old src n;
  match p with
  | Some a => Ok (<[a := BlkBytes new]> h)
  | None => Undefined
  end.

(** Modelled from the spec: [VFileFromMemory] of the virtual-file adapter
    (util/vfs.h, not under src/), "memory-backed readable/writable/closable
    byte containers": it allocates a wrapper that references the bytes and
    does not own them.  The bridge never tests its result, so the wrapper's
    allocation is taken to succeed. *)
Definition VFileFromMemory (h : heap) (mem : vf_backing) : option nat * heap :=
  let '(p, h) := alloc h (BlkVFile mem) in (Some p, h).

(** Modelled from the spec: [vf->close(vf)] of the same adapter.  The call
    goes through the pointer, so a null [vf] is a null dereference; closing
    releases the wrapper and leaves the backing bytes alone ("virtual files
    must be closed before their backing buffers are freed, since they may
    reference rather than own the bytes"). *)
Definition VFile_close (h : heap) (vf : option nat) : result heap :=
  match vf with
  | None => Undefined
  | Some a =>
      match h !! a with
      | Some (BlkVFile _) => Ok (delete a h)
      | _ => Undefined
      end
  end.

(** ** The engine's state, as far as the bridge names it *)

(** The types of the engine that stay opaque, with the value each has in
    zeroed memory. *)
Class EngineTypes : Type := {
  ARMCore : Type;
  GBARest : Type;
  RendererRest : Type;
  blip_t : Type;
  GBACartridgeOverride : Type;
  ARMCore_zero : ARMCore;
  GBARest_zero : GBARest;
  RendererRest_zero : RendererRest;
  blip_null : blip_t;
  SavedataType_zero : SavedataType;
}.

Section State.
Context `{EngineTypes}.

(** [struct GBA]: the fields the bridge reads or writes, and the rest. *)
Record GBA : Type := {
  logLevel : Z;
  logHandler : option log_handler;
  idleOptimization : Z;
  realisticTiming : bool;
  rtcSource : bool;  (* points at [ctx->rtcsource] *)
  luminanceSource : bool;  (* points at [ctx->lumasource] *)
  rotationSource : bool;  (* points at [ctx->rotsource] *)
  keySource : option Z;  (* the [int] it points at *)
  video_frameCounter : Z;  (* [video.frameCounter] *)
  audio_left : blip_t;  (* [audio.left] *)
  audio_right : blip_t;  (* [audio.right] *)
  memory_savedata_type : SavedataType;  (* [memory.savedata.type] *)
  memory_rom : bytes;  (* what [memory.rom] points at *)
  gba_rest : GBARest;
}.

(** [struct GBAVideoSoftwareRenderer]. *)
Record GBAVideoSoftwareRenderer : Type := {
  outputBuffer : bool;  (* points at [ctx->vbuff] *)
  outputBufferStride : Z;
  renderer_rest : RendererRest;
}.

(** The three engine structs at the head of [bizctx]; they point at one
    another, and the engine reaches all of them from any one. *)
Record Machine : Type := {
  m_gba : GBA;
  m_cpu : ARMCore;
  m_renderer : GBAVideoSoftwareRenderer;
}.

(** What a CPU step can write: the machine, and through the pointers the
    bridge handed over the frame buffer and the save buffer. *)
Record Footprint : Type := {
  fp_machine : Machine;
  fp_vbuff : bytes;
  fp_savedata : bytes;
}.

(** [bizctx].  The unused [stream] member is left out; [this] and
    [engine_mem] are the two addresses C keeps outside the struct's own
    fields (the pointer to it, and the pointers inside [struct GBA]). *)
Record bizctx : Type := {
  this : nat;  (* the address [calloc] returned *)
  gba : GBA;
  cpu : ARMCore;
  renderer : GBAVideoSoftwareRenderer;
  vbuff : bytes;  (* [color_t vbuff[...]], as bytes *)
  rom : option nat;
  romvf : option nat;
  bios : bytes;  (* [char bios[16384]] *)
  biosvf : option nat;
  savedata : bytes;  (* [char savedata[SIZE_CART_FLASH1M]] *)
  sramvf : option nat;
  rotsource : GBARotationSource;
  rtcsource : GBARTCSource;
  lumasource : GBALuminanceSource;
  tiltx : Z;
  tilty : Z;
  tiltz : Z;
  time : Z;
  light : Z;
  engine_mem : option nat;  (* ledger entry of what the engine instance owns *)
}.

Definition set_logLevel (v : Z) (g : GBA) : GBA :=
  {| logLevel := v; logHandler := logHandler g; idleOptimization := idleOptimization g;
     realisticTiming := realisticTiming g; rtcSource := rtcSource g;
     luminanceSource := luminanceSource g; rotationSource := rotationSource g;
     keySource := keySource g; video_frameCounter := video_frameCounter g;
     audio_left := audio_left g; audio_right := audio_right g;
     memory_savedata_type := memory_savedata_type g; memory_rom := memory_rom g;
     gba_rest := gba_rest g |}.

Definition set_logHandler (v : option log_handler) (g : GBA) : GBA :=
  {| logLevel := logLevel g; logHandler := v; idleOptimization := idleOptimization g;
     realisticTiming := realisticTiming g; rtcSource := rtcSource g;
     luminanceSource := luminanceSource g; rotationSource := rotationSource g;
     keySource := keySource g; video_frameCounter := video_frameCounter g;
     audio_left := audio_left g; audio_right := audio_right g;
     memory_savedata_type := memory_savedata_type g; memory_rom := memory_rom g;
     gba_rest := gba_rest g |}.

Definition set_idleOptimization (v : Z) (g : GBA) : GBA :=
  {| logLevel := logLevel g; logHandler := logHandler g; idleOptimization := v;
     realisticTiming := realisticTiming g; rtcSource := rtcSource g;
     luminanceSource := luminanceSource g; rotationSource := rotationSource g;
     keySource := keySource g; video_frameCounter := video_frameCounter g;
     audio_left := audio_left g; audio_right := audio_right g;
     memory_savedata_type := memory_savedata_type g; memory_rom := memory_rom g;
     gba_rest := gba_rest g |}.

Definition set_realisticTiming (v : bool) (g : GBA) : GBA :=
  {| logLevel := logLevel g; logHandler := logHandler g;
     idleOptimization := idleOptimization g; realisticTiming := v;
     rtcSource := rtcSource g; luminanceSource := luminanceSource g;
     rotationSource := rotationSource g; keySource := keySource g;
     video_frameCounter := video_frameCounter g; audio_left := audio_left g;
     audio_right := audio_right g; memory_savedata_type := memory_savedata_type g;
     memory_rom := memory_rom g; gba_rest := gba_rest g |}.

Definition set_rtcSource (v : bool) (g : GBA) : GBA :=
  {| logLevel := logLevel g; logHandler := logHandler g;
     idleOptimization := idleOptimization g; realisticTiming := realisticTiming g;
     rtcSource := v; luminanceSource := luminanceSource g;
     rotationSource := rotationSource g; keySource := keySource g;
     video_frameCounter := video_frameCounter g; audio_left := audio_left g;
     audio_right := audio_right g; memory_savedata_type := memory_savedata_type g;
     memory_rom := memory_rom g; gba_rest := gba_rest g |}.

Definition set_luminanceSource (v : bool) (g : GBA) : GBA :=
  {| logLevel := logLevel g; logHandler := logHandler g;
     idleOptimization := idleOptimization g; realisticTiming := realisticTiming g;
     rtcSource := rtcSource g; luminanceSource := v;
     rotationSource := rotationSource g; keySource := keySource g;
     video_frameCounter := video_frameCounter g; audio_left := audio_left g;
     audio_right := audio_right g; memory_savedata_type := memory_savedata_type g;
     memory_rom := memory_rom g; gba_rest := gba_rest g |}.

Definition set_rotationSource (v : bool) (g : GBA) : GBA :=
  {| logLevel := logLevel g; logHandler := logHandler g;
     idleOptimization := idleOptimization g; realisticTiming := realisticTiming g;
     rtcSource := rtcSource g; luminanceSource := luminanceSource g;
     rotationSource := v; keySource := keySource g;
     video_frameCounter := video_frameCounter g; audio_left := audio_left g;
     audio_right := audio_right g; memory_savedata_type := memory_savedata_type g;
     memory_rom := memory_rom g; gba_rest := gba_rest g |}.

Definition set_keySource (v : option Z) (g : GBA) : GBA :=
  {| logLevel := logLevel g; logHandler := logHandler g;
     idleOptimization := idleOptimization g; realisticTiming := realisticTiming g;
     rtcSource := rtcSource g; luminanceSource := luminanceSource g;
     rotationSource := rotationSource g; keySource := v;
     video_frameCounter := video_frameCounter g; audio_left := audio_left g;
     audio_right := audio_right g; memory_savedata_type := memory_savedata_type g;
     memory_rom := memory_rom g; gba_rest := gba_rest g |}.

Definition set_audio_left (v : blip_t) (g : GBA) : GBA :=
  {| logLevel := logLevel g; logHandler := logHandler g;
     idleOptimization := idleOptimization g; realisticTiming := realisticTiming g;
     rtcSource := rtcSource g; luminanceSource := luminanceSource g;
     rotationSource := rotationSource g; keySource := keySource g;
     video_frameCounter := video_frameCounter g; audio_left := v;
     audio_right := audio_right g; memory_savedata_type := memory_savedata_type g;
     memory_rom := memory_rom g; gba_rest := gba_rest g |}.

Definition set_audio_right (v : blip_t) (g : GBA) : GBA :=
  {| logLevel := logLevel g; logHandler := logHandler g;
     idleOptimization := idleOptimization g; realisticTiming := realisticTiming g;
     rtcSource := rtcSource g; luminanceSource := luminanceSource g;
     rotationSource := rotationSource g; keySource := keySource g;
     video_frameCounter := video_frameCounter g; audio_left := audio_left g;
     audio_right := v; memory_savedata_type := memory_savedata_type g;
     memory_rom := memory_rom g; gba_rest := gba_rest g |}.

Definition set_outputBuffer (v : bool) (r : GBAVideoSoftwareRenderer)
  : GBAVideoSoftwareRenderer :=
  {| outputBuffer := v; outputBufferStride := outputBufferStride r;
     renderer_rest := renderer_rest r |}.

Definition set_outputBufferStride (v : Z) (r : GBAVideoSoftwareRenderer)
  : GBAVideoSoftwareRenderer :=
  {| outputBuffer := outputBuffer r; outputBufferStride := v;
     renderer_rest := renderer_rest r |}.

Definition set_gba (v : GBA) (c : bizctx) : bizctx :=
  {| this := this c; gba := v; cpu := cpu c; renderer := renderer c; vbuff := vbuff c;
     rom := rom c; romvf := romvf c; bios := bios c; biosvf := biosvf c;
     savedata := savedata c; sramvf := sramvf c; rotsource := rotsource c;
     rtcsource := rtcsource c; lumasource := lumasource c; tiltx := tiltx c;
     tilty := tilty c; tiltz := tiltz c; time := time c; light := light c;
     engine_mem := engine_mem c |}.

Definition set_cpu (v : ARMCore) (c : bizctx) : bizctx :=
  {| this := this c; gba := gba c; cpu := v; renderer := renderer c; vbuff := vbuff c;
     rom := rom c; romvf := romvf c; bios := bios c; biosvf := biosvf c;
     savedata := savedata c; sramvf := sramvf c; rotsource := rotsource c;
     rtcsource := rtcsource c; lumasource := lumasource c; tiltx := tiltx c;
     tilty := tilty c; tiltz := tiltz c; time := time c; light := light c;
     engine_mem := engine_mem c |}.

Definition set_renderer (v : GBAVideoSoftwareRenderer) (c : bizctx) : bizctx :=
  {| this := this c; gba := gba c; cpu := cpu c; renderer := v; vbuff := vbuff c;
     rom := rom c; romvf := romvf c; bios := bios c; biosvf := biosvf c;
     savedata := savedata c; sramvf := sramvf c; rotsource := rotsource c;
     rtcsource := rtcsource c; lumasource := lumasource c; tiltx := tiltx c;
     tilty := tilty c; tiltz := tiltz c; time := time c; light := light c;
     engine_mem := engine_mem c |}.

Definition set_vbuff (v : bytes) (c : bizctx) : bizctx :=
  {| this := this c; gba := gba c; cpu := cpu c; renderer := renderer c; vbuff := v;
     rom := rom c; romvf := romvf c; bios := bios c; biosvf := biosvf c;
     savedata := savedata c; sramvf := sramvf c; rotsource := rotsource c;
     rtcsource := rtcsource c; lumasource := lumasource c; tiltx := tiltx c;
     tilty := tilty c; tiltz := tiltz c; time := time c; light := light c;
     engine_mem := engine_mem c |}.

Definition set_rom (v : option nat) (c : bizctx) : bizctx :=
  {| this := this c; gba := gba c; cpu := cpu c; renderer := renderer c;
     vbuff := vbuff c; rom := v; romvf := romvf c; bios := bios c; biosvf := biosvf c;
     savedata := savedata c; sramvf := sramvf c; rotsource := rotsource c;
     rtcsource := rtcsource c; lumasource := lumasource c; tiltx := tiltx c;
     tilty := tilty c; tiltz := tiltz c; time := time c; light := light c;
     engine_mem := engine_mem c |}.

Definition set_romvf (v : option nat) (c : bizctx) : bizctx :=
  {| this := this c; gba := gba c; cpu := cpu c; renderer := renderer c;
     vbuff := vbuff c; rom := rom c; romvf := v; bios := bios c; biosvf := biosvf c;
     savedata := savedata c; sramvf := sramvf c; rotsource := rotsource c;
     rtcsource := rtcsource c; lumasource := lumasource c; tiltx := tiltx c;
     tilty := tilty c; tiltz := tiltz c; time := time c; light := light c;
     engine_mem := engine_mem c |}.

Definition set_bios (v : bytes) (c : bizctx) : bizctx :=
  {| this := this c; gba := gba c; cpu := cpu c; renderer := renderer c;
     vbuff := vbuff c; rom := rom c; romvf := romvf c; bios := v; biosvf := biosvf c;
     savedata := savedata c; sramvf := sramvf c; rotsource := rotsource c;
     rtcsource := rtcsource c; lumasource := lumasource c; tiltx := tiltx c;
     tilty := tilty c; tiltz := tiltz c; time := time c; light := light c;
     engine_mem := engine_mem c |}.

Definition set_biosvf (v : option nat) (c : bizctx) : bizctx :=
  {| this := this c; gba := gba c; cpu := cpu c; renderer := renderer c;
     vbuff := vbuff c; rom := rom c; romvf := romvf c; bios := bios c; biosvf := v;
     savedata := savedata c; sramvf := sramvf c; rotsource := rotsource c;
     rtcsource := rtcsource c; lumasource := lumasource c; tiltx := tiltx c;
     tilty := tilty c; tiltz := tiltz c; time := time c; light := light c;
     engine_mem := engine_mem c |}.

Definition set_savedata (v : bytes) (c : bizctx) : bizctx :=
  {| this := this c; gba := gba c; cpu := cpu c; renderer := renderer c;
     vbuff := vbuff c; rom := rom c; romvf := romvf c; bios := bios c;
     biosvf := biosvf c; savedata := v; sramvf := sramvf c; rotsource := rotsource c;
     rtcsource := rtcsource c; lumasource := lumasource c; tiltx := tiltx c;
     tilty := tilty c; tiltz := tiltz c; time := time c; light := light c;
     engine_mem := engine_mem c |}.

Definition set_sramvf (v : option nat) (c : bizctx) : bizctx :=
  {| this := this c; gba := gba c; cpu := cpu c; renderer := renderer c;
     vbuff := vbuff c; rom := rom c; romvf := romvf c; bios := bios c;
     biosvf := biosvf c; savedata := savedata c; sramvf := v; rotsource := rotsource c;
     rtcsource := rtcsource c; lumasource := lumasource c; tiltx := tiltx c;
     tilty := tilty c; tiltz := tiltz c; time := time c; light := light c;
     engine_mem := engine_mem c |}.

Definition set_rotsource (v : GBARotationSource) (c : bizctx) : bizctx :=
  {| this := this c; gba := gba c; cpu := cpu c; renderer := renderer c;
     vbuff := vbuff c; rom := rom c; romvf := romvf c; bios := bios c;
     biosvf := biosvf c; savedata := savedata c; sramvf := sramvf c; rotsource := v;
     rtcsource := rtcsource c; lumasource := lumasource c; tiltx := tiltx c;
     tilty := tilty c; tiltz := tiltz c; time := time c; light := light c;
     engine_mem := engine_mem c |}.

Definition set_rtcsource (v : GBARTCSource) (c : bizctx) : bizctx :=
  {| this := this c; gba := gba c; cpu := cpu c; renderer := renderer c;
     vbuff := vbuff c; rom := rom c; romvf := romvf c; bios := bios c;
     biosvf := biosvf c; savedata := savedata c; sramvf := sramvf c;
     rotsource := rotsource c; rtcsource := v; lumasource := lumasource c;
     tiltx := tiltx c; tilty := tilty c; tiltz := tiltz c; time := time c;
     light := light c; engine_mem := engine_mem c |}.

Definition set_lumasource (v : GBALuminanceSource) (c : bizctx) : bizctx :=
  {| this := this c; gba := gba c; cpu := cpu c; renderer := renderer c;
     vbuff := vbuff c; rom := rom c; romvf := romvf c; bios := bios c;
     biosvf := biosvf c; savedata := savedata c; sramvf := sramvf c;
     rotsource := rotsource c; rtcsource := rtcsource c; lumasource := v;
     tiltx := tiltx c; tilty := tilty c; tiltz := tiltz c; time := time c;
     light := light c; engine_mem := engine_mem c |}.

Definition set_tiltx (v : Z) (c : bizctx) : bizctx :=
  {| this := this c; gba := gba c; cpu := cpu c; renderer := renderer c;
     vbuff := vbuff c; rom := rom c; romvf := romvf c; bios := bios c;
     biosvf := biosvf c; savedata := savedata c; sramvf := sramvf c;
     rotsource := rotsource c; rtcsource := rtcsource c; lumasource := lumasource c;
     tiltx := v; tilty := tilty c; tiltz := tiltz c; time := time c; light := light c;
     engine_mem := engine_mem c |}.

Definition set_tilty (v : Z) (c : bizctx) : bizctx :=
  {| this := this c; gba := gba c; cpu := cpu c; renderer := renderer c;
     vbuff := vbuff c; rom := rom c; romvf := romvf c; bios := bios c;
     biosvf := biosvf c; savedata := savedata c; sramvf := sramvf c;
     rotsource := rotsource c; rtcsource := rtcsource c; lumasource := lumasource c;
     tiltx := tiltx c; tilty := v; tiltz := tiltz c; time := time c; light := light c;
     engine_mem := engine_mem c |}.

Definition set_tiltz (v : Z) (c : bizctx) : bizctx :=
  {| this := this c; gba := gba c; cpu := cpu c; renderer := renderer c;
     vbuff := vbuff c; rom := rom c; romvf := romvf c; bios := bios c;
     biosvf := biosvf c; savedata := savedata c; sramvf := sramvf c;
     rotsource := rotsource c; rtcsource := rtcsource c; lumasource := lumasource c;
     tiltx := tiltx c; tilty := tilty c; tiltz := v; time := time c; light := light c;
     engine_mem := engine_mem c |}.

Definition set_time (v : Z) (c : bizctx) : bizctx :=
  {| this := this c; gba := gba c; cpu := cpu c; renderer := renderer c;
     vbuff := vbuff c; rom := rom c; romvf := romvf c; bios := bios c;
     biosvf := biosvf c; savedata := savedata c; sramvf := sramvf c;
     rotsource := rotsource c; rtcsource := rtcsource c; lumasource := lumasource c;
     tiltx := tiltx c; tilty := tilty c; tiltz := tiltz c; time := v; light := light c;
     engine_mem := engine_mem c |}.

Definition set_light (v : Z) (c : bizctx) : bizctx :=
  {| this := this c; gba := gba c; cpu := cpu c; renderer := renderer c;
     vbuff := vbuff c; rom := rom c; romvf := romvf c; bios := bios c;
     biosvf := biosvf c; savedata := savedata c; sramvf := sramvf c;
     rotsource := rotsource c; rtcsource := rtcsource c; lumasource := lumasource c;
     tiltx := tiltx c; tilty := tilty c; tiltz := tiltz c; time := time c; light := v;
     engine_mem := engine_mem c |}.

Definition set_engine_mem (v : option nat) (c : bizctx) : bizctx :=
  {| this := this c; gba := gba c; cpu := cpu c; renderer := renderer c;
     vbuff := vbuff c; rom := rom c; romvf := romvf c; bios := bios c;
     biosvf := biosvf c; savedata := savedata c; sramvf := sramvf c;
     rotsource := rotsource c; rtcsource := rtcsource c; lumasource := lumasource c;
     tiltx := tiltx c; tilty := tilty c; tiltz := tiltz c; time := time c;
     light := light c; engine_mem := v |}.

Definition GBA_zero : GBA := {|
  logLevel := 0; logHandler := None; idleOptimization := 0;
  realisticTiming := false; rtcSource := false; luminanceSource := false;
  rotationSource := false; keySource := None; video_frameCounter := 0;
  audio_left := blip_null; audio_right := blip_null;
  memory_savedata_type := SavedataType_zero; memory_rom := [];
  gba_rest := GBARest_zero |}.

Definition machine (c : bizctx) : Machine :=
  {| m_gba := gba c; m_cpu := cpu c; m_renderer := renderer c |}.

Definition set_machine (m : Machine) (c : bizctx) : bizctx :=
  set_renderer (m_renderer m) (set_cpu (m_cpu m) (set_gba (m_gba m) c)).

Definition footprint (c : bizctx) : Footprint :=
  {| fp_machine := machine c; fp_vbuff := vbuff c; fp_savedata := savedata c |}.

Definition set_footprint (fp : Footprint) (c : bizctx) : bizctx :=
  set_savedata (fp_savedata fp) (set_vbuff (fp_vbuff fp) (set_machine (fp_machine fp) c)).

End State.

(** ** The engine's entry points

    The calls the bridge makes into the engine (gba/gba.h, arm/arm.h,
    gba/video.h, gba/audio.h, gba/supervisor/overrides.h) and into the audio
    ring buffer (third-party blip_buf).  Their code is not the bridge's; they
    are an interface, and every statement below holds for each engine that
    implements it. *)
Class Engine `{EngineTypes} : Type := {
  GBACreate : GBA → GBA;
  ARMSetComponents : Machine → Machine;
  ARMInit : Machine → Machine;
  GBAVideoSoftwareRendererCreate : GBAVideoSoftwareRenderer → GBAVideoSoftwareRenderer;
  GBAVideoAssociateRenderer : Machine → Machine;
  GBAAudioResizeBuffer : GBA → Z → GBA;
  blip_set_rates : blip_t → Z → Z → blip_t;
  (* [GBAIsBIOS(vf)] and [GBAIsROM(vf)], on the bytes [vf] views *)
  GBAIsBIOS : bytes → bool;
  GBAIsROM : bytes → bool;
  GBALoadBIOS : GBA → bytes → GBA;
  (* [GBALoadROM(gba, romvf, sramvf, NULL)], on the bytes the two files view *)
  GBALoadROM : GBA → bytes → bytes → GBA;
  (* [GBAOverrideFind(NULL, &override)] looks [override.id] up and fills the rest *)
  GBAOverrideFind : bytes → option GBACartridgeOverride;
  GBAOverrideApply : GBA → GBACartridgeOverride → GBA;
  ARMReset : Machine → Machine;
  (* [ARMRunLoop(&ctx->cpu)]: one step, with what the accessors return to it *)
  ARMRunLoop : Sensors → Footprint → Footprint;
  blip_samples_avail : blip_t → Z;
  (* the samples a read of at most [count] yields, and the buffer afterwards *)
  blip_take : blip_t → Z → list Z * blip_t;
}.

(** The successor of a frame counter, an [int32_t]. *)
Definition frame_succ (fc : Z) : Z := CInt.int32 (fc + 1).

(** What the statements below assume of an engine.  A step leaves the frame
    counter alone or completes one frame ("frame boundary: [...] signaled by
    a monotonically increasing counter"); the frame buffer is an array of
    fixed size; a read of the ring buffer yields as many samples as are asked
    for and available. *)
Class EngineOk `{Engine} : Prop := {
  ARMRunLoop_frameCounter s fp :
    video_frameCounter (m_gba (fp_machine (ARMRunLoop s fp)))
      = video_frameCounter (m_gba (fp_machine fp))
    ∨ video_frameCounter (m_gba (fp_machine (ARMRunLoop s fp)))
      = frame_succ (video_frameCounter (m_gba (fp_machine fp)));
  ARMRunLoop_vbuff s fp :
    length (fp_vbuff (ARMRunLoop s fp)) = length (fp_vbuff fp);
  blip_samples_avail_nonneg b : (0 ≤ blip_samples_avail b)%Z;
  blip_take_length b count :
    (0 ≤ count)%Z →
    length (blip_take b count).1 = Z.to_nat (Z.min count (blip_samples_avail b));
}.

(** ** The bridge *)

Section Bridge.
Context `{Platform} `{Engine} `{Allocator}.

(** *** Peripheral accessors

    Each accessor receives the address of a capability object and steps back
    from it to the [bizctx] that embeds it; here it receives that [bizctx]. *)

Definition GetX (c : bizctx) : Z := CInt.int32 (Z.shiftl (tiltx c) 16).
Definition GetY (c : bizctx) : Z := CInt.int32 (Z.shiftl (tilty c) 16).
Definition GetZ (c : bizctx) : Z := CInt.int32 (Z.shiftl (tiltz c) 16).
Definition GetLight (c : bizctx) : Z := CInt.uint8 (light c).
Definition GetTime (c : bizctx) : Z := CInt.sint time_t_bits (time c).

(** A call through a function pointer of a capability object embedded in
    [c].  [Dummy] returns nothing; [0] stands for that. *)
Definition call_hook (f : option hook) (c : bizctx) : result Z :=
  match f with
  | None => Undefined
  | Some Hook_Dummy => Ok 0%Z
  | Some Hook_GetX => Ok (GetX c)
  | Some Hook_GetY => Ok (GetY c)
  | Some Hook_GetZ => Ok (GetZ c)
  | Some Hook_GetLight => Ok (GetLight c)
  | Some Hook_GetTime => Ok (GetTime c)
  end.

(** What the engine reads when it calls the accessors of [c]. *)
Definition sensors (c : bizctx) : Sensors := {|
  sens_tiltX := call_hook (readTiltX (rotsource c)) c;
  sens_tiltY := call_hook (readTiltY (rotsource c)) c;
  sens_gyroZ := call_hook (readGyroZ (rotsource c)) c;
  sens_luminance := call_hook (readLuminance (lumasource c)) c;
  sens_unixTime := call_hook (unixTime (rtcsource c)) c;
|}.

(** *** Engine teardown and bring-up, on the ledger *)

(** Modelled from the spec: the memory side of [ARMInit] (arm/arm.h, not
    under src/), which initialises the engine instance through the CPU's
    master component; the instance then owns memory until [GBADestroy]. *)
Definition engine_acquire (h : heap) (c : bizctx) : bizctx * heap :=
  let '(a, h) := alloc h BlkEngine in (set_engine_mem (Some a) c, h).

(** Modelled from the spec: [GBADestroy] (gba/gba.h, not under src/), "tears
    down the engine instance": it releases what the instance owns. *)
Definition GBADestroy (h : heap) (c : bizctx) : result heap :=
  match engine_mem c with
  | None => Undefined
  | Some a =>
      match h !! a with
      | Some BlkEngine => Ok (delete a h)
      | _ => Undefined
      end
  end.

(** *** BizDestroy *)

Definition BizDestroy (h : heap) (c : bizctx) : result heap :=
  h ← VFile_close h (romvf c);
  let c := set_romvf None c in
  h ← free h (rom c);
  let c := set_rom None c in
  h ← (if biosvf c is Some _ then VFile_close h (biosvf c) else Ok h);
  h ← VFile_close h (sramvf c);
  h ← GBADestroy h c;
  free h (Some (this c)).

(** *** BizCreate *)

(** The struct [calloc] returns at address [p]: every member zero. *)
Definition bizctx_zero (p : nat) : bizctx := {|
  this := p;
  gba := GBA_zero;
  cpu := ARMCore_zero;
  renderer := {| outputBuffer := false; outputBufferStride := 0;
                 renderer_rest := RendererRest_zero |};
  vbuff := replicate (Z.to_nat FRAME_BYTES) 0%Z;
  rom := None;
  romvf := None;
  bios := replicate (Z.to_nat 16384) 0%Z;
  biosvf := None;
  savedata := replicate (Z.to_nat SIZE_CART_FLASH1M) 0%Z;
  sramvf := None;
  rotsource := {| rot_sample := None; readTiltX := None;
                  readTiltY := None; readGyroZ := None |};
  rtcsource := {| rtc_sample := None; unixTime := None |};
  lumasource := {| luma_sample := None; readLuminance := None |};
  tiltx := 0; tilty := 0; tiltz := 0; time := 0; light := 0;
  engine_mem := None;
|}.

(** [ctx-> ...] on a pointer that may be null. *)
Definition deref (ctx : option bizctx) : result bizctx :=
  match ctx with
  | Some c => Ok c
  | None => Undefined
  end.

(** Lines 103-123: the engine instance, its renderer and its audio. *)
Definition create_engine (h : heap) (c : bizctx) : bizctx * heap :=
  let c := set_gba (GBACreate (gba c)) c in
  let c := set_machine (ARMSetComponents (machine c)) c in
  let '(c, h) := engine_acquire h (set_machine (ARMInit (machine c)) c) in
  let c := set_gba (set_logLevel 0 (gba c)) c in
  let c := set_gba (set_logHandler (Some logdebug) (gba c)) c in
  let c := set_gba (set_idleOptimization IDLE_LOOP_IGNORE (gba c)) c in
  let c := set_gba (set_realisticTiming true (gba c)) c in
  let c := set_gba (set_rtcSource true (gba c)) c in
  let c := set_gba (set_luminanceSource true (gba c)) c in
  let c := set_gba (set_rotationSource true (gba c)) c in
  let c := set_renderer (GBAVideoSoftwareRendererCreate (renderer c)) c in
  let c := set_renderer (set_outputBuffer true (renderer c)) c in
  let c := set_renderer (set_outputBufferStride VIDEO_HORIZONTAL_PIXELS (renderer c)) c in
  let c := set_machine (GBAVideoAssociateRenderer (machine c)) c in
  let c := set_gba (GBAAudioResizeBuffer (gba c) 1024) c in
  let c := set_gba (set_audio_left
             (blip_set_rates (audio_left (gba c)) GBA_ARM7TDMI_FREQUENCY 44100) (gba c)) c in
  let c := set_gba (set_audio_right
             (blip_set_rates (audio_right (gba c)) GBA_ARM7TDMI_FREQUENCY 44100) (gba c)) c in
  (c, h).

(** Lines 139-146: the accessors are installed. *)
Definition wire_hooks (c : bizctx) : bizctx :=
  let c := set_rotsource {| rot_sample := Some Hook_Dummy; readTiltX := Some Hook_GetX;
                            readTiltY := Some Hook_GetY; readGyroZ := Some Hook_GetZ |} c in
  let c := set_lumasource {| luma_sample := Some Hook_Dummy;
                             readLuminance := Some Hook_GetLight |} c in
  set_rtcsource {| rtc_sample := Some Hook_Dummy; unixTime := Some Hook_GetTime |} c.

(** [bios] is null ([None]) or points at the caller's bytes.  The result is
    the new heap and the pointer returned. *)
Definition BizCreate (h : heap) (bios_arg : option bytes) : result (heap * option bizctx) :=
  let '(p, h) := calloc_bizctx h in
  let ctx := bizctx_zero <$> p in
  (* line 100: [memset(ctx->savedata, 0xff, sizeof(ctx->savedata))] *)
  c ← deref ctx;
  let c := set_savedata (memset (savedata c) 0xff) c in
  (* line 101: [if (ctx)] *)
  match ctx with
  | Some _ =>
      let '(c, h) := create_engine h c in
      match bios_arg with
      | Some b =>
          image ← memcpy (bios c) b 16384;
          let c := set_bios image c in
          let '(vf, h) := VFileFromMemory h VfBios in
          let c := set_biosvf vf c in
          if negb (GBAIsBIOS (bios c)) then
            h ← VFile_close h (biosvf c);
            h ← GBADestroy h c;
            h ← free h (Some (this c));
            Ok (h, None)
          else
            let c := set_gba (GBALoadBIOS (gba c) (bios c)) c in
            Ok (h, Some (wire_hooks c))
      | None => Ok (h, Some (wire_hooks c))
      end
  | None => Ok (h, None)
  end.

(** *** BizReset and BizLoad *)

Definition BizReset (c : bizctx) : bizctx :=
  set_machine (ARMReset (machine c)) c.

(** The result is the new heap, the context and the [int] returned. *)
Definition BizLoad (h : heap) (c : bizctx) (data : bytes) (length : Z)
  : result (heap * bizctx * Z) :=
  let '(p, h) := malloc h length in
  let c := set_rom p c in
  if rom c is None then Ok (h, c, 0%Z) else
  h ← memcpy_block h (rom c) data length;
  let '(vf, h) := VFileFromMemory h (VfRom (default 0 (rom c))) in
  let c := set_romvf vf c in
  image ← block_bytes h (rom c);
  if negb (GBAIsROM image) then
    h ← VFile_close h (romvf c);
    let c := set_romvf None c in
    h ← free h (rom c);
    let c := set_rom None c in
    Ok (h, c, 0%Z)
  else
    let '(vf, h) := VFileFromMemory h VfSavedata in
    let c := set_sramvf vf c in
    let c := set_gba (GBALoadROM (gba c) image (savedata c)) c in
    (* lines 178-180: [memcpy(override.id, &cart->id, sizeof(override.id))],
       with [cart] the address in [gba.memory.rom] *)
    id ← memcpy (replicate OVERRIDE_ID_SIZE 0%Z)
                (drop CARTRIDGE_ID_OFFSET (memory_rom (gba c)))
                (Z.of_nat OVERRIDE_ID_SIZE);
    let c := match GBAOverrideFind id with
             | Some override => set_gba (GBAOverrideApply (gba c) override) c
             | None => c
             end in
    let c := BizReset c in
    Ok (h, c, 1%Z).

(** *** blit *)

(** One pixel of the loop body: lines 200-203, with [dst] at offset [d] and
    [src] at offset [s]. *)
Definition blit_pixel (dst src : bytes) (d s : nat) : result bytes :=
  b ← load src s;
  dst ← store dst (d + 2) (CInt.uint8 (Z.lor b (Z.shiftr b 5)));
  b ← load src (s + 1);
  dst ← store dst (d + 1) (CInt.uint8 (Z.lor b (Z.shiftr b 5)));
  b ← load src (s + 2);
  dst ← store dst d (CInt.uint8 (Z.lor b (Z.shiftr b 5)));
  store dst (d + 3) 0xff.

(** The [while (dst < dst_end)] loop: four pixels a turn. *)
Fixpoint blit_loop (fuel : nat) (dst src : bytes) (d s dst_end : nat) : result bytes :=
  if decide (d < dst_end) then
    match fuel with
    | O => OutOfFuel
    | S fuel =>
        dst ← blit_pixel dst src d s;
        let d := d + 4 in let s := s + 4 in
        dst ← blit_pixel dst src d s;
        let d := d + 4 in let s := s + 4 in
        dst ← blit_pixel dst src d s;
        let d := d + 4 in let s := s + 4 in
        dst ← blit_pixel dst src d s;
        let d := d + 4 in let s := s + 4 in
        blit_loop fuel dst src d s dst_end
    end
  else Ok dst.

(** [dst] advances by 16 a turn, so [dst_end] turns are enough. *)
Definition blit (dst src : bytes) : result bytes :=
  let dst_end := Z.to_nat FRAME_BYTES in
  blit_loop dst_end dst src 0 0 dst_end.

(** *** BizAdvance *)

(** Modelled from the spec: [blip_read_samples(b, out, count, stereo)] of the
    audio ring buffer (third-party blip_buf, not under src/), which "drains"
    a channel "interleaved into the caller's buffer": the samples read go to
    every second slot of [out] when [stereo] is set, to consecutive slots
    otherwise.  [off] is where [out] points in the caller's buffer. *)
Fixpoint write_strided (out : list Z) (off step : nat) (samples : list Z) : result (list Z) :=
  match samples with
  | [] => Ok out
  | x :: samples => out ← store out off x; write_strided out (off + step) step samples
  end.

Definition blip_read_samples (b : blip_t) (out : list Z) (off : nat) (count : Z)
    (stereo : bool) : result (blip_t * list Z) :=
  let '(samples, b) := blip_take b count in
  out ← write_strided out off (if stereo then 2 else 1) samples;
  Ok (b, out).

(** [ARMRunLoop(&ctx->cpu)]. *)
Definition run_cpu (c : bizctx) : bizctx :=
  set_footprint (ARMRunLoop (sensors c) (footprint c)) c.

(** Lines 237-240. *)
Fixpoint frame_loop (fuel : nat) (frameCount : Z) (c : bizctx) : result bizctx :=
  if decide (frameCount = video_frameCounter (gba c)) then
    match fuel with
    | O => OutOfFuel
    | S fuel => frame_loop fuel frameCount (run_cpu c)
    end
  else Ok c.

(** Lines 230-235: the arguments are latched. *)
Definition latch (c : bizctx) (keys time gyrox gyroy gyroz luma : Z) : bizctx :=
  let c := set_gba (set_keySource (Some keys) (gba c)) c in
  let c := set_light luma c in
  let c := set_time time c in
  let c := set_tiltx gyrox c in
  let c := set_tilty gyroy c in
  set_tiltz gyroz c.

(** What one call hands back: the context, the caller's frame buffer, the
    count stored through [nsamp], and the caller's audio buffer (a list of
    [int16_t] slots). *)
Record advanced : Type := {
  adv_ctx : bizctx;
  adv_vbuff : bytes;
  adv_nsamp : Z;
  adv_sbuff : list Z;
}.

Definition BizAdvance (fuel : nat) (c : bizctx) (keys : Z) (dst_vbuff : bytes)
    (sbuff : list Z) (time gyrox gyroy gyroz luma : Z) : result advanced :=
  let c := latch c keys time gyrox gyroy gyroz luma in
  let frameCount := video_frameCounter (gba c) in
  c ← frame_loop fuel frameCount c;
  dst_vbuff ← blit dst_vbuff (vbuff c);
  let nsamp := blip_samples_avail (audio_left (gba c)) in
  let nsamp := if decide (nsamp > 1024)%Z then 1024%Z else nsamp in
  '(bl, sbuff) ← blip_read_samples (audio_left (gba c)) sbuff 0 1024 true;
  let c := set_gba (set_audio_left bl (gba c)) c in
  '(br, sbuff) ← blip_read_samples (audio_right (gba c)) sbuff 1 1024 true;
  let c := set_gba (set_audio_right br (gba c)) c in
  Ok {| adv_ctx := c; adv_vbuff := dst_vbuff; adv_nsamp := nsamp; adv_sbuff := sbuff |}.

(** *** Save RAM *)

Definition BizGetSaveRamSize (c : bizctx) : Z :=
  match memory_savedata_type (gba c) with
  | SAVEDATA_AUTODETECT
  | SAVEDATA_FLASH1M => SIZE_CART_FLASH1M
  | SAVEDATA_FLASH512 => SIZE_CART_FLASH512
  | SAVEDATA_EEPROM => SIZE_CART_EEPROM
  | SAVEDATA_SRAM => SIZE_CART_SRAM
  | SAVEDATA_FORCE_NONE => 0%Z   (* with [default], which no enumerator reaches *)
  end.

(** The result is the caller's buffer after the copy. *)
Definition BizGetSaveRam (c : bizctx) (data : bytes) : result bytes :=
  memcpy data (savedata c) (BizGetSaveRamSize c).

Definition BizPutSaveRam (c : bizctx) (data : bytes) : result bizctx :=
  image ← memcpy (savedata c) data (BizGetSaveRamSize c);
  Ok (set_savedata image c).

End Bridge.

(** ** Vocabulary of the statements *)

(** The expansion [blit] applies to a channel byte, stored to a [uint8_t]. *)
Definition expand (v : Z) : Z := CInt.uint8 (Z.lor v (Z.shiftr v 5)).

(** Pixel [p] of [out] is pixel [p] of [src] converted: bytes 0 and 2
    exchanged, each colour byte expanded, byte 3 set to 0xFF. *)
Definition pixel_converted (src out : bytes) (p : nat) : Prop :=
  ∃ b0 b1 b2,
    src !! (4 * p) = Some b0 ∧ src !! (4 * p + 1) = Some b1 ∧
    src !! (4 * p + 2) = Some b2 ∧
    out !! (4 * p) = Some (expand b2) ∧ out !! (4 * p + 1) = Some (expand b1) ∧
    out !! (4 * p + 2) = Some (expand b0) ∧ out !! (4 * p + 3) = Some 0xff%Z.

(** The arguments of one call of [BizAdvance]. *)
Record advance_args : Type := {
  arg_keys : Z;
  arg_vbuff : bytes;
  arg_sbuff : list Z;
  arg_time : Z;
  arg_gyrox : Z;
  arg_gyroy : Z;
  arg_gyroz : Z;
  arg_luma : Z;
}.

(** The values the C parameter types admit: [int64_t time],
    [int16_t gyrox, gyroy, gyroz], [uint8_t luma]. *)
Definition args_in_range (x : advance_args) : Prop :=
  CInt.in_sint 64 (arg_time x) ∧ CInt.in_sint 16 (arg_gyrox x) ∧
  CInt.in_sint 16 (arg_gyroy x) ∧ CInt.in_sint 16 (arg_gyroz x) ∧
  CInt.is_uint8 (arg_luma x).

(** What the accessors should hand the engine after [x] was latched. *)
Definition latched_view (x : advance_args) : Sensors := {|
  sens_tiltX := Ok (Z.shiftl (arg_gyrox x) 16);
  sens_tiltY := Ok (Z.shiftl (arg_gyroy x) 16);
  sens_gyroZ := Ok (Z.shiftl (arg_gyroz x) 16);
  sens_luminance := Ok (arg_luma x);
  sens_unixTime := Ok (arg_time x);
|}.

Section Vocabulary.
Context `{Platform} `{Engine} `{Allocator}.

(** [BizCreate] after a served [calloc]: the struct it works on. *)
Definition created_struct (h : heap) : bizctx :=
  let c := bizctx_zero (fresh (dom h)) in
  (create_engine (<[fresh (dom h) := BlkContext]> h)
     (set_savedata (memset (savedata c) 0xff) c)).1.

(** The bytes of the [id] member of the cartridge header at the start of
    [mapped], and whether [mapped] has them: at least [sizeof(override.id)]
    bytes follow the member's offset. *)
Definition header_id (mapped : bytes) : bytes :=
  take OVERRIDE_ID_SIZE (drop CARTRIDGE_ID_OFFSET mapped).
Definition holds_id (mapped : bytes) : Prop :=
  OVERRIDE_ID_SIZE ≤ length (drop CARTRIDGE_ID_OFFSET mapped).
#[global] Instance holds_id_dec (mapped : bytes) : Decision (holds_id mapped) :=
  Nat.le_dec _ _.

(** The ROM the engine has mapped once [GBALoadROM] was given [image]. *)
Definition mapped_rom (c : bizctx) (image : bytes) : bytes :=
  memory_rom (GBALoadROM (gba c) image (savedata c)).

(** The context a successful [BizLoad] returns, from the one it was given,
    the ROM image and the three addresses it obtained. *)
Definition mounted (c : bizctx) (image : bytes) (p v s : nat) : bizctx :=
  let c := set_sramvf (Some s) (set_romvf (Some v) (set_rom (Some p) c)) in
  let c := set_gba (GBALoadROM (gba c) image (savedata c)) c in
  let c := match GBAOverrideFind (header_id (memory_rom (gba c))) with
           | Some override => set_gba (GBAOverrideApply (gba c) override) c
           | None => c
           end in
  BizReset c.

(** The context after [n] turns of the frame loop's body. *)
Fixpoint run_steps (n : nat) (c : bizctx) : bizctx :=
  match n with
  | O => c
  | S n => run_steps n (run_cpu c)
  end.

(** [n] turns of the frame loop's body in each of which the accessors, every
    time the engine calls one, return what [s] holds. *)
Fixpoint run_seen (s : Sensors) (n : nat) (c : bizctx) : bizctx :=
  match n with
  | O => c
  | S n => run_seen s n (set_footprint (ARMRunLoop s (footprint c)) c)
  end.

(** The engine completes its next frame at step [n] and not before. *)
Definition first_frame (n : nat) (c : bizctx) : Prop :=
  (∀ k, k < n → video_frameCounter (gba (run_steps k c)) = video_frameCounter (gba c)) ∧
  video_frameCounter (gba (run_steps n c)) ≠ video_frameCounter (gba c).

(** The slots of the caller's audio buffer after the two channels have been
    drained into it. *)
Definition interleaved (ls rs sbuff out : list Z) : Prop :=
  length out = length sbuff ∧
  (∀ i x, ls !! i = Some x → out !! (2 * i) = Some x) ∧
  (∀ i x, rs !! i = Some x → out !! (2 * i + 1) = Some x) ∧
  (∀ i, length ls ≤ i → out !! (2 * i) = sbuff !! (2 * i)) ∧
  (∀ i, length rs ≤ i → out !! (2 * i + 1) = sbuff !! (2 * i + 1)).

(** The context once both channels have been drained. *)
Definition drained (c : bizctx) : bizctx :=
  let c := set_gba (set_audio_left (blip_take (audio_left (gba c)) 1024).2 (gba c)) c in
  set_gba (set_audio_right (blip_take (audio_right (gba c)) 1024).2 (gba c)) c.

(** A ring buffer from which a read removes the samples it returns and no
    others, which is what blip_buf.h (third-party, not under src/) says of
    [blip_read_samples]: "reads and removes at most 'count' samples". *)
Definition reads_remove : Prop :=
  ∀ (b : blip_t) (count : Z), (0 ≤ count)%Z →
    blip_samples_avail (blip_take b count).2
      = (blip_samples_avail b - Z.of_nat (length (blip_take b count).1))%Z.

Definition latch_args (c : bizctx) (x : advance_args) : bizctx :=
  latch c (arg_keys x) (arg_time x) (arg_gyrox x) (arg_gyroy x) (arg_gyroz x) (arg_luma x).

Definition advance (fuel : nat) (c : bizctx) (x : advance_args) : result advanced :=
  BizAdvance fuel c (arg_keys x) (arg_vbuff x) (arg_sbuff x) (arg_time x)
    (arg_gyrox x) (arg_gyroy x) (arg_gyroz x) (arg_luma x).

(** A sequence of calls on one context. *)
Fixpoint advance_all (fuel : nat) (c : bizctx) (calls : list advance_args) : result bizctx :=
  match calls with
  | [] => Ok c
  | x :: calls => a ← advance fuel c x; advance_all fuel (adv_ctx a) calls
  end.

(** The accessors are installed as [BizCreate] installs them. *)
Definition wired (c : bizctx) : Prop :=
  rotsource c = {| rot_sample := Some Hook_Dummy; readTiltX := Some Hook_GetX;
                   readTiltY := Some Hook_GetY; readGyroZ := Some Hook_GetZ |} ∧
  lumasource c = {| luma_sample := Some Hook_Dummy; readLuminance := Some Hook_GetLight |} ∧
  rtcsource c = {| rtc_sample := Some Hook_Dummy; unixTime := Some Hook_GetTime |}.

(** The contexts on which no call of [BizLoad] has succeeded: made by
    [BizCreate], then taken through failed loads, resets, frames and
    save-RAM writes. *)
Inductive unloaded : heap → bizctx → Prop :=
| unloaded_Create h0 bios_arg h c :
    BizCreate h0 bios_arg = Ok (h, Some c) → unloaded h c
| unloaded_Load h c data len h' c' :
    unloaded h c → BizLoad h c data len = Ok (h', c', 0%Z) → unloaded h' c'
| unloaded_Reset h c :
    unloaded h c → unloaded h (BizReset c)
| unloaded_Advance h c fuel x a :
    unloaded h c → advance fuel c x = Ok a → unloaded h (adv_ctx a)
| unloaded_PutSaveRam h c data c' :
    unloaded h c → BizPutSaveRam c data = Ok c' → unloaded h c'.

End Vocabulary.

(** ** A small engine

    An implementation of the engine's interface that can be run: it shows
    that the assumptions on engines can be met, and lets the bridge be
    evaluated on concrete inputs.  Its CPU completes a frame every third
    step and then queues one sample on each audio channel. *)

Module Toy.

Definition types : EngineTypes := {|
  ARMCore := nat;                       (* steps run so far *)
  GBARest := unit;
  RendererRest := unit;
  blip_t := list Z;                     (* the queued samples *)
  GBACartridgeOverride := SavedataType; (* a save-type hint *)
  ARMCore_zero := 0;
  GBARest_zero := tt;
  RendererRest_zero := tt;
  blip_null := [];
  SavedataType_zero := SAVEDATA_FORCE_NONE;
|}.

#[local] Existing Instance types.

Definition set_frame (fc : Z) (l r : list Z) (g : GBA) : GBA :=
  {| logLevel := logLevel g; logHandler := logHandler g;
     idleOptimization := idleOptimization g; realisticTiming := realisticTiming g;
     rtcSource := rtcSource g; luminanceSource := luminanceSource g;
     rotationSource := rotationSource g; keySource := keySource g;
     video_frameCounter := fc; audio_left := l; audio_right := r;
     memory_savedata_type := memory_savedata_type g; memory_rom := memory_rom g;
     gba_rest := gba_rest g |}.

Definition set_cart (t : SavedataType) (image : bytes) (g : GBA) : GBA :=
  {| logLevel := logLevel g; logHandler := logHandler g;
     idleOptimization := idleOptimization g; realisticTiming := realisticTiming g;
     rtcSource := rtcSource g; luminanceSource := luminanceSource g;
     rotationSource := rotationSource g; keySource := keySource g;
     video_frameCounter := video_frameCounter g; audio_left := audio_left g;
     audio_right := audio_right g;
     memory_savedata_type := t; memory_rom := image;
     gba_rest := gba_rest g |}.

(** An image is recognised by the branch opcode in its fourth byte. *)
Definition has_branch (image : bytes) : bool :=
  bool_decide (image !! 3 = Some 0xEA%Z).

Definition step (s : Sensors) (fp : Footprint) : Footprint :=
  let m := fp_machine fp in
  let g := m_gba m in
  let n := S (m_cpu m) in
  let g := if decide (n `mod` 3 = 0)
           then set_frame (frame_succ (video_frameCounter g))
                  (audio_left g ++ [Z.of_nat n]) (audio_right g ++ [- Z.of_nat n]%Z) g
           else g in
  {| fp_machine := {| m_gba := g; m_cpu := n; m_renderer := m_renderer m |};
     fp_vbuff := <[0 := 0xF8%Z]> (fp_vbuff fp);
     fp_savedata := fp_savedata fp |}.

Definition engine : Engine := {|
  GBACreate := λ g, set_cart SAVEDATA_AUTODETECT [] g;
  ARMSetComponents := λ m, m;
  ARMInit := λ m, m;
  GBAVideoSoftwareRendererCreate := λ r, r;
  GBAVideoAssociateRenderer := λ m, m;
  GBAAudioResizeBuffer := λ g _, g;
  blip_set_rates := λ b _ _, b;
  GBAIsBIOS := has_branch;
  GBAIsROM := has_branch;
  GBALoadBIOS := λ g _, g;
  GBALoadROM := λ g image _, set_cart (memory_savedata_type g) image g;
  GBAOverrideFind := λ id, if decide (id = [66; 80; 69; 69]%Z) then Some SAVEDATA_FLASH1M else None;
  GBAOverrideApply := λ g t, set_cart t (memory_rom g) g;
  ARMReset := λ m, {| m_gba := m_gba m; m_cpu := 0; m_renderer := m_renderer m |};
  ARMRunLoop := step;
  blip_samples_avail := λ b, Z.of_nat (length b);
  blip_take := λ b count, (take (Z.to_nat count) b, drop (Z.to_nat count) b);
|}.

(** A 2x2 screen, for running [blit] in full. *)
Definition platform : Platform := {|
  VIDEO_HORIZONTAL_PIXELS := 2;
  VIDEO_VERTICAL_PIXELS := 2;
  BYTES_PER_PIXEL := 4;
  SIZE_CART_FLASH1M := 8;
  SIZE_CART_FLASH512 := 4;
  SIZE_CART_EEPROM := 1;
  SIZE_CART_SRAM := 2;
  GBA_ARM7TDMI_FREQUENCY := 0x1000000;
  IDLE_LOOP_IGNORE := -1;
  time_t_bits := 64;
  CARTRIDGE_ID_OFFSET := 0xAC;
  OVERRIDE_ID_SIZE := 4;
|}.

(** An allocator that serves every request, and one that serves none. *)
Definition plenty : Allocator := {| alloc_succeeds := λ _ _, true |}.
Definition exhausted : Allocator := {| alloc_succeeds := λ _ _, false |}.

End Toy.

(** ** The bridge run on the small engine *)

Section ToyRun.
#[local] Existing Instance Toy.types.
#[local] Existing Instance Toy.engine.
#[local] Existing Instance Toy.platform.
#[local] Existing Instance Toy.plenty.

(** A ROM image the small engine accepts, and one it rejects. *)
Definition toy_rom : bytes :=
  ([0x2E; 0; 0; 0xEA; 1; 2; 3; 4] ++ replicate 184 0)%Z.
Definition toy_garbage : bytes := [1; 2; 3; 4; 5; 6; 7; 8]%Z.

(** [BizCreate(NULL)] on the empty heap. *)
Definition toy_created : heap * bizctx :=
  match BizCreate ∅ None with
  | Ok (h, Some c) => (h, c)
  | _ => (∅, bizctx_zero 0)
  end.

(** Then [BizLoad] of the accepted image. *)
Definition toy_loaded : heap * bizctx :=
  match BizLoad toy_created.1 toy_created.2 toy_rom 192 with
  | Ok (h, c, _) => (h, c)
  | _ => toy_created
  end.

Definition toy_args : advance_args := {|
  arg_keys := 0x3FF; arg_vbuff := replicate 16 0%Z; arg_sbuff := replicate 2048 0%Z;
  arg_time := 1446163200; arg_gyrox := -1; arg_gyroy := 0x7FFF; arg_gyroz := -0x8000;
  arg_luma := 200;
|}.

Definition toy_args_before : advance_args := {|
  arg_keys := 0; arg_vbuff := replicate 16 0%Z; arg_sbuff := replicate 2048 0%Z;
  arg_time := 5; arg_gyrox := 7; arg_gyroy := 8; arg_gyroz := 9; arg_luma := 10;
|}.

(** The context after one earlier call, with other arguments. *)
Definition toy_advanced : bizctx :=
  match advance 3 toy_loaded.2 toy_args_before with
  | Ok a => adv_ctx a
  | _ => toy_loaded.2
  end.

(** A zeroed context whose engine has detected an EEPROM cartridge, with
    mGBA's constants. *)
Definition mgba_eeprom_ctx : @bizctx Toy.types :=
  set_gba (Toy.set_cart SAVEDATA_EEPROM [] GBA_zero) (@bizctx_zero mgba_platform Toy.types 0).

End ToyRun.

(** ** Vocabulary of the further statements *)

(** Byte [j] of the frame [blit] makes of [src]: the pixel's bytes 0 and 2
    exchanged and expanded, byte 1 expanded, byte 3 constant. *)
Definition blit_byte (src : bytes) (j : nat) : Z :=
  match (j mod 4)%nat with
  | 0 => expand (src !!! (j + 2))
  | 1 => expand (src !!! j)
  | 2 => expand (src !!! (j - 2))
  | _ => 0xff%Z
  end.

(** The whole frame. *)
Definition blit_image `{Platform} (src : bytes) : bytes :=
  blit_byte src <$> seq 0 (Z.to_nat FRAME_BYTES).


(** An engine whose CPU never completes a frame: a step changes nothing. *)
Definition halted : Engine := {|
  GBACreate := @GBACreate _ Toy.engine;
  ARMSetComponents := @ARMSetComponents _ Toy.engine;
  ARMInit := @ARMInit _ Toy.engine;
  GBAVideoSoftwareRendererCreate := @GBAVideoSoftwareRendererCreate _ Toy.engine;
  GBAVideoAssociateRenderer := @GBAVideoAssociateRenderer _ Toy.engine;
  GBAAudioResizeBuffer := @GBAAudioResizeBuffer _ Toy.engine;
  blip_set_rates := @blip_set_rates _ Toy.engine;
  GBAIsBIOS := @GBAIsBIOS _ Toy.engine;
  GBAIsROM := @GBAIsROM _ Toy.engine;
  GBALoadBIOS := @GBALoadBIOS _ Toy.engine;
  GBALoadROM := @GBALoadROM _ Toy.engine;
  GBAOverrideFind := @GBAOverrideFind _ Toy.engine;
  GBAOverrideApply := @GBAOverrideApply _ Toy.engine;
  ARMReset := @ARMReset _ Toy.engine;
  ARMRunLoop := λ _ fp, fp;
  blip_samples_avail := @blip_samples_avail _ Toy.engine;
  blip_take := @blip_take _ Toy.engine;
|}.

(** The ledger after blocks [bs] have been allocated one after the other,
    and the addresses they were given. *)
Fixpoint grow (h : heap) (bs : list block) : heap :=
  match bs with
  | [] => h
  | b :: bs => grow (alloc h b).2 bs
  end.

Fixpoint grown (h : heap) (bs : list block) : list nat :=
  match bs with
  | [] => []
  | b :: bs => (alloc h b).1 :: grown (alloc h b).2 bs
  end.

(** The ledger after the blocks at [ps] have been released, last first. *)
Definition release (ps : list nat) (h : heap) : heap := foldr delete h ps.

Section Sessions.
Context `{Platform} `{Engine} `{Allocator}.

(** The addresses a context holds, in the reverse of the order in which
    [BizDestroy] releases them. *)
Definition handles (c : bizctx) : list nat :=
  this c :: option_list (engine_mem c) ++ option_list (sramvf c) ++
  option_list (biosvf c) ++ option_list (rom c) ++ option_list (romvf c).

(** What [BizDestroy] needs of a context: both ROM-side files and the engine
    instance in place, every address it holds live and of the right kind,
    and no two of them the same. *)
Definition handles_ok (h : heap) (c : bizctx) : Prop :=
  (∃ v m, romvf c = Some v ∧ h !! v = Some (BlkVFile m)) ∧
  (∀ r, rom c = Some r → is_Some (h !! r)) ∧
  (∀ b, biosvf c = Some b → ∃ m, h !! b = Some (BlkVFile m)) ∧
  (∃ s m, sramvf c = Some s ∧ h !! s = Some (BlkVFile m)) ∧
  (∃ e, engine_mem c = Some e ∧ h !! e = Some BlkEngine) ∧
  is_Some (h !! this c) ∧
  NoDup (handles c).

(** What [BizCreate] sets up and no later call changes: the context block,
    the engine instance and, if a BIOS was given, its file. *)
Definition base_ok (h : heap) (c : bizctx) : Prop :=
  h !! this c = Some BlkContext ∧
  (∃ e, engine_mem c = Some e ∧ h !! e = Some BlkEngine) ∧
  (∀ b, biosvf c = Some b → h !! b = Some (BlkVFile VfBios)).

(** The calls a host makes on a context between [BizCreate] and
    [BizDestroy]. *)
Inductive op : Type :=
| OpReset
| OpLoad (data : bytes) (len : Z)
| OpAdvance (fuel : nat) (x : advance_args)
| OpPutSaveRam (data : bytes).

Definition run_op (s : heap * bizctx) (o : op) : result (heap * bizctx) :=
  match o with
  | OpReset => Ok (s.1, BizReset s.2)
  | OpLoad data len => r ← BizLoad s.1 s.2 data len; Ok r.1
  | OpAdvance fuel x => a ← advance fuel s.2 x; Ok (s.1, adv_ctx a)
  | OpPutSaveRam data => c ← BizPutSaveRam s.2 data; Ok (s.1, c)
  end.

Fixpoint run_ops (s : heap * bizctx) (os : list op) : result (heap * bizctx) :=
  match os with
  | [] => Ok s
  | o :: os => s ← run_op s o; run_ops s os
  end.

Definition is_load (o : op) : bool :=
  match o with OpLoad _ _ => true | _ => false end.

(** The calls that leave the save buffer to the bridge: all but a frame,
    during which the engine writes it, and a save-RAM write. *)
Definition keeps_save (o : op) : bool :=
  match o with OpReset | OpLoad _ _ => true | _ => false end.

End Sessions.

(** ** Further runs on the small engine *)

Section ToyRunMore.
#[local] Existing Instance Toy.types.
#[local] Existing Instance Toy.engine.
#[local] Existing Instance Toy.platform.
#[local] Existing Instance Toy.plenty.

(** The context after two calls of [BizAdvance]. *)
Definition toy_advanced_twice : bizctx :=
  match advance 3 toy_advanced toy_args with
  | Ok a => adv_ctx a
  | _ => toy_advanced
  end.

(** A frame, a reset and a save-RAM write on the loaded context. *)
Definition toy_ops : list op :=
  [OpAdvance 3 toy_args_before; OpReset; OpPutSaveRam [1; 2; 3; 4; 5; 6; 7; 8; 9]%Z].

Definition toy_session : heap * bizctx :=
  match run_ops toy_loaded toy_ops with
  | Ok s => s
  | _ => toy_loaded
  end.

(** A second [BizLoad] of the accepted image on the loaded context. *)
Definition toy_reloaded : heap * bizctx :=
  match BizLoad toy_loaded.1 toy_loaded.2 toy_rom 192 with
  | Ok (h, c, _) => (h, c)
  | _ => toy_loaded
  end.

(** The loaded context with 1030 sample pairs queued in the two channels,
    more than one call delivers: the left channel holds 1, 2, ..., 1030, the
    right one their negatives. *)
Definition toy_flooded : bizctx :=
  let g := gba toy_loaded.2 in
  set_gba (Toy.set_frame (video_frameCounter g)
             (Z.of_nat <$> seq 1 1030) (Z.opp ∘ Z.of_nat <$> seq 1 1030) g)
          toy_loaded.2.

Definition advanced_zero : advanced :=
  {| adv_ctx := bizctx_zero 0; adv_vbuff := []; adv_nsamp := 0; adv_sbuff := [] |}.

Definition returned (r : result advanced) : advanced :=
  match r with
  | Ok a => a
  | _ => advanced_zero
  end.

(** What a call of [BizAdvance] on it returns, the context it hands back,
    and what the next call on that context returns. *)
Definition toy_flooded_once : advanced := returned (advance 3 toy_flooded toy_args).
Definition toy_flooded_rest : bizctx := adv_ctx toy_flooded_once.
Definition toy_flooded_twice : advanced :=
  returned (advance 3 toy_flooded_rest toy_args).

End ToyRunMore.

(** ** Runs on an engine that records what the accessors return *)

(** What an accessor handed over, as a sample. *)
Definition reading (r : result Z) : Z :=
  match r with
  | Ok z => z
  | _ => 0%Z
  end.

(** A step of the small engine that also queues what the accessors returned
    to it during the step: the three tilt readings on the left channel,
    luminance and clock on the right one. *)
Definition recording_step (s : Sensors) (fp : @Footprint Toy.types) : @Footprint Toy.types :=
  let fp := Toy.step s fp in
  let m := fp_machine fp in
  let g := m_gba m in
  {| fp_machine :=
       {| m_gba := Toy.set_frame (video_frameCounter g)
                     (audio_left g ++ [reading (sens_tiltX s); reading (sens_tiltY s);
                                       reading (sens_gyroZ s)])
                     (audio_right g ++ [reading (sens_luminance s);
                                        reading (sens_unixTime s); 0%Z]) g;
          m_cpu := m_cpu m; m_renderer := m_renderer m |};
     fp_vbuff := fp_vbuff fp;
     fp_savedata := fp_savedata fp |}.

Definition recording : @Engine Toy.types := {|
  GBACreate := @GBACreate _ Toy.engine;
  ARMSetComponents := @ARMSetComponents _ Toy.engine;
  ARMInit := @ARMInit _ Toy.engine;
  GBAVideoSoftwareRendererCreate := @GBAVideoSoftwareRendererCreate _ Toy.engine;
  GBAVideoAssociateRenderer := @GBAVideoAssociateRenderer _ Toy.engine;
  GBAAudioResizeBuffer := @GBAAudioResizeBuffer _ Toy.engine;
  blip_set_rates := @blip_set_rates _ Toy.engine;
  GBAIsBIOS := @GBAIsBIOS _ Toy.engine;
  GBAIsROM := @GBAIsROM _ Toy.engine;
  GBALoadBIOS := @GBALoadBIOS _ Toy.engine;
  GBALoadROM := @GBALoadROM _ Toy.engine;
  GBAOverrideFind := @GBAOverrideFind _ Toy.engine;
  GBAOverrideApply := @GBAOverrideApply _ Toy.engine;
  ARMReset := @ARMReset _ Toy.engine;
  ARMRunLoop := recording_step;
  blip_samples_avail := @blip_samples_avail _ Toy.engine;
  blip_take := @blip_take _ Toy.engine;
|}.

Section RecordingRun.
#[local] Existing Instance Toy.types.
#[local] Existing Instance recording.
#[local] Existing Instance Toy.platform.
#[local] Existing Instance Toy.plenty.

(** [BizCreate(NULL)] on the empty heap, then [BizLoad] of the accepted
    image. *)
Definition rec_created : heap * bizctx :=
  match BizCreate ∅ None with
  | Ok (h, Some c) => (h, c)
  | _ => (∅, bizctx_zero 0)
  end.

Definition rec_loaded : heap * bizctx :=
  match BizLoad rec_created.1 rec_created.2 toy_rom 192 with
  | Ok (h, c, _) => (h, c)
  | _ => rec_created
  end.

(** The context after one earlier call, with other arguments. *)
Definition rec_advanced : bizctx :=
  match advance 3 rec_loaded.2 toy_args_before with
  | Ok a => adv_ctx a
  | _ => rec_loaded.2
  end.

(** The context after a frame, a reset and a save-RAM write. *)
Definition rec_session : heap * bizctx :=
  match run_ops rec_loaded toy_ops with
  | Ok s => s
  | _ => rec_loaded
  end.

End RecordingRun.

(** * The Qt front end's loader (src/platform/qt/CoreManager.cpp)

    The second glue layer over the same engine.  Every step of it is a call
    into Qt, the virtual-file layer or the core; none of that code is the
    loader's.  The calls that only answer are an interface ([Library]); the
    calls that act are recorded, in order, as events. *)

Module CoreManager.

(** The handle types of the libraries. *)
Class Handles : Type := {
  VFile : Type;
  VDir : Type;
  mCore : Type;
  mCoreConfig : Type;
  MultiplayerController : Type;
  Mem : Type;                       (* what [vf->map] returns *)
}.

(** The three messages the loader logs. *)
Inductive log_message : Type :=
| CouldNotLoadGame
| FailedToOpenSave
| FailedToOpenGame (path : string).

Section Loader.
Context `{Handles}.

Inductive event : Type :=
| EvVFileClose (vf : VFile)
| EvVDirClose (dir : VDir)
| EvRead (vf : VFile) (size : Z)
| EvWrite (vf : VFile) (data : bytes)
| EvUnmap (vf : VFile) (mem : Mem) (size : Z)
| EvLogError (msg : log_message)
| EvCoreInit (core : mCore)
| EvCoreDeinit (core : mCore)
| EvInitConfig (core : mCore)
| EvLoadForeignConfig (core : mCore) (config : mCoreConfig)
| EvPreloadVF (core : mCore) (vf : VFile)
| EvLoadROM (core : mCore) (vf : VFile)
| EvLoadBIOS (core : mCore) (vf : VFile) (biosID : Z)
| EvSetOverrideInt (core : mCore) (key : string) (value : Z)
| EvSeparatePath (core : mCore) (path : string)
| EvSetBaseName (core : mCore) (name : string)
| EvAttachBase (core : mCore) (dir : option VDir)
| EvAutoloadSave (core : mCore)
| EvAutoloadCheats (core : mCore)
| EvNewController (core : mCore)
| EvSetMultiplayer (core : mCore) (multiplayer : MultiplayerController)
| EvCoreLoaded (core : mCore)
| EvExtdataInit
| EvExtdataDeinit
| EvExtract (core : option mCore).

(** What the libraries answer.  Nothing is assumed about the answers. *)
Class Library : Type := {
  (* QFileInfo and QDir, on the path they were made from *)
  isReadable : string → bool;
  fileName : string → string;
  path_of : string → string;
  baseName : string → string;
  canonicalFilePath : string → string;
  dir_canonicalPath : string → string;
  isDir : string → bool;
  separator : Ascii.ascii;
  (* the virtual-file layer *)
  VDirOpenArchive : string → option VDir;
  VDirOpen : string → option VDir;
  VFileOpen : string → option VFile;
  openFile : VDir → string → option VFile;
  (* [VDirFindFirst] with the filter [mCoreIsCompatible(vf) != mPLATFORM_NONE] *)
  VDirFindFirst : VDir → option VFile;
  vf_size : VFile → Z;
  (* the [k]-th [vf->read(vf, buffer, 2048)]: the count returned and the buffer *)
  vf_read : VFile → nat → Z * bytes;
  vf_map : VFile → Z → Mem;
  VFileMemChunk : option Mem → Z → option VFile;
  (* the core *)
  mCoreFindVF : VFile → option mCore;
  mCoreAutoloadSave : mCore → bool;
  GBACoreCreate : option mCore;
  GBCoreCreate : option mCore;
  (* the file a [VFileDevice] made from a name holds, if it opened *)
  VFileDevice_open : string → option VFile;
  (* [mCoreExtractExtdata(core, vf, &extdata)] *)
  mCoreExtractExtdata : option mCore → VFile → bool;
  (* [mStateExtdataGet(&extdata, tag, &item)] after the extractions with
     [cores], latest first: the item's size, if there is one *)
  mStateExtdataGet : list (option mCore) → Z → option Z;
}.

(** The build: which cores and formats were compiled in, and the value of
    the enumerator [mPLATFORM_GBA]. *)
Class Build : Type := {
  M_CORE_GBA : bool;
  M_CORE_GB : bool;
  USE_PNG : bool;
  mPLATFORM_GBA : Z;
}.

(** The members of [CoreManager] the loader reads. *)
Record Manager : Type := {
  m_config : option mCoreConfig;
  m_preload : bool;
  m_multiplayer : option MultiplayerController;
}.

(** A call of the loader: the events so far go in, the value and the events
    come out, unless a null pointer was dereferenced on the way. *)
Definition M (A : Type) : Type := list event → result (A * list event).

#[global] Instance M_ret : MRet M := λ A a t, Ok (a, t).
#[global] Instance M_bind : MBind M := λ A B f m t,
  match m t with
  | Ok (a, t) => f a t
  | Undefined => Undefined
  | OutOfFuel => OutOfFuel
  end.

Definition emit (e : event) : M unit := λ t, Ok (tt, t ++ [e]).
Definition events : M (list event) := λ t, Ok (t, t).
Definition undefined {A : Type} : M A := λ _, Undefined.
Definition out_of_fuel {A : Type} : M A := λ _, OutOfFuel.

(** [p->...] on a pointer that may be null. *)
Definition through {A : Type} (p : option A) : M A :=
  match p with
  | Some a => mret a
  | None => undefined
  end.

Definition when (b : bool) (m : M unit) : M unit := if b then m else mret tt.

Context `{Library} `{Build}.

Definition setConfig (config : option mCoreConfig) (m : Manager) : Manager :=
  {| m_config := config; m_preload := m_preload m; m_multiplayer := m_multiplayer m |}.

Definition setMultiplayerController (multiplayer : option MultiplayerController)
    (m : Manager) : Manager :=
  {| m_config := m_config m; m_preload := m_preload m; m_multiplayer := multiplayer |}.

(** Lines 173-178, shared by [loadGame] and [loadBIOS]. *)
Definition publish (m : Manager) (core : mCore) : M (option mCore) :=
  emit (EvNewController core);;
  (if m_multiplayer m is Some mp then emit (EvSetMultiplayer core mp) else mret tt);;
  emit (EvCoreLoaded core);;
  mret (Some core).

(** [loadGame(VFile*, path, base)], lines 134-179.  The controller returned
    is identified with the core it wraps. *)
Definition loadGame_vf (m : Manager) (vf : option VFile) (path base : string)
  : M (option mCore) :=
  match vf with
  | None => mret None
  | Some vf =>
      match mCoreFindVF vf with
      | None =>
          emit (EvVFileClose vf);;
          emit (EvLogError CouldNotLoadGame);;
          mret None
      | Some core =>
          emit (EvCoreInit core);;
          emit (EvInitConfig core);;
          (if m_config m is Some config then emit (EvLoadForeignConfig core config)
           else mret tt);;
          (if m_preload m then emit (EvPreloadVF core vf) else emit (EvLoadROM core vf));;
          emit (EvSeparatePath core path);;
          let info := if isDir base then base +:+ "/" +:+ path else base in
          emit (EvAttachBase core (VDirOpen (dir_canonicalPath info)));;
          emit (EvAutoloadSave core);;
          when (negb (mCoreAutoloadSave core)) (emit (EvLogError FailedToOpenSave));;
          emit (EvAutoloadCheats core);;
          publish m core
      end
  end.


(** The character of the literal ["/"]. *)
Definition slash : Ascii.ascii := Ascii.ascii_of_nat 47.


(** The [while] loop of lines 100-102, from the [k]-th read on.  The write
    takes [read] bytes of [buffer], an array of 2048. *)
Fixpoint copy_loop (fuel : nat) (vf : VFile) (vfclone : option VFile) (k : nat) : M unit :=
  match fuel with
  | O => out_of_fuel
  | S fuel =>
      emit (EvRead vf 2048);;
      let '(read, buffer) := vf_read vf k in
      if decide (read > 0)%Z then
        clone ← through vfclone;
        (if decide (read ≤ 2048)%Z then emit (EvWrite clone (take (Z.to_nat read) buffer))
         else undefined);;
        copy_loop fuel vf vfclone (S k)
      else mret tt
  end.



(** [loadBIOS(platform, path)], lines 181-228. *)
Definition loadBIOS (m : Manager) (platform : Z) (path : string) : M (option mCore) :=
  match VFileOpen (canonicalFilePath path) with
  | None => mret None
  | Some vf =>
      if M_CORE_GBA && bool_decide (platform = mPLATFORM_GBA) then
        match GBACoreCreate with
        | None => emit (EvVFileClose vf);; mret None
        | Some core =>
            emit (EvCoreInit core);;
            emit (EvInitConfig core);;
            (if m_config m is Some config then emit (EvLoadForeignConfig core config)
             else mret tt);;
            emit (EvLoadBIOS core vf 0);;
            emit (EvSetOverrideInt core "useBios" 1);;
            emit (EvSetOverrideInt core "skipBios" 0);;
            emit (EvSetBaseName core (baseName path));;
            emit (EvAttachBase core (VDirOpen (dir_canonicalPath path)));;
            publish m core
        end
      else emit (EvVFileClose vf);; mret None
  end.

(** The lambda [extract] of lines 45-57: whether it is done, and the size of
    the item [bytes] now refers to, if it was set. *)
Definition extractions (t : list event) : list (option mCore) :=
  omap (λ e, if e is EvExtract core then Some core else None) (reverse t).

Definition extract (vf : VFile) (extdataType : Z) (core : option mCore)
  : M (bool * option Z) :=
  emit (EvExtract core);;
  t ← events;
  if mCoreExtractExtdata core vf then
    match mStateExtdataGet (extractions t) extdataType with
    | None => mret (false, None)
    | Some size => mret (true, if decide (size = 0)%Z then None else Some size)
    end
  else mret (false, None).

(** One of the two blocks of lines 64-79. *)
Definition extract_with (create : option mCore) (vf : VFile) (extdataType : Z)
    (st : bool * option Z) : M (bool * option Z) :=
  if st.1 then mret st else
  core ← through create;
  emit (EvCoreInit core);;
  r ← extract vf extdataType (Some core);
  emit (EvCoreDeinit core);;
  mret (r.1, if r.2 is Some size then Some size else st.2).

(** [getExtdata(filename, extdataType)], lines 34-83: the size of the item
    the array returned refers to, [None] for the empty array. *)
Definition getExtdata (filename : string) (extdataType : Z) : M (option Z) :=
  match VFileDevice_open filename with
  | None => mret None
  | Some vf =>
      emit EvExtdataInit;;
      st ← (if USE_PNG then extract vf extdataType None else mret (false, None));
      st ← (if M_CORE_GBA then extract_with GBACoreCreate vf extdataType st else mret st);
      st ← (if M_CORE_GB then extract_with GBCoreCreate vf extdataType st else mret st);
      emit EvExtdataDeinit;;
      mret st.2
  end.

(** *** Vocabulary of the statements *)

(** A call from an empty record of events. *)
Definition run {A : Type} (m : M A) : result (A * list event) := m [].

Definition is_file_close (e : event) : bool :=
  match e with EvVFileClose _ => true | _ => false end.

Definition is_dir_close (e : event) : bool :=
  match e with EvVDirClose _ => true | _ => false end.

(** The events that hand a file over to a core, which then owns it. *)
Definition hands_over (e : event) : bool :=
  match e with EvPreloadVF _ _ | EvLoadROM _ _ | EvLoadBIOS _ _ _ => true | _ => false end.

Definition is_write (e : event) : bool :=
  match e with EvWrite _ _ => true | _ => false end.


Definition is_core_life (e : event) : bool :=
  match e with EvCoreInit _ | EvCoreDeinit _ => true | _ => false end.

(** The bytes the [k]-th read of [vf] hands to the write that follows it. *)
Definition chunk (vf : VFile) (k : nat) : bytes :=
  take (Z.to_nat (vf_read vf k).1) (vf_read vf k).2.

(** The events of [n] turns of the copy loop from read [k] on, and of the
    read that ends it. *)
Fixpoint copy_trace (vf clone : VFile) (k n : nat) : list event :=
  match n with
  | O => [EvRead vf 2048]
  | S n => EvRead vf 2048 :: EvWrite clone (chunk vf k) :: copy_trace vf clone (S k) n
  end.

End Loader.

(** *** A small library

    Answers that can be computed: files and directories are numbered, the
    archive member 0 yields two full buffers and then ends, and only the
    GBA core recognises the save state. *)

Definition toy_handles : Handles := {|
  VFile := nat; VDir := nat; mCore := nat; mCoreConfig := unit;
  MultiplayerController := unit; Mem := unit;
|}.

Section ToyLoader.
#[local] Existing Instance toy_handles.

Definition toy_library : Library := {|
  isReadable := λ _, false;
  fileName := λ p, p;
  path_of := λ p, p;
  baseName := λ p, p;
  canonicalFilePath := λ p, p;
  dir_canonicalPath := λ p, p;
  isDir := λ _, true;
  separator := slash;
  VDirOpenArchive := λ _, Some 5;
  VDirOpen := λ _, None;
  VFileOpen := λ _, Some 1;
  openFile := λ _ _, Some 0;
  VDirFindFirst := λ _, None;
  vf_size := λ _, 4096%Z;
  vf_read := λ _ k, if decide (k < 2) then (2048%Z, replicate 2048 (Z.of_nat k))
                    else (0%Z, replicate 2048 0%Z);
  vf_map := λ _ _, tt;
  VFileMemChunk := λ _ _, Some 7;
  mCoreFindVF := λ _, Some 9;
  mCoreAutoloadSave := λ _, true;
  GBACoreCreate := Some 9;
  GBCoreCreate := Some 10;
  VFileDevice_open := λ _, Some 3;
  mCoreExtractExtdata := λ core _, bool_decide (core = Some 9);
  mStateExtdataGet := λ _ _, Some 16%Z;
|}.

Definition toy_build : Build := {|
  M_CORE_GBA := true; M_CORE_GB := true; USE_PNG := true; mPLATFORM_GBA := 0;
|}.

End ToyLoader.

End CoreManager.

(** * Properties *)

(** ** Integers and buffers *)

Lemma sint_id bits z : (0 < bits)%Z → CInt.in_sint bits z → CInt.sint bits z = z.
Proof.
  unfold CInt.in_sint, CInt.sint. intros Hb Hz.
  assert (2 ^ bits = 2 * 2 ^ (bits - 1))%Z as Hp.
  { rewrite <- Z.pow_succ_r by lia. f_equal. lia. }
  rewrite Z.mod_small by lia. lia.
Qed.

Lemma uint8_id z : CInt.is_uint8 z → CInt.uint8 z = z.
Proof.
  unfold CInt.is_uint8, CInt.uint8. intros Hz. change 255%Z with (Z.ones 8).
  rewrite Z.land_ones by lia. apply Z.mod_small. lia.
Qed.

Lemma store_Ok buf i v :
  i < length buf → store buf i v = Ok (<[i := v]> buf).
Proof. intros Hi. unfold store. by rewrite decide_True. Qed.

Lemma load_Ok buf i : i < length buf → ∃ b, buf !! i = Some b ∧ load buf i = Ok b.
Proof.
  intros Hi. destruct (lookup_lt_is_Some_2 buf i Hi) as [b Hb].
  exists b. unfold load. by rewrite Hb.
Qed.

Lemma memcpy_Ok dst src n :
  (0 ≤ n)%Z → (n ≤ Z.of_nat (length src))%Z → (n ≤ Z.of_nat (length dst))%Z →
  memcpy dst src n = Ok (take (Z.to_nat n) src ++ drop (Z.to_nat n) dst).
Proof. intros. unfold memcpy. by rewrite decide_True. Qed.

Lemma frame_succ_neq fc : frame_succ fc ≠ fc.
Proof.
  unfold frame_succ, CInt.int32, CInt.sint. intros Heq.
  change (2 ^ (32 - 1))%Z with 2147483648%Z in Heq.
  change (2 ^ 32)%Z with 4294967296%Z in Heq.
  pose proof (Z.div_mod (fc + 1 + 2147483648) 4294967296 ltac:(lia)) as Hd.
  lia.
Qed.

(** ** Sequencing *)

Lemma bind_Ok {A B} (a : A) (f : A → result B) : (Ok a ≫= f) = f a.
Proof. reflexivity. Qed.

Lemma bind_Ok_inv {A B} (m : result A) (f : A → result B) (b : B) :
  (m ≫= f) = Ok b → ∃ a, m = Ok a ∧ f a = Ok b.
Proof. destruct m as [a| |]; [eauto|done|done]. Qed.

(** ** PixelBlit *)

Lemma blit_pixel_ok (dst src : bytes) (p : nat) :
  4 * p + 3 < length dst → 4 * p + 3 < length src →
  ∃ out, blit_pixel dst src (4 * p) (4 * p) = Ok out ∧
    length out = length dst ∧
    pixel_converted src out p ∧
    ∀ j, j < 4 * p ∨ 4 * p + 3 < j → out !! j = dst !! j.
Proof.
  intros Hd Hs.
  destruct (load_Ok src (4 * p)) as (b0 & Hb0 & L0); [lia|].
  destruct (load_Ok src (4 * p + 1)) as (b1 & Hb1 & L1); [lia|].
  destruct (load_Ok src (4 * p + 2)) as (b2 & Hb2 & L2); [lia|].
  unfold blit_pixel.
  rewrite L0, bind_Ok, store_Ok, bind_Ok by lia.
  rewrite L1, bind_Ok, store_Ok, bind_Ok by (rewrite ?length_insert; lia).
  rewrite L2, bind_Ok, store_Ok, bind_Ok by (rewrite ?length_insert; lia).
  rewrite store_Ok by (rewrite ?length_insert; lia).
  eexists; split; [reflexivity|]. split; [by rewrite !length_insert|]. split.
  - exists b0, b1, b2. repeat split; try done.
    + rewrite list_lookup_insert_ne by lia.
      by rewrite list_lookup_insert_eq by (rewrite ?length_insert; lia).
    + do 2 rewrite list_lookup_insert_ne by lia.
      by rewrite list_lookup_insert_eq by (rewrite ?length_insert; lia).
    + do 3 rewrite list_lookup_insert_ne by lia.
      by rewrite list_lookup_insert_eq by (rewrite ?length_insert; lia).
    + by rewrite list_lookup_insert_eq by (rewrite ?length_insert; lia).
  - intros j Hj. by rewrite !list_lookup_insert_ne by lia.
Qed.

Lemma pixel_converted_frame (src dst out : bytes) (p q : nat) :
  (∀ j, j < 4 * p ∨ 4 * p + 3 < j → out !! j = dst !! j) →
  q ≠ p → pixel_converted src dst q → pixel_converted src out q.
Proof.
  intros Hsame Hq (b0 & b1 & b2 & ? & ? & ? & ? & ? & ? & ?).
  exists b0, b1, b2. rewrite !Hsame by lia. done.
Qed.

(** The loop, entered at pixel [p] with [k] groups of four pixels to go. *)
Lemma blit_loop_ok (src : bytes) (k : nat) :
  ∀ (fuel p : nat) (dst : bytes),
    k ≤ fuel →
    4 * p + 16 * k ≤ length dst → 4 * p + 16 * k ≤ length src →
    (∀ q, q < p → pixel_converted src dst q) →
    ∃ out, blit_loop fuel dst src (4 * p) (4 * p) (4 * p + 16 * k) = Ok out ∧
      length out = length dst ∧
      ∀ q, q < p + 4 * k → pixel_converted src out q.
Proof.
  induction k as [|k IH]; intros fuel p dst Hfuel Hd Hs Hdone.
  - exists dst. destruct fuel; cbn [blit_loop]; (rewrite decide_False by lia);
      (split; [done|]); (split; [done|]); intros q Hq; apply Hdone; lia.
  - destruct fuel as [|fuel]; [lia|]. cbn [blit_loop]. rewrite decide_True by lia.
    destruct (blit_pixel_ok dst src p) as (d1 & E1 & Len1 & P1 & F1); [lia..|].
    rewrite E1, bind_Ok.
    replace (4 * p + 4) with (4 * (p + 1)) by lia.
    destruct (blit_pixel_ok d1 src (p + 1)) as (d2 & E2 & Len2 & P2 & F2); [lia..|].
    rewrite E2, bind_Ok.
    replace (4 * (p + 1) + 4) with (4 * (p + 2)) by lia.
    destruct (blit_pixel_ok d2 src (p + 2)) as (d3 & E3 & Len3 & P3 & F3); [lia..|].
    rewrite E3, bind_Ok.
    replace (4 * (p + 2) + 4) with (4 * (p + 3)) by lia.
    destruct (blit_pixel_ok d3 src (p + 3)) as (d4 & E4 & Len4 & P4 & F4); [lia..|].
    rewrite E4, bind_Ok.
    replace (4 * (p + 3) + 4) with (4 * (p + 4)) by lia.
    replace (4 * p + 16 * S k) with (4 * (p + 4) + 16 * k) by lia.
    destruct (IH fuel (p + 4) d4) as (out & E & Len & P); [lia..| |].
    + intros q Hq.
      destruct (decide (q = p + 3)) as [->|N3]; [done|].
      apply (pixel_converted_frame src d3 d4 (p + 3)); [done..|].
      destruct (decide (q = p + 2)) as [->|N2]; [done|].
      apply (pixel_converted_frame src d2 d3 (p + 2)); [done..|].
      destruct (decide (q = p + 1)) as [->|N1]; [done|].
      apply (pixel_converted_frame src d1 d2 (p + 1)); [done..|].
      destruct (decide (q = p)) as [->|N0]; [done|].
      apply (pixel_converted_frame src dst d1 p); [done..|].
      apply Hdone. lia.
    + exists out. split; [done|]. split; [lia|].
      intros q Hq. apply P. lia.
Qed.

Lemma byte_cases (P : Z → bool) :
  forallb P (seqZ 0 256) = true → ∀ v, (0 ≤ v < 256)%Z → P v = true.
Proof.
  intros Hall v Hv. rewrite forallb_forall in Hall. apply Hall.
  apply list_elem_of_In, elem_of_seqZ. lia.
Qed.

Lemma expand_byte (v : Z) :
  (0 ≤ v < 256)%Z → expand v = Z.lor v (Z.shiftr v 5).
Proof.
  intros Hv. apply Z.eqb_eq.
  apply (byte_cases (λ v, expand v =? Z.lor v (Z.shiftr v 5))%Z); [|done].
  by vm_compute.
Qed.

(** On a byte that holds a 5-bit channel in its upper five bits, the
    expansion replicates the channel's upper three bits into the lower
    three. *)
Lemma expand_channel (c : Z) :
  (0 ≤ c < 32)%Z →
  expand (Z.shiftl c 3) = Z.lor (Z.shiftl c 3) (Z.shiftr c 2).
Proof.
  intros Hc. apply Z.eqb_eq.
  pose proof (byte_cases
    (λ c, (32 <=? c) || (expand (Z.shiftl c 3) =? Z.lor (Z.shiftl c 3) (Z.shiftr c 2)))%Z
    ltac:(by vm_compute) c ltac:(lia)) as Hb.
  apply orb_true_iff in Hb as [Hb|Hb]; [|done].
  apply Z.leb_le in Hb. lia.
Qed.

Section Blit.
Context `{Platform} `{!PlatformOk}.

(** [blit] returns, and converts every pixel of the frame. *)
Lemma blit_converts (dst src : bytes) :
  length dst = Z.to_nat FRAME_BYTES → length src = Z.to_nat FRAME_BYTES →
  ∃ out, blit dst src = Ok out ∧ length out = length dst ∧
    ∀ q, 4 * q + 3 < Z.to_nat FRAME_BYTES → pixel_converted src out q.
Proof.
  intros Hd Hs.
  destruct frame_bytes_groups as [z Hz]. pose proof frame_bytes_nonneg as Hnn.
  assert (Z.to_nat FRAME_BYTES = 4 * 0 + 16 * Z.to_nat z) as Hk by lia.
  unfold blit.
  destruct (blit_loop_ok src (Z.to_nat z) (Z.to_nat FRAME_BYTES) 0 dst)
    as (out & E & Len & P); [lia..| |].
  { intros q Hq. lia. }
  change (4 * 0) with 0 in E, Hk. rewrite <- Hk in E.
  exists out. split; [done|]. split; [done|]. intros q Hq. apply P. lia.
Qed.

End Blit.

Section BlitClaim.
Context `{Platform} `{!PlatformOk}.

(** C5.  On every frame, [blit] returns and writes every pixel of
    the caller's buffer: bytes 0 and 2 of the pixel exchanged, byte 3 set to
    0xFF, and each colour byte [v] replaced by [v | v >> 5].  That maps 0 to
    0, and a byte that carries a 5-bit channel [c] in its upper five bits to
    that byte with the upper three bits of [c] copied below, so that the
    maximum channel, stored as 0xF8, becomes 255. *)
Theorem blit_swaps_expands (dst src : bytes) :
  length dst = Z.to_nat FRAME_BYTES → length src = Z.to_nat FRAME_BYTES →
  ∃ out, blit dst src = Ok out ∧ length out = length dst ∧
    (∀ q, 4 * q + 3 < Z.to_nat FRAME_BYTES → pixel_converted src out q) ∧
    (∀ v, (0 ≤ v < 256)%Z → expand v = Z.lor v (Z.shiftr v 5)) ∧
    expand 0 = 0%Z ∧
    (∀ c, (0 ≤ c < 32)%Z →
       expand (Z.shiftl c 3) = Z.lor (Z.shiftl c 3) (Z.shiftr c 2)) ∧
    expand (Z.shiftl 31 3) = 255%Z.
Proof.
  intros Hd Hs. destruct (blit_converts dst src Hd Hs) as (out & E & Len & P).
  exists out. split; [done|]. split; [done|]. split; [done|].
  split; [apply expand_byte|]. split; [done|]. split; [apply expand_channel|done].
Qed.

End BlitClaim.

(** ** The ledger *)

Lemma fresh_unused (h : heap) : h !! fresh (dom h) = None.
Proof. apply not_elem_of_dom, is_fresh. Qed.

Lemma VFile_close_fresh (h : heap) (a : nat) (mem : vf_backing) :
  h !! a = None → VFile_close (<[a := BlkVFile mem]> h) (Some a) = Ok h.
Proof.
  intros Ha. unfold VFile_close. rewrite lookup_insert_eq.
  by rewrite delete_insert_id.
Qed.

Lemma free_fresh (h : heap) (a : nat) (b : block) :
  h !! a = None → free (<[a := b]> h) (Some a) = Ok h.
Proof.
  intros Ha. unfold free. rewrite lookup_insert_eq.
  by rewrite delete_insert_id.
Qed.

Lemma VFile_close_live (h : heap) (a : nat) (mem : vf_backing) :
  h !! a = Some (BlkVFile mem) → VFile_close h (Some a) = Ok (delete a h).
Proof. intros Ha. unfold VFile_close. by rewrite Ha. Qed.

Lemma free_live (h : heap) (a : nat) (b : block) :
  h !! a = Some b → free h (Some a) = Ok (delete a h).
Proof. intros Ha. unfold free. by rewrite Ha. Qed.

Lemma fresh_ne (h : heap) (a : nat) : is_Some (h !! a) → fresh (dom h) ≠ a.
Proof. intros [b Hb] <-. by rewrite fresh_unused in Hb. Qed.

Lemma VFile_close_cases (h : heap) (vf : option nat) :
  VFile_close h vf = Undefined ∨ ∃ a, vf = Some a ∧ VFile_close h vf = Ok (delete a h).
Proof.
  destruct vf as [a|]; [|by left]. simpl.
  destruct (h !! a) as [[]|]; eauto.
Qed.

Lemma free_cases (h : heap) (p : option nat) :
  free h p = Undefined ∨ ∃ h', free h p = Ok h'.
Proof.
  destruct p as [a|]; simpl; [|eauto].
  destruct (h !! a); eauto.
Qed.

Section Lifecycle.
Context `{Platform} `{Engine} `{Allocator}.

Lemma GBADestroy_fresh (h : heap) (a : nat) (c : bizctx) :
  engine_mem c = Some a → h !! a = None →
  GBADestroy (<[a := BlkEngine]> h) c = Ok h.
Proof.
  intros Hc Ha. unfold GBADestroy. rewrite Hc, lookup_insert_eq.
  by rewrite delete_insert_id.
Qed.

(** What [create_engine] leaves alone, and what it acquires. *)
Lemma create_engine_spec (h : heap) (c : bizctx) :
  ∃ c', create_engine h c = (c', <[fresh (dom h) := BlkEngine]> h) ∧
    engine_mem c' = Some (fresh (dom h)) ∧ this c' = this c ∧
    bios c' = bios c ∧ savedata c' = savedata c ∧ vbuff c' = vbuff c ∧
    rom c' = rom c ∧ romvf c' = romvf c ∧ biosvf c' = biosvf c ∧
    sramvf c' = sramvf c.
Proof.
  exists (create_engine h c).1. split; [|repeat split]; reflexivity.
Qed.

Lemma memcpy_whole (dst src : bytes) (n : Z) :
  (0 ≤ n)%Z → (n ≤ Z.of_nat (length src))%Z → Z.of_nat (length dst) = n →
  memcpy dst src n = Ok (take (Z.to_nat n) src).
Proof.
  intros Hn Hs Hd. rewrite memcpy_Ok by lia.
  rewrite drop_ge by lia. by rewrite app_nil_r.
Qed.

Lemma BizCreate_bios (h : heap) (b : bytes) :
  alloc_succeeds h ReqContext = true →
  (16384 ≤ Z.of_nat (length b))%Z →
  BizCreate h (Some b) =
    if GBAIsBIOS (take (Z.to_nat 16384) b) then
      let h1 := <[fresh (dom h) := BlkContext]> h in
      let h2 := <[fresh (dom h1) := BlkEngine]> h1 in
      let h3 := <[fresh (dom h2) := BlkVFile VfBios]> h2 in
      let c := set_biosvf (Some (fresh (dom h2)))
                 (set_bios (take (Z.to_nat 16384) b) (created_struct h)) in
      Ok (h3, Some (wire_hooks (set_gba (GBALoadBIOS (gba c) (bios c)) c)))
    else Ok (h, None).
Proof.
  intros Hok Hb. unfold BizCreate, calloc_bizctx. rewrite Hok.
  unfold alloc. cbn [fmap option_fmap option_map deref mbind result_bind].
  set (h1 := <[fresh (dom h) := BlkContext]> h).
  pose proof (fresh_unused h) as Fp.
  set (cz := set_savedata (memset (savedata (bizctx_zero (fresh (dom h)))) 0xff)
       (bizctx_zero (fresh (dom h)))).
  unfold created_struct. cbv zeta. fold h1 cz.
  destruct (create_engine_spec h1 cz) as (c & Ec & Emem & Ethis & Ebios & _).
  rewrite Ec. cbn [fst].
  set (h2 := <[fresh (dom h1) := BlkEngine]> h1) in *.
  pose proof (fresh_unused h1) as Fe. pose proof (fresh_unused h2) as Fv.
  rewrite Ebios. change (bios cz) with (replicate (Z.to_nat 16384) 0%Z).
  rewrite memcpy_whole by (rewrite ?length_replicate; lia).
  rewrite bind_Ok. unfold VFileFromMemory, alloc.
  cbn [bios set_biosvf set_bios biosvf this].
  destruct (GBAIsBIOS (take (Z.to_nat 16384) b)); cbn [negb]; [done|].
  rewrite VFile_close_fresh by done. rewrite bind_Ok.
  unfold h2. rewrite GBADestroy_fresh by done. rewrite bind_Ok.
  rewrite Ethis. change (this cz) with (fresh (dom h)).
  unfold h1. by rewrite free_fresh.
Qed.

End Lifecycle.

Section RomMount.
Context `{Platform} `{Engine} `{Allocator}.

Lemma BizLoad_no_memory (h : heap) (c : bizctx) (data : bytes) (len : Z) :
  alloc_succeeds h (ReqBytes len) = false →
  BizLoad h c data len = Ok (h, set_rom None c, 0%Z).
Proof. intros Hno. unfold BizLoad, malloc. by rewrite Hno. Qed.

(** The read of lines 178-180 is defined exactly on a mapped ROM that
    reaches the end of the [id] member. *)
Lemma memcpy_header_id (mapped : bytes) :
  memcpy (replicate OVERRIDE_ID_SIZE 0%Z) (drop CARTRIDGE_ID_OFFSET mapped)
         (Z.of_nat OVERRIDE_ID_SIZE) =
    if decide (holds_id mapped) then Ok (header_id mapped) else Undefined.
Proof.
  unfold memcpy, holds_id, header_id.
  rewrite length_replicate, Nat2Z.id.
  repeat case_decide; try lia; [|done].
  by rewrite (drop_ge (replicate _ _)), app_nil_r
    by (rewrite length_replicate; lia).
Qed.

Lemma BizLoad_spec (h : heap) (c : bizctx) (data : bytes) (len : Z) :
  alloc_succeeds h (ReqBytes len) = true →
  (0 ≤ len ≤ Z.of_nat (length data))%Z →
  BizLoad h c data len =
    let p := fresh (dom h) in
    let image := take (Z.to_nat len) data in
    let h1 := <[p := BlkBytes image]> h in
    let v := fresh (dom h1) in
    if GBAIsROM image then
      let h2 := <[v := BlkVFile (VfRom p)]> h1 in
      let s := fresh (dom h2) in
      if decide (holds_id (mapped_rom c image)) then
        Ok (<[s := BlkVFile VfSavedata]> h2, mounted c image p v s, 1%Z)
      else Undefined
    else Ok (h, set_rom None (set_romvf None c), 0%Z).
Proof.
  intros Hok Hlen. unfold BizLoad, malloc. rewrite Hok.
  unfold alloc. cbn [rom set_rom].
  pose proof (fresh_unused h) as Fp.
  unfold memcpy_block, block_bytes. rewrite lookup_insert_eq, bind_Ok.
  rewrite memcpy_whole by (rewrite ?length_replicate; lia).
  rewrite bind_Ok, insert_insert_eq.
  set (image := take (Z.to_nat len) data).
  set (h1 := <[fresh (dom h) := BlkBytes image]> h).
  pose proof (fresh_unused h1) as Fv.
  assert (fresh (dom h1) ≠ fresh (dom h)) as Hne.
  { intros Heq. rewrite Heq in Fv. unfold h1 in Fv. by rewrite lookup_insert_eq in Fv. }
  unfold VFileFromMemory, alloc.
  cbn [rom set_rom set_romvf romvf default from_option id].
  assert (h1 !! fresh (dom h) = Some (BlkBytes image)) as L1
    by (unfold h1; apply lookup_insert_eq).
  rewrite bind_Ok, lookup_insert_ne by done. rewrite L1, bind_Ok.
  destruct (GBAIsROM image); cbn [negb].
  { cbn [gba set_gba set_sramvf set_romvf set_rom savedata].
    rewrite memcpy_header_id. unfold mapped_rom.
    destruct (decide (holds_id _)); [|reflexivity].
    rewrite bind_Ok. unfold mounted.
    cbn [gba set_gba set_sramvf set_romvf set_rom savedata]. reflexivity. }
  rewrite VFile_close_fresh by done. rewrite bind_Ok.
  unfold h1. rewrite free_fresh by done. rewrite bind_Ok.
  by destruct c.
Qed.

End RomMount.

(** ** The frame loop *)


Lemma write_strided_ok (samples : list Z) :
  ∀ (out : list Z) (off : nat),
    off + 2 * length samples ≤ length out + 1 →
    ∃ out', write_strided out off 2 samples = Ok out' ∧
      length out' = length out ∧
      (∀ i x, samples !! i = Some x → out' !! (off + 2 * i) = Some x) ∧
      (∀ j, (∀ i, i < length samples → j ≠ off + 2 * i) → out' !! j = out !! j).
Proof.
  induction samples as [|x samples IH]; intros out off Hfit.
  - exists out. split; [done|]. split; [done|]. split; [|done].
    intros i y Hi. done.
  - cbn [write_strided length] in *. rewrite store_Ok, bind_Ok by lia.
    destruct (IH (<[off := x]> out) (off + 2)) as (out' & E & Len & Hw & Hr).
    { rewrite length_insert. lia. }
    exists out'. rewrite length_insert in Len. split; [done|]. split; [done|]. split.
    + intros [|i] y Hi; simpl in Hi.
      * injection Hi as ->. rewrite Hr.
        -- rewrite Nat.add_0_r. apply list_lookup_insert_eq. lia.
        -- intros i Hi. lia.
      * replace (off + 2 * S i) with (off + 2 + 2 * i) by lia. by apply Hw.
    + intros j Hj. rewrite Hr.
      * apply list_lookup_insert_ne. specialize (Hj 0). lia.
      * intros i Hi. specialize (Hj (S i)). lia.
Qed.

Section FrameStepper.
Context `{Platform} `{Engine}.

Lemma run_steps_S (n : nat) (c : bizctx) :
  run_steps (S n) c = run_cpu (run_steps n c).
Proof.
  revert c. induction n as [|n IH]; intros c; [done|].
  change (run_steps (S (S n)) c) with (run_steps (S n) (run_cpu c)).
  rewrite IH. done.
Qed.

Lemma run_cpu_sensors (c : bizctx) : sensors (run_cpu c) = sensors c.
Proof. reflexivity. Qed.

Lemma run_steps_sensors (n : nat) (c : bizctx) : sensors (run_steps n c) = sensors c.
Proof.
  revert c. induction n as [|n IH]; intros c; [done|].
  cbn [run_steps]. rewrite IH. apply run_cpu_sensors.
Qed.

(** The loop's body writes the machine, the frame buffer and the save
    buffer, and no other member. *)
Lemma run_steps_frame (n : nat) (c : bizctx) :
  this (run_steps n c) = this c ∧ rom (run_steps n c) = rom c ∧
  romvf (run_steps n c) = romvf c ∧ biosvf (run_steps n c) = biosvf c ∧
  sramvf (run_steps n c) = sramvf c ∧ engine_mem (run_steps n c) = engine_mem c ∧
  tiltx (run_steps n c) = tiltx c ∧ tilty (run_steps n c) = tilty c ∧
  tiltz (run_steps n c) = tiltz c ∧ time (run_steps n c) = time c ∧
  light (run_steps n c) = light c ∧ rotsource (run_steps n c) = rotsource c ∧
  lumasource (run_steps n c) = lumasource c ∧ rtcsource (run_steps n c) = rtcsource c.
Proof.
  revert c. induction n as [|n IH]; intros c; [by repeat split|].
  cbn [run_steps]. destruct (IH (run_cpu c)) as (?&?&?&?&?&?&?&?&?&?&?&?&?&?).
  repeat split; (etrans; [eassumption|reflexivity]).
Qed.

Lemma frame_loop_spec (n : nat) :
  ∀ (fuel : nat) (frameCount : Z) (c : bizctx),
    (∀ k, k < n → video_frameCounter (gba (run_steps k c)) = frameCount) →
    video_frameCounter (gba (run_steps n c)) ≠ frameCount →
    frame_loop fuel frameCount c
      = if decide (n ≤ fuel) then Ok (run_steps n c) else OutOfFuel.
Proof.
  induction n as [|n IH]; intros fuel fc c Hbefore Hat.
  - rewrite decide_True by lia. cbn [run_steps] in Hat.
    destruct fuel; cbn [frame_loop]; by rewrite decide_False.
  - pose proof (Hbefore 0 ltac:(lia)) as Hentry. cbn [run_steps] in Hentry.
    destruct fuel as [|fuel]; cbn [frame_loop run_steps]; rewrite decide_True by done.
    + by rewrite decide_False by lia.
    + rewrite (IH fuel fc (run_cpu c)).
      * destruct (decide (n ≤ fuel)); [by rewrite decide_True by lia|by rewrite decide_False by lia].
      * intros k Hk. apply (Hbefore (S k)). lia.
      * done.
Qed.

Context `{!EngineOk}.

Lemma run_cpu_frameCounter (c : bizctx) :
  video_frameCounter (gba (run_cpu c)) = video_frameCounter (gba c) ∨
  video_frameCounter (gba (run_cpu c)) = frame_succ (video_frameCounter (gba c)).
Proof. apply (ARMRunLoop_frameCounter (sensors c) (footprint c)). Qed.

Lemma run_steps_vbuff (n : nat) (c : bizctx) :
  length (vbuff (run_steps n c)) = length (vbuff c).
Proof.
  revert c. induction n as [|n IH]; intros c; [done|]. cbn [run_steps]. rewrite IH.
  apply (ARMRunLoop_vbuff (sensors c) (footprint c)).
Qed.

(** At the first step that changes the counter, the counter is one more
    than at entry. *)
Lemma first_frame_succ (n : nat) (c : bizctx) :
  first_frame n c →
  0 < n ∧
  video_frameCounter (gba (run_steps n c)) = frame_succ (video_frameCounter (gba c)).
Proof.
  intros [Hbefore Hat]. destruct n as [|n]; [done|]. split; [lia|].
  rewrite run_steps_S in *.
  destruct (run_cpu_frameCounter (run_steps n c)) as [E|E];
    rewrite (Hbefore n ltac:(lia)) in E; [done|done].
Qed.


End FrameStepper.

Section Advance.
Context `{Platform} `{Engine} `{!PlatformOk} `{!EngineOk}.


Lemma blip_take_1024 (b : blip_t) : length (blip_take b 1024).1 ≤ 1024.
Proof. rewrite blip_take_length by lia. lia. Qed.

(** Lines 242-246 on a buffer of 1024 stereo pairs. *)
Lemma drain_ok (c : bizctx) (sbuff : list Z) :
  2048 ≤ length sbuff →
  ∃ out,
    ('(bl, sbuff) ← blip_read_samples (audio_left (gba c)) sbuff 0 1024 true;
     let c := set_gba (set_audio_left bl (gba c)) c in
     '(br, sbuff) ← blip_read_samples (audio_right (gba c)) sbuff 1 1024 true;
     let c := set_gba (set_audio_right br (gba c)) c in
     Ok (c, sbuff)) = Ok (drained c, out) ∧
    interleaved (blip_take (audio_left (gba c)) 1024).1
                (blip_take (audio_right (gba c)) 1024).1 sbuff out.
Proof.
  intros Hcap. unfold blip_read_samples, drained.
  pose proof (blip_take_1024 (audio_left (gba c))) as Hl.
  pose proof (blip_take_1024 (audio_right (gba c))) as Hr.
  destruct (blip_take (audio_left (gba c)) 1024) as [ls bl]. simpl in Hl.
  destruct (write_strided_ok ls sbuff 0) as (o1 & E1 & Len1 & W1 & R1); [lia|].
  rewrite E1, !bind_Ok. cbn [gba set_gba audio_right set_audio_left].
  destruct (blip_take (audio_right (gba c)) 1024) as [rs br]. simpl in Hr.
  destruct (write_strided_ok rs o1 1) as (o2 & E2 & Len2 & W2 & R2); [lia|].
  rewrite E2, !bind_Ok. exists o2. split; [done|].
  unfold interleaved. cbn [fst].
  split; [lia|]. split; [|split; [|split]].
  - intros i x Hi. rewrite R2 by (intros; lia). by apply (W1 i x).
  - intros i x Hi. replace (2 * i + 1) with (1 + 2 * i) by lia. by apply W2.
  - intros i Hi. rewrite R2 by (intros; lia). apply R1. intros; lia.
  - intros i Hi. rewrite R2 by (intros; lia). apply R1. intros; lia.
Qed.

(** One call of [BizAdvance], from the step at which the engine completes
    its next frame. *)
Lemma BizAdvance_spec (c : bizctx) (keys : Z) (dst_vbuff : bytes) (sbuff : list Z)
    (time gyrox gyroy gyroz luma : Z) (n : nat) :
  let c0 := latch c keys time gyrox gyroy gyroz luma in
  let c1 := run_steps n c0 in
  first_frame n c0 →
  length (vbuff c) = Z.to_nat FRAME_BYTES →
  length dst_vbuff = Z.to_nat FRAME_BYTES →
  2048 ≤ length sbuff →
  ∃ a,
    (∀ fuel, BizAdvance fuel c keys dst_vbuff sbuff time gyrox gyroy gyroz luma
             = if decide (n ≤ fuel) then Ok a else OutOfFuel) ∧
    adv_ctx a = drained c1 ∧
    blit dst_vbuff (vbuff c1) = Ok (adv_vbuff a) ∧
    adv_nsamp a = Z.min (blip_samples_avail (audio_left (gba c1))) 1024 ∧
    interleaved (blip_take (audio_left (gba c1)) 1024).1
                (blip_take (audio_right (gba c1)) 1024).1 sbuff (adv_sbuff a).
Proof.
  intros c0 c1 [Hbefore Hat] Hv Hd Hs.
  destruct (blit_converts dst_vbuff (vbuff c1)) as (v' & Ev & _); [done| |].
  { unfold c1. by rewrite run_steps_vbuff. }
  destruct (drain_ok c1 sbuff Hs) as (s' & Es & Hint).
  exists {| adv_ctx := drained c1; adv_vbuff := v';
            adv_nsamp := Z.min (blip_samples_avail (audio_left (gba c1))) 1024;
            adv_sbuff := s' |}.
  cbn [adv_ctx adv_vbuff adv_nsamp adv_sbuff].
  split; [|split; [done|split; [done|split; [done|exact Hint]]]].
  intros fuel. unfold BizAdvance. fold c0.
  rewrite (frame_loop_spec n fuel _ c0 Hbefore Hat).
  destruct (decide (n ≤ fuel)); [|done].
  rewrite bind_Ok. fold c1. rewrite Ev, bind_Ok.
  destruct (blip_read_samples (audio_left (gba c1)) sbuff 0 1024 true)
    as [[bl o1]| |]; cbn [mbind result_bind] in Es |- *; try discriminate Es.
  destruct (blip_read_samples _ o1 1 1024 true)
    as [[br o2]| |]; cbn [mbind result_bind] in Es |- *; try discriminate Es.
  pose proof (f_equal (λ r, match r with Ok (_, s) => s | _ => [] end) Es) as Eo.
  pose proof (f_equal (λ r, match r with Ok (c, _) => c | _ => c1 end) Es) as Ec.
  cbn beta iota in Eo, Ec. rewrite Ec, Eo.
  f_equal. f_equal. case_decide; lia.
Qed.

End Advance.

Section FrameClaims.
Context `{Platform} `{Engine} `{!PlatformOk} `{!EngineOk}.


(** C6.  Under the same conditions the call returns normally, whatever the
    number of sample pairs the resampler holds; the count stored through
    [nsamp] is that number capped at 1024, so at most 1024; the caller's
    buffer receives the samples read from the left channel in its even
    slots and those read from the right channel in its odd slots, at most
    1024 of each, and no slot beyond those.  No call that returns stores a
    count above 1024.  The two ring buffers are handed back as one read of
    at most 1024 samples has left each of them, the call does nothing else
    to them: with a ring buffer from which a read removes what it returns,
    the samples beyond 1024 are not discarded, they are all still queued
    when the call returns. *)
Theorem BizAdvance_sample_cap (c : bizctx) (keys : Z) (dst_vbuff : bytes)
    (sbuff : list Z) (time gyrox gyroy gyroz luma : Z) (n : nat) :
  let c0 := latch c keys time gyrox gyroy gyroz luma in
  let c1 := run_steps n c0 in
  let avail := blip_samples_avail (audio_left (gba c1)) in
  let ls := (blip_take (audio_left (gba c1)) 1024).1 in
  let rs := (blip_take (audio_right (gba c1)) 1024).1 in
  first_frame n c0 →
  length (vbuff c) = Z.to_nat FRAME_BYTES →
  length dst_vbuff = Z.to_nat FRAME_BYTES →
  2048 ≤ length sbuff →
  ∃ a,
    (∀ fuel, n ≤ fuel →
       BizAdvance fuel c keys dst_vbuff sbuff time gyrox gyroy gyroz luma = Ok a) ∧
    (0 ≤ adv_nsamp a ≤ 1024)%Z ∧
    adv_nsamp a = Z.min avail 1024 ∧
    ((1024 < avail)%Z → adv_nsamp a = 1024%Z) ∧
    Z.of_nat (length ls) = adv_nsamp a ∧
    length rs ≤ 1024 ∧
    interleaved ls rs sbuff (adv_sbuff a) ∧
    (∀ fuel a', BizAdvance fuel c keys dst_vbuff sbuff time gyrox gyroy gyroz luma = Ok a' →
       (adv_nsamp a' ≤ 1024)%Z) ∧
    adv_ctx a = drained c1 ∧
    audio_left (gba (adv_ctx a)) = (blip_take (audio_left (gba c1)) 1024).2 ∧
    audio_right (gba (adv_ctx a)) = (blip_take (audio_right (gba c1)) 1024).2 ∧
    (reads_remove →
       blip_samples_avail (audio_left (gba (adv_ctx a))) = (avail - adv_nsamp a)%Z ∧
       blip_samples_avail (audio_right (gba (adv_ctx a)))
         = (blip_samples_avail (audio_right (gba c1)) - Z.of_nat (length rs))%Z ∧
       ((1024 < avail)%Z →
          blip_samples_avail (audio_left (gba (adv_ctx a))) = (avail - 1024)%Z ∧
          (0 < blip_samples_avail (audio_left (gba (adv_ctx a))))%Z)).
Proof.
  intros c0 c1 avail ls rs Hn Hv Hd Hs.
  destruct (BizAdvance_spec c keys dst_vbuff sbuff time gyrox gyroy gyroz luma n
              Hn Hv Hd Hs) as (a & Hrun & Hctx & _ & Hns & Hint).
  pose proof (blip_samples_avail_nonneg (audio_left (gba c1))) as Hnn.
  fold c0 c1 avail in Hns, Hnn. fold c0 c1 ls rs in Hint. fold c0 c1 in Hctx.
  assert (Z.of_nat (length ls) = adv_nsamp a) as Hlen.
  { unfold ls. rewrite blip_take_length by lia. fold c1 avail. lia. }
  assert (audio_left (gba (adv_ctx a)) = (blip_take (audio_left (gba c1)) 1024).2) as Hl
    by (by rewrite Hctx).
  assert (audio_right (gba (adv_ctx a)) = (blip_take (audio_right (gba c1)) 1024).2) as Hr
    by (by rewrite Hctx).
  exists a.
  split; [intros fuel Hf; by rewrite Hrun, decide_True|].
  split; [lia|]. split; [done|]. split; [lia|]. split; [done|].
  split; [apply blip_take_1024|]. split; [done|].
  split; [|split; [done|split; [done|split; [done|]]]].
  - intros fuel a' Ha'. rewrite Hrun in Ha'. case_decide; [|done].
    injection Ha' as <-. lia.
  - intros Hrm.
    assert (blip_samples_avail (audio_left (gba (adv_ctx a))) = (avail - adv_nsamp a)%Z)
      as Hkeep.
    { rewrite Hl, Hrm by lia. fold ls. unfold avail. lia. }
    split; [done|]. split.
    + rewrite Hr, Hrm by lia. done.
    + intros Hover. rewrite Hkeep. lia.
Qed.

End FrameClaims.

(** ** The peripheral bridge *)

Section Peripherals.
Context `{Platform} `{Engine}.

Lemma shiftl16_int32 (z : Z) : CInt.in_sint 16 z → CInt.int32 (Z.shiftl z 16) = Z.shiftl z 16.
Proof.
  intros Hz. apply sint_id; [lia|].
  unfold CInt.in_sint in *. rewrite Z.shiftl_mul_pow2 by lia.
  change (2 ^ (16 - 1))%Z with 32768%Z in Hz.
  change (2 ^ (32 - 1))%Z with 2147483648%Z. change (2 ^ 16)%Z with 65536%Z. lia.
Qed.

Lemma frame_loop_inv (fuel : nat) :
  ∀ (frameCount : Z) (c c' : bizctx),
    frame_loop fuel frameCount c = Ok c' → ∃ k, c' = run_steps k c.
Proof.
  induction fuel as [|fuel IH]; intros fc c c'; simpl; case_decide; try done.
  - intros [= <-]. by exists 0.
  - intros Hl. destruct (IH _ _ _ Hl) as [k ->]. by exists (S k).
  - intros [= <-]. by exists 0.
Qed.

(** Whatever a returning call did, the context it returns is the latched one
    after some steps of the engine, with the engine's structs rewritten. *)
Lemma BizAdvance_inv (fuel : nat) (c : bizctx) (x : advance_args) (a : advanced) :
  advance fuel c x = Ok a →
  ∃ k g, adv_ctx a = set_gba g (run_steps k (latch_args c x)).
Proof.
  unfold advance, BizAdvance. intros Ha.
  apply bind_Ok_inv in Ha as (c1 & Hloop & Ha).
  apply frame_loop_inv in Hloop as [k ->].
  apply bind_Ok_inv in Ha as (v & _ & Ha).
  apply bind_Ok_inv in Ha as ([bl s1] & _ & Ha).
  apply bind_Ok_inv in Ha as ([br s2] & _ & Ha).
  injection Ha as <-. by eexists k, _.
Qed.

Lemma wired_run_steps (k : nat) (g : GBA) (c : bizctx) :
  wired c → wired (set_gba g (run_steps k c)).
Proof.
  intros (Hr & Hl & Ht). destruct (run_steps_frame k c) as (_&_&_&_&_&_&_&_&_&_&_&Er&El&Et).
  unfold wired. cbn. by rewrite Er, El, Et.
Qed.

Lemma advance_all_wired (fuel : nat) (calls : list advance_args) :
  ∀ c c', wired c → advance_all fuel c calls = Ok c' → wired c'.
Proof.
  induction calls as [|x calls IH]; intros c c' Hw; simpl.
  - by intros [= <-].
  - intros Hall. apply bind_Ok_inv in Hall as (a & Ha & Hall).
    apply (IH (adv_ctx a)); [|done].
    apply BizAdvance_inv in Ha as (k & g & ->). by apply wired_run_steps.
Qed.

Context `{!PlatformOk}.

Lemma time_t_holds_int64 (z : Z) : CInt.in_sint 64 z → CInt.sint time_t_bits z = z.
Proof.
  intros Hz. pose proof time_t_wide as Hw. apply sint_id; [lia|].
  unfold CInt.in_sint in *.
  assert (2 ^ (64 - 1) ≤ 2 ^ (time_t_bits - 1))%Z by (apply Z.pow_le_mono_r; lia).
  lia.
Qed.

Lemma latch_view (c : bizctx) (x : advance_args) :
  wired c → args_in_range x → sensors (latch_args c x) = latched_view x.
Proof.
  intros (Hr & Hl & Ht) (Rt & Rx & Ry & Rz & Rl).
  unfold sensors, latched_view. cbn. rewrite Hr, Hl, Ht. cbn.
  unfold GetX, GetY, GetZ, GetLight, GetTime. cbn.
  by rewrite !shiftl16_int32, uint8_id, time_t_holds_int64.
Qed.

End Peripherals.

(** ** Save RAM *)

Section SaveRam.
Context `{Platform} `{EngineTypes} `{!PlatformOk}.

Lemma BizGetSaveRamSize_bounds (c : bizctx) :
  (0 ≤ BizGetSaveRamSize c ≤ SIZE_CART_FLASH1M)%Z.
Proof.
  pose proof flash1m_pos. pose proof flash512_pos. pose proof eeprom_pos.
  pose proof sram_pos. pose proof flash512_fits. pose proof eeprom_fits.
  pose proof sram_fits.
  unfold BizGetSaveRamSize. destruct (memory_savedata_type (gba c)); lia.
Qed.

(** C8.  The size [BizGetSaveRamSize] returns is read off the save type the
    engine detected and nothing else: the 1 Mbit flash size for 1 Mbit flash
    (and while the type is still to be detected), the 512 kbit flash size,
    the EEPROM size and the SRAM size for those types, zero when saves are
    forced off.  With the four sizes distinct and positive, the four types
    get four different non-zero sizes, and zero is returned for the
    force-none type only. *)
Theorem BizGetSaveRamSize_by_type (c : bizctx) :
  let t := memory_savedata_type (gba c) in
  (t = SAVEDATA_FLASH1M → BizGetSaveRamSize c = SIZE_CART_FLASH1M) ∧
  (t = SAVEDATA_FLASH512 → BizGetSaveRamSize c = SIZE_CART_FLASH512) ∧
  (t = SAVEDATA_EEPROM → BizGetSaveRamSize c = SIZE_CART_EEPROM) ∧
  (t = SAVEDATA_SRAM → BizGetSaveRamSize c = SIZE_CART_SRAM) ∧
  (t = SAVEDATA_FORCE_NONE → BizGetSaveRamSize c = 0%Z) ∧
  (t = SAVEDATA_AUTODETECT → BizGetSaveRamSize c = SIZE_CART_FLASH1M) ∧
  (BizGetSaveRamSize c = 0%Z ↔ t = SAVEDATA_FORCE_NONE) ∧
  (∀ c' : bizctx,
     let t' := memory_savedata_type (gba c') in
     (t = t' → BizGetSaveRamSize c = BizGetSaveRamSize c') ∧
     (t ≠ SAVEDATA_AUTODETECT → t' ≠ SAVEDATA_AUTODETECT →
      BizGetSaveRamSize c = BizGetSaveRamSize c' → t = t')).
Proof.
  cbv zeta.
  pose proof flash1m_pos. pose proof flash512_pos. pose proof eeprom_pos.
  pose proof sram_pos. pose proof sizes_distinct as Hd.
  apply NoDup_cons in Hd as [N1 Hd]. apply NoDup_cons in Hd as [N2 Hd].
  apply NoDup_cons in Hd as [N3 _].
  assert (SIZE_CART_FLASH1M ≠ SIZE_CART_FLASH512) by set_solver.
  assert (SIZE_CART_FLASH1M ≠ SIZE_CART_EEPROM) by set_solver.
  assert (SIZE_CART_FLASH1M ≠ SIZE_CART_SRAM) by set_solver.
  assert (SIZE_CART_FLASH512 ≠ SIZE_CART_EEPROM) by set_solver.
  assert (SIZE_CART_FLASH512 ≠ SIZE_CART_SRAM) by set_solver.
  assert (SIZE_CART_EEPROM ≠ SIZE_CART_SRAM) by set_solver.
  unfold BizGetSaveRamSize.
  do 6 (split; [by intros ->|]).
  split.
  - destruct (memory_savedata_type (gba c)); split; intros; (done || lia).
  - intros c'. split; [by intros ->|].
    destruct (memory_savedata_type (gba c)), (memory_savedata_type (gba c'));
      intros; (done || lia).
Qed.

(** C9.  With the save buffer at its fixed capacity and both of the caller's
    buffers at least [BizGetSaveRamSize c] bytes long, [BizPutSaveRam]
    followed by [BizGetSaveRam] returns, leaves the save type and so the
    size [n] unchanged, and yields the first [n] bytes of [buf] as the first
    [n] bytes of [buf2].  Only those are copied: the rest of [buf2] and the
    rest of the save buffer are as before, and the result does not depend on
    the save buffer beyond its first [n] bytes. *)
Theorem SaveRam_roundtrip (c : bizctx) (buf buf2 : bytes) :
  let n := BizGetSaveRamSize c in
  length (savedata c) = Z.to_nat SIZE_CART_FLASH1M →
  (n ≤ Z.of_nat (length buf))%Z →
  (n ≤ Z.of_nat (length buf2))%Z →
  ∃ c' out,
    BizPutSaveRam c buf = Ok c' ∧
    BizGetSaveRamSize c' = n ∧
    BizGetSaveRam c' buf2 = Ok out ∧
    take (Z.to_nat n) out = take (Z.to_nat n) buf ∧
    drop (Z.to_nat n) out = drop (Z.to_nat n) buf2 ∧
    length out = length buf2 ∧
    drop (Z.to_nat n) (savedata c') = drop (Z.to_nat n) (savedata c) ∧
    length (savedata c') = length (savedata c) ∧
    (∀ c'' : bizctx,
       BizGetSaveRamSize c'' = n →
       length (savedata c'') = length (savedata c) →
       take (Z.to_nat n) (savedata c'') = take (Z.to_nat n) (savedata c') →
       BizGetSaveRam c'' buf2 = Ok out).
Proof.
  intros n Hcap Hbuf Hbuf2.
  pose proof (BizGetSaveRamSize_bounds c) as Hn. fold n in Hn.
  pose proof flash1m_pos.
  assert (Z.to_nat n ≤ length (savedata c)) as Hfit by lia.
  unfold BizPutSaveRam, BizGetSaveRam. fold n.
  rewrite memcpy_Ok by lia. rewrite bind_Ok.
  set (image := take (Z.to_nat n) buf ++ drop (Z.to_nat n) (savedata c)).
  assert (length (take (Z.to_nat n) buf) = Z.to_nat n) as Ltake
    by (rewrite length_take; lia).
  assert (length image = length (savedata c)) as Limage.
  { unfold image. rewrite length_app, Ltake, length_drop. lia. }
  assert (take (Z.to_nat n) image = take (Z.to_nat n) buf) as Timage.
  { unfold image. rewrite take_app_le by lia. rewrite take_take. f_equal. lia. }
  exists (set_savedata image c), (take (Z.to_nat n) buf ++ drop (Z.to_nat n) buf2).
  split; [done|]. split; [done|].
  change (BizGetSaveRamSize (set_savedata image c)) with n.
  change (savedata (set_savedata image c)) with image.
  split; [|split; [|split; [|split; [|split; [|split]]]]].
  - rewrite memcpy_Ok by lia. by rewrite Timage.
  - rewrite take_app_le by lia. rewrite take_take. f_equal. lia.
  - rewrite drop_app_ge by lia. rewrite Ltake, Nat.sub_diag. done.
  - rewrite length_app, Ltake, length_drop. lia.
  - unfold image. rewrite drop_app_ge by lia. rewrite Ltake, Nat.sub_diag. done.
  - done.
  - intros c'' Hsize Hlen Htake. rewrite Hsize.
    rewrite memcpy_Ok by lia. by rewrite Htake, Timage.
Qed.

End SaveRam.

(** ** Lifecycle *)

Section LifecycleClaims.
Context `{Platform} `{Engine} `{Allocator}.

(** The members a mount leaves alone or sets. *)
Lemma mounted_fields (c : bizctx) (image : bytes) (p v s : nat) :
  rom (mounted c image p v s) = Some p ∧ romvf (mounted c image p v s) = Some v ∧
  sramvf (mounted c image p v s) = Some s ∧
  biosvf (mounted c image p v s) = biosvf c ∧
  this (mounted c image p v s) = this c ∧
  engine_mem (mounted c image p v s) = engine_mem c ∧
  savedata (mounted c image p v s) = savedata c ∧
  vbuff (mounted c image p v s) = vbuff c ∧
  rotsource (mounted c image p v s) = rotsource c ∧
  lumasource (mounted c image p v s) = lumasource c ∧
  rtcsource (mounted c image p v s) = rtcsource c.
Proof. unfold mounted. cbn. destruct (GBAOverrideFind _); by repeat split. Qed.

Lemma BizLoad_out_of_bounds (h : heap) (c : bizctx) (data : bytes) (len : Z) :
  alloc_succeeds h (ReqBytes len) = true →
  ¬ (0 ≤ len ≤ Z.of_nat (length data))%Z →
  BizLoad h c data len = Undefined.
Proof.
  intros Hok Hlen. unfold BizLoad, malloc. rewrite Hok.
  cbn -[memcpy_block Z.to_nat].
  unfold memcpy_block, block_bytes. rewrite lookup_insert_eq, bind_Ok.
  unfold memcpy. rewrite decide_False by lia. done.
Qed.

(** The three ways [BizLoad] returns. *)
Lemma BizLoad_cases (h h' : heap) (c c' : bizctx) (data : bytes) (len r : Z) :
  BizLoad h c data len = Ok (h', c', r) →
  (r = 0%Z ∧ h' = h ∧ c' = set_rom None c) ∨
  (r = 0%Z ∧ h' = h ∧ c' = set_rom None (set_romvf None c)) ∨
  (r = 1%Z ∧ ∃ image p v s, c' = mounted c image p v s).
Proof.
  destruct (alloc_succeeds h (ReqBytes len)) eqn:Hok.
  - destruct (decide (0 ≤ len ≤ Z.of_nat (length data))%Z) as [Hlen|Hlen].
    + rewrite BizLoad_spec by done. cbv zeta.
      destruct (GBAIsROM _); [case_decide|]; intros [= <- <- <-];
        [|by right; left].
      right; right. split; [done|]. by eexists _, _, _, _.
    + by rewrite BizLoad_out_of_bounds.
  - rewrite BizLoad_no_memory by done. intros [= <- <- <-]. by left.
Qed.

Lemma BizCreate_inv (h h' : heap) (bios_arg : option bytes) (c : bizctx) :
  BizCreate h bios_arg = Ok (h', Some c) →
  wired c ∧ rom c = None ∧ romvf c = None ∧ sramvf c = None ∧
  length (savedata c) = Z.to_nat SIZE_CART_FLASH1M ∧
  length (vbuff c) = Z.to_nat FRAME_BYTES.
Proof.
  unfold BizCreate, calloc_bizctx.
  destruct (alloc_succeeds h ReqContext); [|discriminate].
  unfold alloc. cbn [fmap option_fmap option_map deref mbind result_bind].
  set (h1 := <[fresh (dom h) := BlkContext]> h).
  set (cz := set_savedata (memset (savedata (bizctx_zero (fresh (dom h)))) 0xff)
       (bizctx_zero (fresh (dom h)))).
  destruct (create_engine_spec h1 cz)
    as (c1 & Ec & _ & _ & _ & Esave & Evb & Erom & Eromvf & _ & Esram).
  rewrite Ec.
  assert (length (savedata c1) = Z.to_nat SIZE_CART_FLASH1M) as Hsave.
  { rewrite Esave. change (savedata cz)
      with (memset (replicate (Z.to_nat SIZE_CART_FLASH1M) 0%Z) 0xff).
    unfold memset. by rewrite !length_replicate. }
  assert (length (vbuff c1) = Z.to_nat FRAME_BYTES) as Hvb.
  { rewrite Evb. change (vbuff cz) with (replicate (Z.to_nat FRAME_BYTES) 0%Z).
    by rewrite length_replicate. }
  change (rom cz) with (@None nat) in Erom.
  change (romvf cz) with (@None nat) in Eromvf.
  change (sramvf cz) with (@None nat) in Esram.
  destruct bios_arg as [b|].
  - intros Hc. apply bind_Ok_inv in Hc as (image & _ & Hc).
    unfold VFileFromMemory, alloc in Hc.
    cbn [bios set_biosvf set_bios biosvf this] in Hc.
    destruct (GBAIsBIOS image); cbn [negb] in Hc.
    + injection Hc as <- <-. by repeat split.
    + apply bind_Ok_inv in Hc as (? & _ & Hc).
      apply bind_Ok_inv in Hc as (? & _ & Hc).
      apply bind_Ok_inv in Hc as (? & _ & Hc). done.
  - intros [= <- <-]. by repeat split.
Qed.

Lemma BizDestroy_null (h : heap) (c : bizctx) :
  romvf c = None ∨ sramvf c = None → BizDestroy h c = Undefined.
Proof.
  intros Hnull. unfold BizDestroy.
  destruct (VFile_close_cases h (romvf c)) as [->|(a & Ea & ->)]; [done|].
  destruct Hnull as [Hr|Hs]; [congruence|].
  rewrite bind_Ok. cbn [rom set_romvf biosvf set_rom sramvf].
  destruct (free_cases (delete a h) (rom c)) as [->|(h1 & ->)]; [done|].
  rewrite bind_Ok, Hs.
  destruct (biosvf c) as [b|]; [|done].
  by destruct (VFile_close_cases h1 (Some b)) as [->|(? & _ & ->)].
Qed.

Lemma unloaded_null (h : heap) (c : bizctx) :
  unloaded h c → romvf c = None ∧ sramvf c = None.
Proof.
  induction 1 as [h0 b h c Hc|h c data len h' c' _ [IHr IHs] Hl|h c _ IH
                 |h c fuel x a _ [IHr IHs] Ha|h c data c' _ IH Hp].
  - apply BizCreate_inv in Hc. tauto.
  - apply BizLoad_cases in Hl as [(_ & _ & ->)|[(_ & _ & ->)|(? & _)]]; done.
  - done.
  - apply BizAdvance_inv in Ha as (k & g & ->).
    destruct (run_steps_frame k (latch_args c x)) as (_&_&Er&_&Es&_). cbn.
    by rewrite Er, Es.
  - unfold BizPutSaveRam in Hp. apply bind_Ok_inv in Hp as (? & _ & [= <-]). done.
Qed.

Lemma wire_hooks_handles (c : bizctx) :
  this (wire_hooks c) = this c ∧ engine_mem (wire_hooks c) = engine_mem c ∧
  biosvf (wire_hooks c) = biosvf c.
Proof. by repeat split. Qed.

Lemma BizCreate_no_bios_heap (h : heap) :
  alloc_succeeds h ReqContext = true →
  let h1 := <[fresh (dom h) := BlkContext]> h in
  ∃ c,
    BizCreate h None = Ok (<[fresh (dom h1) := BlkEngine]> h1, Some c) ∧
    this c = fresh (dom h) ∧ engine_mem c = Some (fresh (dom h1)) ∧
    biosvf c = None.
Proof.
  intros Hok h1. unfold BizCreate, calloc_bizctx. rewrite Hok.
  unfold alloc. cbn [fmap option_fmap option_map deref mbind result_bind].
  fold h1. set (cz := set_savedata _ _).
  destruct (create_engine_spec h1 cz)
    as (c & Ec & Emem & Ethis & _ & _ & _ & _ & _ & Ebios & _).
  rewrite Ec. exists (wire_hooks c). split; [done|].
  destruct (wire_hooks_handles c) as (-> & -> & ->). by repeat split.
Qed.

(** After [BizCreate(NULL)] and a [BizLoad] of a ROM the engine accepts and
    maps with its game code in reach, [BizLoad] returns 1 and [BizDestroy]
    is defined and hands back every block: the heap is the one [BizCreate]
    was entered with. *)
Lemma Create_Load_Destroy (h : heap) (data : bytes) (len : Z) :
  let h1 := <[fresh (dom h) := BlkContext]> h in
  let h2 := <[fresh (dom h1) := BlkEngine]> h1 in
  alloc_succeeds h ReqContext = true →
  alloc_succeeds h2 (ReqBytes len) = true →
  (0 ≤ len ≤ Z.of_nat (length data))%Z →
  GBAIsROM (take (Z.to_nat len) data) = true →
  ∃ c,
    BizCreate h None = Ok (h2, Some c) ∧
    (holds_id (mapped_rom c (take (Z.to_nat len) data)) →
     ∃ h3 c',
       BizLoad h2 c data len = Ok (h3, c', 1%Z) ∧
       BizDestroy h3 c' = Ok h).
Proof.
  intros h1 h2 Hok Hok2 Hlen Hrom.
  destruct (BizCreate_no_bios_heap h Hok) as (c & Hcreate & Hthis & Hmem & Hbios).
  fold h1 h2 in Hcreate, Hmem.
  exists c. split; [done|]. intros Hid.
  pose proof (BizLoad_spec h2 c data len Hok2 Hlen) as Hload.
  cbv zeta in Hload. rewrite Hrom, decide_True in Hload by done.
  set (image := take (Z.to_nat len) data) in *.
  set (p := fresh (dom h)) in *. set (e := fresh (dom h1)) in *.
  set (r := fresh (dom h2)) in *.
  set (h3 := <[r := BlkBytes image]> h2) in *.
  set (v := fresh (dom h3)) in *.
  set (h4 := <[v := BlkVFile (VfRom r)]> h3) in *.
  set (s := fresh (dom h4)) in *.
  set (h5 := <[s := BlkVFile VfSavedata]> h4) in *.
  exists h5, (mounted c image r v s). split; [done|].
  destruct (mounted_fields c image r v s)
    as (Er & Ev & Es & Eb & Et & Em & _).
  pose proof (fresh_unused h) as Fp. pose proof (fresh_unused h1) as Fe.
  pose proof (fresh_unused h2) as Fr. pose proof (fresh_unused h3) as Fv.
  pose proof (fresh_unused h4) as Fs. fold p in Fp. fold e in Fe. fold r in Fr.
  fold v in Fv. fold s in Fs.
  assert (e ≠ p) as Nep.
  { apply fresh_ne. unfold h1. by rewrite lookup_insert_eq. }
  assert (r ≠ e) as Nre.
  { apply fresh_ne. unfold h2. by rewrite lookup_insert_eq. }
  assert (r ≠ p) as Nrp.
  { apply fresh_ne. unfold h2, h1. rewrite lookup_insert_ne by done.
    by rewrite lookup_insert_eq. }
  assert (v ≠ r) as Nvr.
  { apply fresh_ne. unfold h3. by rewrite lookup_insert_eq. }
  assert (v ≠ e) as Nve.
  { apply fresh_ne. unfold h3, h2. rewrite lookup_insert_ne by done.
    by rewrite lookup_insert_eq. }
  assert (v ≠ p) as Nvp.
  { apply fresh_ne. unfold h3, h2, h1. rewrite !lookup_insert_ne by done.
    by rewrite lookup_insert_eq. }
  assert (s ≠ v) as Nsv.
  { apply fresh_ne. unfold h4. by rewrite lookup_insert_eq. }
  assert (s ≠ r) as Nsr.
  { apply fresh_ne. unfold h4, h3. rewrite lookup_insert_ne by done.
    by rewrite lookup_insert_eq. }
  assert (s ≠ e) as Nse.
  { apply fresh_ne. unfold h4, h3, h2. rewrite !lookup_insert_ne by done.
    by rewrite lookup_insert_eq. }
  assert (s ≠ p) as Nsp.
  { apply fresh_ne. unfold h4, h3, h2, h1. rewrite !lookup_insert_ne by done.
    by rewrite lookup_insert_eq. }
  assert (h2 !! s = None) as Fs2.
  { unfold h4, h3 in Fs. by rewrite !lookup_insert_ne in Fs by done. }
  assert (delete v h5 = <[s := BlkVFile VfSavedata]> h3) as D1.
  { unfold h5, h4. rewrite delete_insert_ne by done. by rewrite delete_insert_id. }
  assert (delete r (<[s := BlkVFile VfSavedata]> h3) = <[s := BlkVFile VfSavedata]> h2) as D2.
  { unfold h3. rewrite delete_insert_ne by done. by rewrite delete_insert_id. }
  unfold BizDestroy.
  cbn [rom romvf biosvf sramvf this engine_mem set_rom set_romvf].
  rewrite Er, Ev, Es, Eb, Et.
  rewrite Hbios, Hthis.
  rewrite (VFile_close_live h5 v (VfRom r)), bind_Ok, D1.
  2:{ unfold h5, h4. rewrite lookup_insert_ne by done. by rewrite lookup_insert_eq. }
  rewrite (free_live _ r (BlkBytes image)), bind_Ok, D2, bind_Ok.
  2:{ unfold h3. rewrite lookup_insert_ne by done. by rewrite lookup_insert_eq. }
  rewrite VFile_close_fresh, bind_Ok by done.
  unfold h2 at 1. rewrite GBADestroy_fresh, bind_Ok;
    [|cbn [engine_mem set_rom set_romvf]; by rewrite Em, Hmem|done].
  unfold h1. by rewrite free_fresh.
Qed.

(** Whatever [BizLoad] returns, it leaves the accessors and the two fixed
    buffers as they were. *)
Lemma BizLoad_keeps (h h' : heap) (c c' : bizctx) (data : bytes) (len r : Z) :
  BizLoad h c data len = Ok (h', c', r) →
  (wired c → wired c') ∧ vbuff c' = vbuff c ∧ savedata c' = savedata c.
Proof.
  intros Hl.
  apply BizLoad_cases in Hl as [(_ & _ & ->)|[(_ & _ & ->)|(_ & image & p & v & s & ->)]];
    [done..|].
  destruct (mounted_fields c image p v s) as (_&_&_&_&_&_&Es&Ev&Er&El&Et).
  unfold wired. by rewrite Es, Ev, Er, El, Et.
Qed.

(** A context made by [BizCreate] and mounted by [BizLoad] has what
    [BizAdvance] relies on: a frame buffer of the frame's size, a save
    buffer of full capacity, and the accessors installed. *)
Lemma Create_Load_ready (h0 h h' : heap) (bios_arg : option bytes) (c c' : bizctx)
    (data : bytes) (len r : Z) :
  BizCreate h0 bios_arg = Ok (h, Some c) →
  BizLoad h c data len = Ok (h', c', r) →
  wired c' ∧ length (vbuff c') = Z.to_nat FRAME_BYTES ∧
  length (savedata c') = Z.to_nat SIZE_CART_FLASH1M.
Proof.
  intros Hc Hl. apply BizCreate_inv in Hc as (Hw & _ & _ & _ & Hs & Hv).
  apply BizLoad_keeps in Hl as (Hw' & -> & ->). auto.
Qed.

(** C2.  When [calloc] served the context and the caller's BIOS (16384
    bytes, as the interface requires) fails [GBAIsBIOS], [BizCreate] returns
    the null pointer and the heap it was entered with: the virtual file, the
    engine instance and the context block it had obtained are all released
    again. *)
Theorem BizCreate_invalid_bios_rolls_back (h : heap) (b : bytes) :
  alloc_succeeds h ReqContext = true →
  (16384 ≤ Z.of_nat (length b))%Z →
  GBAIsBIOS (take (Z.to_nat 16384) b) = false →
  BizCreate h (Some b) = Ok (h, None).
Proof. intros Hok Hb Hbad. rewrite BizCreate_bios by done. by rewrite Hbad. Qed.

(** C3.  When [calloc] returns the null pointer, [BizCreate] does not reach
    its test of the pointer: the [memset] of line 100 goes through it first,
    which is undefined behaviour, and no null result is returned. *)
Theorem BizCreate_alloc_failure_undefined (h : heap) (bios_arg : option bytes) :
  alloc_succeeds h ReqContext = false →
  BizCreate h bios_arg = Undefined.
Proof. intros Hno. unfold BizCreate, calloc_bizctx. by rewrite Hno. Qed.

(** C4.  When [malloc] served the copy and the bytes fail [GBAIsROM],
    [BizLoad] returns 0 and the heap it was entered with (the copy and its
    virtual file are released, nothing else is touched), and a context that
    differs from the one given at most in its two ROM pointers, now null.  A
    further [BizLoad] on that context with bytes that pass [GBAIsROM] does
    what it would have done on the context as it was before the failed
    attempt.  When the ROM the engine then maps has the [id] member of its
    header in reach, this is: return 1, with the ROM copy and both virtual
    files as the only new blocks and the context the mounted one.  When the
    mapped ROM ends before that member, the read of lines 178-180 leaves the
    mapped bytes and the call is undefined, failed attempt or not. *)
Theorem BizLoad_invalid_rom_recoverable (h : heap) (c : bizctx) (data : bytes) (len : Z) :
  alloc_succeeds h (ReqBytes len) = true →
  (0 ≤ len ≤ Z.of_nat (length data))%Z →
  GBAIsROM (take (Z.to_nat len) data) = false →
  let c' := set_rom None (set_romvf None c) in
  BizLoad h c data len = Ok (h, c', 0%Z) ∧
  (rom c = None → romvf c = None → c' = c) ∧
  (∀ (data2 : bytes) (len2 : Z),
     alloc_succeeds h (ReqBytes len2) = true →
     (0 ≤ len2 ≤ Z.of_nat (length data2))%Z →
     GBAIsROM (take (Z.to_nat len2) data2) = true →
     let image := take (Z.to_nat len2) data2 in
     BizLoad h c' data2 len2 = BizLoad h c data2 len2 ∧
     (holds_id (mapped_rom c' image) →
      ∃ h2 c2 p v s,
        BizLoad h c' data2 len2 = Ok (h2, c2, 1%Z) ∧
        h !! p = None ∧ h !! v = None ∧ h !! s = None ∧
        h2 = <[s := BlkVFile VfSavedata]>
               (<[v := BlkVFile (VfRom p)]> (<[p := BlkBytes image]> h)) ∧
        c2 = mounted c image p v s ∧
        rom c2 = Some p ∧ h2 !! p = Some (BlkBytes image) ∧
        romvf c2 = Some v ∧ h2 !! v = Some (BlkVFile (VfRom p)) ∧
        sramvf c2 = Some s ∧ h2 !! s = Some (BlkVFile VfSavedata)) ∧
     (¬ holds_id (mapped_rom c' image) →
      BizLoad h c' data2 len2 = Undefined)).
Proof.
  intros Hok Hlen Hbad c'. split; [|split].
  - rewrite BizLoad_spec by done. cbv zeta. by rewrite Hbad.
  - intros Hr Hv. unfold c'. destruct c; cbn in *. by subst.
  - intros data2 len2 Hok2 Hlen2 Hgood image.
    assert (∀ p v s, mounted c' image p v s = mounted c image p v s) as Hsame
      by (intros p v s; unfold c'; by destruct c).
    assert (mapped_rom c' image = mapped_rom c image) as Hmap
      by (unfold c'; by destruct c).
    rewrite !BizLoad_spec by done. cbv zeta. fold image.
    fold image in Hgood. rewrite Hgood, Hmap.
    set (p := fresh (dom h)).
    set (h1 := <[p := BlkBytes image]> h).
    set (v := fresh (dom h1)).
    set (h2 := <[v := BlkVFile (VfRom p)]> h1).
    set (s := fresh (dom h2)).
    pose proof (fresh_unused h) as F0. fold p in F0.
    pose proof (fresh_unused h1) as F1. fold v in F1.
    pose proof (fresh_unused h2) as F2. fold s in F2.
    assert (h1 !! p = Some (BlkBytes image)) as L1
      by (unfold h1; apply lookup_insert_eq).
    assert (v ≠ p) as Nvp by congruence.
    assert (h2 !! p = Some (BlkBytes image)) as L2
      by (unfold h2; by rewrite lookup_insert_ne).
    assert (h2 !! v = Some (BlkVFile (VfRom p))) as L3
      by (unfold h2; apply lookup_insert_eq).
    assert (s ≠ p) as Nsp by congruence.
    assert (s ≠ v) as Nsv by congruence.
    split; [by rewrite Hsame|]. split.
    + intros Hid. rewrite decide_True by done.
      exists (<[s := BlkVFile VfSavedata]> h2), (mounted c image p v s), p, v, s.
      destruct (mounted_fields c image p v s) as (Er & Ev & Es & _).
      split; [by rewrite Hsame|]. split; [done|].
      split; [unfold h1 in F1; by rewrite lookup_insert_ne in F1|].
      split; [unfold h2, h1 in F2; by rewrite !lookup_insert_ne in F2|].
      split; [done|]. split; [done|]. split; [done|].
      split; [by rewrite lookup_insert_ne|]. split; [done|].
      split; [by rewrite lookup_insert_ne|]. split; [done|].
      apply lookup_insert_eq.
    + intros Hid. by rewrite decide_False.
Qed.

(** C10.  [BizDestroy] goes through [ctx->romvf] and [ctx->sramvf] without a
    test, and only a [BizLoad] that returns 1 makes them non-null (one that
    returns 0 leaves both null).  So on every context on which no load has
    succeeded both are null and [BizDestroy] is a null dereference; a call
    of [BizDestroy] that is defined had both handles set. *)
Theorem BizDestroy_needs_Load (h : heap) (c : bizctx) :
  unloaded h c →
  romvf c = None ∧ sramvf c = None ∧
  BizDestroy h c = Undefined ∧
  (∀ data len h' c' r,
     BizLoad h c data len = Ok (h', c', r) →
     (r = 0%Z ∧ romvf c' = None ∧ sramvf c' = None) ∨
     (r = 1%Z ∧ is_Some (romvf c') ∧ is_Some (sramvf c'))) ∧
  (∀ h2 c2, BizDestroy h2 c2 ≠ Undefined →
     is_Some (romvf c2) ∧ is_Some (sramvf c2)).
Proof.
  intros Hu. destruct (unloaded_null h c Hu) as [Hr Hs].
  split; [done|]. split; [done|]. split; [|split].
  - apply BizDestroy_null. by left.
  - intros data len h' c' r Hl.
    apply BizLoad_cases in Hl as [(-> & _ & ->)|[(-> & _ & ->)|(-> & image & p & v & s & ->)]].
    + by left.
    + by left.
    + right. destruct (mounted_fields c image p v s) as (_ & -> & -> & _). eauto.
  - intros h2 c2 Hdef.
    destruct (romvf c2) as [v|] eqn:Ev; [|by destruct Hdef; apply BizDestroy_null; left].
    destruct (sramvf c2) as [s|] eqn:Es; [|by destruct Hdef; apply BizDestroy_null; right].
    eauto.
Qed.

End LifecycleClaims.

(** ** The assumptions can be met *)

Lemma mgba_platform_ok : @PlatformOk mgba_platform.
Proof.
  split; try (by vm_compute).
  - exists 9600%Z. by vm_compute.
  - apply (bool_decide_unpack _). by vm_compute.
Qed.

Lemma toy_platform_ok : @PlatformOk Toy.platform.
Proof.
  split; try (by vm_compute).
  - exists 1%Z. by vm_compute.
  - apply (bool_decide_unpack _). by vm_compute.
Qed.

Lemma toy_engine_ok : @EngineOk Toy.types Toy.engine.
Proof.
  split.
  - intros s fp. cbn. unfold Toy.step. case_decide; cbn; [by right|by left].
  - intros s fp. cbn. by rewrite length_insert.
  - intros b. cbn. lia.
  - intros b count Hc. cbn. rewrite length_take. lia.
Qed.

(** ** The statements at concrete inputs *)

Section Concrete.
#[local] Existing Instance Toy.types.
#[local] Existing Instance Toy.engine.
#[local] Existing Instance Toy.platform.
#[local] Existing Instance Toy.plenty.
#[local] Existing Instance toy_platform_ok.
#[local] Existing Instance toy_engine_ok.

Lemma toy_created_eq : BizCreate ∅ None = Ok (toy_created.1, Some toy_created.2).
Proof. by vm_compute. Qed.

Lemma toy_first_frame (x : advance_args) :
  first_frame 3 (latch_args toy_loaded.2 x).
Proof.
  split; [|by vm_compute].
  intros k Hk. destruct k as [|[|[|k]]]; [by vm_compute..|lia].
Qed.


Lemma toy_flooded_first_frame (x : advance_args) :
  first_frame 3 (latch_args toy_flooded x).
Proof.
  split; [|by vm_compute].
  intros k Hk. destruct k as [|[|[|k]]]; [by vm_compute..|lia].
Qed.

Lemma toy_reads_remove : @reads_remove Toy.types Toy.engine.
Proof.
  intros b count Hc. cbn [blip_samples_avail blip_take Toy.engine fst snd].
  rewrite length_drop, length_take. lia.
Qed.

Lemma BizAdvance_sample_cap_witness :
  ∃ a,
    (∀ fuel, 3 ≤ fuel → advance fuel toy_flooded toy_args = Ok a) ∧
    blip_samples_avail (audio_left (gba (run_steps 3 (latch_args toy_flooded toy_args))))
      = 1031%Z ∧
    adv_nsamp a = 1024%Z ∧
    adv_ctx a = drained (run_steps 3 (latch_args toy_flooded toy_args)) ∧
    blip_samples_avail (audio_left (gba (adv_ctx a))) = 7%Z.
Proof.
  destruct (BizAdvance_sample_cap toy_flooded (arg_keys toy_args) (arg_vbuff toy_args)
              (arg_sbuff toy_args) (arg_time toy_args) (arg_gyrox toy_args)
              (arg_gyroy toy_args) (arg_gyroz toy_args) (arg_luma toy_args) 3)
    as (a & Hrun & _ & _ & Hcap & _ & _ & _ & _ & Hctx & _ & _ & Hkeep).
  - apply (toy_flooded_first_frame toy_args).
  - by vm_compute.
  - by vm_compute.
  - cbn [arg_sbuff toy_args]. rewrite length_replicate. lia.
  - exists a. split; [exact Hrun|]. split; [by vm_compute|].
    split; [apply Hcap; by vm_compute|]. split; [exact Hctx|].
    destruct (Hkeep toy_reads_remove) as (_ & _ & Hover).
    destruct Hover as [-> _]; by vm_compute.
Defined.

(** C6, counterexample.  The samples beyond 1024 are not discarded: with
    1031 sample pairs available when the frame completes, the call stores
    1024 and leaves the other seven queued, and the next call delivers them
    (1025, ..., 1030 and the one the first frame added) ahead of its own. *)
Lemma excess_samples_kept_counterexample :
  advance 3 toy_flooded toy_args = Ok toy_flooded_once ∧
  blip_samples_avail (audio_left (gba (run_steps 3 (latch_args toy_flooded toy_args))))
    = 1031%Z ∧
  adv_nsamp toy_flooded_once = 1024%Z ∧
  take 4 (adv_sbuff toy_flooded_once) = [1; -1; 2; -2]%Z ∧
  audio_left (gba (adv_ctx toy_flooded_once)) = [1025; 1026; 1027; 1028; 1029; 1030; 3]%Z ∧
  blip_samples_avail (audio_left (gba (adv_ctx toy_flooded_once))) = 7%Z ∧
  advance 3 toy_flooded_rest toy_args = Ok toy_flooded_twice ∧
  adv_nsamp toy_flooded_twice = 8%Z ∧
  take 16 (adv_sbuff toy_flooded_twice)
    = [1025; -1025; 1026; -1026; 1027; -1027; 1028; -1028; 1029; -1029; 1030; -1030;
       3; -3; 6; -6]%Z.
Proof.
  split; [by vm_compute|]. split; [by vm_compute|]. split; [by vm_compute|].
  split; [by vm_compute|]. split; [by vm_compute|]. split; [by vm_compute|].
  split; [by vm_compute|]. split; by vm_compute.
Qed.

Lemma toy_wired : wired toy_loaded.2.
Proof. by vm_compute. Qed.

Lemma toy_args_in_range : args_in_range toy_args.
Proof. repeat split; by vm_compute. Qed.

Lemma BizGetSaveRamSize_by_type_witness :
  @BizGetSaveRamSize mgba_platform Toy.types mgba_eeprom_ctx = 0x2000%Z ∧
  @BizGetSaveRamSize mgba_platform Toy.types mgba_eeprom_ctx ≠ 0%Z.
Proof.
  destruct (@BizGetSaveRamSize_by_type mgba_platform Toy.types mgba_platform_ok
              mgba_eeprom_ctx) as (_ & _ & He & _ & _ & _ & Hz & _).
  split.
  - apply He. reflexivity.
  - intros Hzero. apply Hz in Hzero. discriminate Hzero.
Defined.

Lemma SaveRam_roundtrip_witness :
  ∃ c' out,
    BizPutSaveRam toy_loaded.2 [1; 2; 3; 4; 5; 6; 7; 8; 9]%Z = Ok c' ∧
    BizGetSaveRam c' (replicate 10 0%Z) = Ok out ∧
    take 8 out = [1; 2; 3; 4; 5; 6; 7; 8]%Z.
Proof.
  destruct (SaveRam_roundtrip toy_loaded.2 [1; 2; 3; 4; 5; 6; 7; 8; 9]%Z
              (replicate 10 0%Z)) as (c' & out & Hput & _ & Hget & Htake & _).
  - by vm_compute.
  - by vm_compute.
  - by vm_compute.
  - exists c', out. split; [done|]. split; [done|]. exact Htake.
Defined.

Lemma BizCreate_invalid_bios_rolls_back_witness :
  BizCreate ∅ (Some (replicate (Z.to_nat 16384) 0%Z)) = Ok (∅, None).
Proof.
  apply BizCreate_invalid_bios_rolls_back.
  - reflexivity.
  - rewrite length_replicate. lia.
  - by vm_compute.
Defined.

Lemma BizCreate_alloc_failure_undefined_witness :
  @BizCreate Toy.platform Toy.types Toy.engine Toy.exhausted ∅ None = Undefined.
Proof. apply BizCreate_alloc_failure_undefined. reflexivity. Defined.

Lemma BizLoad_invalid_rom_recoverable_witness :
  BizLoad toy_created.1 toy_created.2 toy_garbage 8
    = Ok (toy_created.1, set_rom None (set_romvf None toy_created.2), 0%Z) ∧
  (∃ h2 c2,
     BizLoad toy_created.1 (set_rom None (set_romvf None toy_created.2)) toy_rom 192
       = Ok (h2, c2, 1%Z) ∧ (h2, c2) = toy_loaded) ∧
  BizLoad toy_created.1 (set_rom None (set_romvf None toy_created.2)) toy_rom 8
    = Undefined.
Proof.
  destruct (BizLoad_invalid_rom_recoverable toy_created.1 toy_created.2 toy_garbage 8)
    as (Hfail & _ & Hretry).
  - reflexivity.
  - cbn [length toy_garbage]. lia.
  - reflexivity.
  - split; [exact Hfail|]. split.
    + destruct (Hretry toy_rom 192%Z) as (Hsame & Hgood & _).
      * reflexivity.
      * vm_compute. split; discriminate.
      * reflexivity.
      * destruct Hgood as (h2 & c2 & p & v & s & Hl & _).
        { apply Nat.leb_le. vm_compute. reflexivity. }
        exists h2, c2. split; [exact Hl|].
        unfold toy_loaded. rewrite <- Hsame, Hl. reflexivity.
    + destruct (Hretry toy_rom 8%Z) as (_ & _ & Hshort).
      * reflexivity.
      * vm_compute. split; discriminate.
      * reflexivity.
      * apply Hshort. intros Hid. apply Nat.leb_le in Hid. vm_compute in Hid.
        discriminate.
Defined.

Lemma BizDestroy_needs_Load_witness :
  BizDestroy toy_created.1 toy_created.2 = Undefined.
Proof.
  apply (BizDestroy_needs_Load toy_created.1 toy_created.2).
  apply (unloaded_Create ∅ None). exact toy_created_eq.
Defined.

Lemma blit_swaps_expands_witness :
  ∃ out,
    @blit mgba_platform (replicate (Z.to_nat 153600) 0%Z) (replicate (Z.to_nat 153600) 0xF8%Z)
      = Ok out ∧
    pixel_converted (replicate (Z.to_nat 153600) 0xF8%Z) out 0.
Proof.
  destruct (@blit_swaps_expands mgba_platform mgba_platform_ok
              (replicate (Z.to_nat 153600) 0%Z) (replicate (Z.to_nat 153600) 0xF8%Z))
    as (out & Hout & _ & Hpix & _).
  - by rewrite length_replicate.
  - by rewrite length_replicate.
  - exists out. split; [exact Hout|]. apply Hpix.
    change (@FRAME_BYTES mgba_platform) with 153600%Z. lia.
Defined.

(** C5, counterexample.  The expansion does not send the value 31 to 255: on
    the frame whose every byte is 31, the 5-bit maximum, the colour bytes
    [blit] writes are 31. *)
Lemma blit_max_channel_counterexample :
  ∃ out,
    @blit mgba_platform (replicate (Z.to_nat 153600) 0%Z) (replicate (Z.to_nat 153600) 31%Z)
      = Ok out ∧
    out !! 0 = Some 31%Z ∧ out !! 1 = Some 31%Z ∧ out !! 2 = Some 31%Z ∧
    out !! 2 ≠ Some 255%Z.
Proof.
  destruct (@blit_converts mgba_platform mgba_platform_ok
              (replicate (Z.to_nat 153600) 0%Z) (replicate (Z.to_nat 153600) 31%Z))
    as (out & Hout & _ & Hpix).
  - by rewrite length_replicate.
  - by rewrite length_replicate.
  - exists out. split; [exact Hout|].
    destruct (Hpix 0) as (b0 & b1 & b2 & H0 & H1 & H2 & O0 & O1 & O2 & _).
    { change (@FRAME_BYTES mgba_platform) with 153600%Z. lia. }
    rewrite lookup_replicate_2 in H0, H1, H2 by lia.
    injection H0 as <-. injection H1 as <-. injection H2 as <-.
    change (4 * 0) with 0 in O0. change (4 * 0 + 1) with 1 in O1.
    change (4 * 0 + 2) with 2 in O2.
    rewrite O0, O1, O2. by repeat split.
Qed.

End Concrete.

Lemma blit_pixel_run (dst src : bytes) (p : nat) :
  4 * p + 3 < length dst → 4 * p + 2 < length src →
  ∃ out, blit_pixel dst src (4 * p) (4 * p) = Ok out ∧
    length out = length dst ∧
    pixel_converted src out p ∧
    ∀ j, j < 4 * p ∨ 4 * p + 3 < j → out !! j = dst !! j.
Proof.
  intros Hd Hs.
  destruct (load_Ok src (4 * p)) as (b0 & Hb0 & L0); [lia|].
  destruct (load_Ok src (4 * p + 1)) as (b1 & Hb1 & L1); [lia|].
  destruct (load_Ok src (4 * p + 2)) as (b2 & Hb2 & L2); [lia|].
  unfold blit_pixel.
  rewrite L0, bind_Ok, store_Ok, bind_Ok by lia.
  rewrite L1, bind_Ok, store_Ok, bind_Ok by (rewrite ?length_insert; lia).
  rewrite L2, bind_Ok, store_Ok, bind_Ok by (rewrite ?length_insert; lia).
  rewrite store_Ok by (rewrite ?length_insert; lia).
  eexists; split; [reflexivity|]. split; [by rewrite !length_insert|]. split.
  - exists b0, b1, b2. repeat split; try done.
    + rewrite list_lookup_insert_ne by lia.
      by rewrite list_lookup_insert_eq by (rewrite ?length_insert; lia).
    + do 2 rewrite list_lookup_insert_ne by lia.
      by rewrite list_lookup_insert_eq by (rewrite ?length_insert; lia).
    + do 3 rewrite list_lookup_insert_ne by lia.
      by rewrite list_lookup_insert_eq by (rewrite ?length_insert; lia).
    + by rewrite list_lookup_insert_eq by (rewrite ?length_insert; lia).
  - intros j Hj. by rewrite !list_lookup_insert_ne by lia.
Qed.

Lemma load_cases (buf : bytes) (i : nat) :
  (i < length buf ∧ ∃ b, load buf i = Ok b) ∨ (length buf ≤ i ∧ load buf i = Undefined).
Proof.
  unfold load. destruct (buf !! i) as [b|] eqn:E.
  - left. split; [by eapply lookup_lt_Some|by exists b].
  - right. split; [by apply lookup_ge_None|done].
Qed.

Lemma store_cases (buf : bytes) (i : nat) (v : Z) :
  (i < length buf ∧ store buf i v = Ok (<[i := v]> buf)) ∨
  (length buf ≤ i ∧ store buf i v = Undefined).
Proof. unfold store. case_decide; [left|right]; (split; [lia|done]). Qed.

(** A pixel whose four bytes do not fit [dst], or whose three colour bytes
    do not fit [src], is an out-of-bounds access. *)
Lemma blit_pixel_fail (dst src : bytes) (d s : nat) :
  length dst ≤ d + 3 ∨ length src ≤ s + 2 →
  blit_pixel dst src d s = Undefined.
Proof.
  intros Hshort. unfold blit_pixel.
  destruct (load_cases src s) as [(? & b0 & ->)|(? & ->)]; [|done]. rewrite bind_Ok.
  destruct (store_cases dst (d + 2) (CInt.uint8 (Z.lor b0 (Z.shiftr b0 5))))
    as [(? & ->)|(? & ->)]; [|done]. rewrite bind_Ok.
  destruct (load_cases src (s + 1)) as [(? & b1 & ->)|(? & ->)]; [|done]. rewrite bind_Ok.
  destruct (store_cases (<[d + 2 := CInt.uint8 (Z.lor b0 (Z.shiftr b0 5))]> dst) (d + 1)
              (CInt.uint8 (Z.lor b1 (Z.shiftr b1 5)))) as [(? & ->)|(? & ->)]; [|done].
  rewrite bind_Ok.
  destruct (load_cases src (s + 2)) as [(? & b2 & ->)|(? & ->)]; [|done]. rewrite bind_Ok.
  match goal with |- context [store ?l d ?v] =>
    destruct (store_cases l d v) as [(? & ->)|(? & ->)]; [|done] end.
  rewrite bind_Ok.
  match goal with |- store ?l (d + 3) ?v = _ =>
    destruct (store_cases l (d + 3) v) as [(Hlt & _)|(? & ->)]; [|done] end.
  rewrite !length_insert in Hlt. lia.
Qed.

Lemma pixel_converted_same (src out out' : bytes) (q : nat) :
  (∀ j, 4 * q ≤ j ≤ 4 * q + 3 → out' !! j = out !! j) →
  pixel_converted src out q → pixel_converted src out' q.
Proof.
  intros Hsame (b0 & b1 & b2 & ? & ? & ? & ? & ? & ? & ?).
  exists b0, b1, b2. rewrite !Hsame by lia. done.
Qed.

(** The loop from pixel [p], with [k] turns to go, on buffers that hold the
    [k] groups: it converts them and touches nothing else. *)
Lemma blit_loop_run (src : bytes) (k : nat) :
  ∀ (fuel p : nat) (dst : bytes),
    k ≤ fuel →
    4 * p + 16 * k ≤ length dst → 4 * p + 16 * k ≤ length src + 1 →
    ∃ out, blit_loop fuel dst src (4 * p) (4 * p) (4 * p + 16 * k) = Ok out ∧
      length out = length dst ∧
      (∀ q, p ≤ q < p + 4 * k → pixel_converted src out q) ∧
      (∀ j, j < 4 * p ∨ 4 * p + 16 * k ≤ j → out !! j = dst !! j).
Proof.
  induction k as [|k IH]; intros fuel p dst Hfuel Hd Hs.
  - exists dst. destruct fuel; cbn [blit_loop]; (rewrite decide_False by lia);
      (split; [done|]); (split; [done|]); (split; [intros q Hq; lia|done]).
  - destruct fuel as [|fuel]; [lia|]. cbn [blit_loop]. rewrite decide_True by lia.
    destruct (blit_pixel_run dst src p) as (d1 & E1 & Len1 & P1 & F1); [lia..|].
    rewrite E1, bind_Ok.
    replace (4 * p + 4) with (4 * (p + 1)) by lia.
    destruct (blit_pixel_run d1 src (p + 1)) as (d2 & E2 & Len2 & P2 & F2); [lia..|].
    rewrite E2, bind_Ok.
    replace (4 * (p + 1) + 4) with (4 * (p + 2)) by lia.
    destruct (blit_pixel_run d2 src (p + 2)) as (d3 & E3 & Len3 & P3 & F3); [lia..|].
    rewrite E3, bind_Ok.
    replace (4 * (p + 2) + 4) with (4 * (p + 3)) by lia.
    destruct (blit_pixel_run d3 src (p + 3)) as (d4 & E4 & Len4 & P4 & F4); [lia..|].
    rewrite E4, bind_Ok.
    replace (4 * (p + 3) + 4) with (4 * (p + 4)) by lia.
    replace (4 * p + 16 * S k) with (4 * (p + 4) + 16 * k) by lia.
    destruct (IH fuel (p + 4) d4) as (out & E & Len & P & F); [lia..|].
    exists out. split; [done|]. split; [lia|]. split.
    + intros q Hq. destruct (decide (p + 4 ≤ q)) as [Hge|Hlt]; [apply P; lia|].
      apply (pixel_converted_same src d4); [intros j Hj; apply F; lia|].
      destruct (decide (q = p + 3)) as [->|N3]; [done|].
      apply (pixel_converted_same src d3); [intros j Hj; apply F4; lia|].
      destruct (decide (q = p + 2)) as [->|N2]; [done|].
      apply (pixel_converted_same src d2); [intros j Hj; apply F3; lia|].
      destruct (decide (q = p + 1)) as [->|N1]; [done|].
      apply (pixel_converted_same src d1); [intros j Hj; apply F2; lia|].
      assert (q = p) as -> by lia. done.
    + intros j Hj. rewrite F by lia. rewrite F4, F3, F2, F1 by lia. done.
Qed.

(** The loop on buffers too short for the [k] groups left: some access of
    some pixel is out of bounds before the loop ends. *)
Lemma blit_loop_fail (src : bytes) (k : nat) :
  ∀ (fuel p : nat) (dst : bytes),
    k ≤ fuel →
    4 * p ≤ length dst → 4 * p ≤ length src + 1 →
    length dst < 4 * p + 16 * k ∨ length src + 1 < 4 * p + 16 * k →
    blit_loop fuel dst src (4 * p) (4 * p) (4 * p + 16 * k) = Undefined.
Proof.
  induction k as [|k IH]; intros fuel p dst Hfuel Hd Hs Hshort; [lia|].
  destruct fuel as [|fuel]; [lia|]. cbn [blit_loop]. rewrite decide_True by lia.
  destruct (decide (4 * p + 3 < length dst ∧ 4 * p + 2 < length src)) as [[? ?]|N0];
    [|rewrite blit_pixel_fail by lia; done].
  destruct (blit_pixel_run dst src p) as (d1 & -> & Len1 & _); [lia..|]. rewrite bind_Ok.
  replace (4 * p + 4) with (4 * (p + 1)) by lia.
  destruct (decide (4 * (p + 1) + 3 < length dst ∧ 4 * (p + 1) + 2 < length src))
    as [[? ?]|N1]; [|rewrite blit_pixel_fail by lia; done].
  destruct (blit_pixel_run d1 src (p + 1)) as (d2 & -> & Len2 & _); [lia..|]. rewrite bind_Ok.
  replace (4 * (p + 1) + 4) with (4 * (p + 2)) by lia.
  destruct (decide (4 * (p + 2) + 3 < length dst ∧ 4 * (p + 2) + 2 < length src))
    as [[? ?]|N2]; [|rewrite blit_pixel_fail by lia; done].
  destruct (blit_pixel_run d2 src (p + 2)) as (d3 & -> & Len3 & _); [lia..|]. rewrite bind_Ok.
  replace (4 * (p + 2) + 4) with (4 * (p + 3)) by lia.
  destruct (decide (4 * (p + 3) + 3 < length dst ∧ 4 * (p + 3) + 2 < length src))
    as [[? ?]|N3]; [|rewrite blit_pixel_fail by lia; done].
  destruct (blit_pixel_run d3 src (p + 3)) as (d4 & -> & Len4 & _); [lia..|]. rewrite bind_Ok.
  replace (4 * (p + 3) + 4) with (4 * (p + 4)) by lia.
  replace (4 * p + 16 * S k) with (4 * (p + 4) + 16 * k) by lia.
  apply IH; lia.
Qed.

Section BlitMore.
Context `{Platform} `{!PlatformOk}.

Lemma blit_image_lookup (src : bytes) (j : nat) :
  j < Z.to_nat FRAME_BYTES → blit_image src !! j = Some (blit_byte src j).
Proof.
  intros Hj. unfold blit_image. rewrite list_lookup_fmap, lookup_seq_lt by done. done.
Qed.

Lemma pixel_converted_bytes (src out : bytes) (q r : nat) :
  pixel_converted src out q → r < 4 → out !! (4 * q + r) = Some (blit_byte src (4 * q + r)).
Proof.
  intros (b0 & b1 & b2 & S0 & S1 & S2 & O0 & O1 & O2 & O3) Hr.
  unfold blit_byte.
  replace ((4 * q + r) mod 4)%nat with r
    by (apply Nat.mod_unique with q; lia).
  destruct r as [|[|[|[|r]]]]; [| | | |lia].
  - rewrite Nat.add_0_r. replace (4 * q + 0 + 2) with (4 * q + 2) by lia.
    by rewrite (list_lookup_total_correct _ _ _ S2).
  - by rewrite (list_lookup_total_correct _ _ _ S1).
  - replace (4 * q + 2 - 2) with (4 * q) by lia.
    by rewrite (list_lookup_total_correct _ _ _ S0).
  - done.
Qed.

(** On buffers that do not hold the frame, some access of the loop is out
    of bounds. *)
Lemma blit_short (dst src : bytes) :
  ¬ (FRAME_BYTES ≤ Z.of_nat (length dst) ∧ FRAME_BYTES ≤ Z.of_nat (length src) + 1)%Z →
  blit dst src = Undefined.
Proof.
  intros Hshort. destruct frame_bytes_groups as [z Hz]. pose proof frame_bytes_nonneg.
  assert (Z.to_nat FRAME_BYTES = 4 * 0 + 16 * Z.to_nat z) as Hk by lia.
  unfold blit. cbv zeta.
  pose proof (blit_loop_fail src (Z.to_nat z) (Z.to_nat FRAME_BYTES) 0 dst) as Hfail.
  change (4 * 0) with 0 in Hfail, Hk. rewrite <- Hk in Hfail.
  apply Hfail; lia.
Qed.

(** On buffers that hold the frame, [blit] returns the caller's buffer
    with its first [FRAME_BYTES] bytes replaced by the image of [src]. *)
Lemma blit_closed_form (dst src : bytes) :
  (FRAME_BYTES ≤ Z.of_nat (length dst))%Z →
  (FRAME_BYTES ≤ Z.of_nat (length src) + 1)%Z →
  blit dst src = Ok (blit_image src ++ drop (Z.to_nat FRAME_BYTES) dst).
Proof.
  intros Hd Hs. destruct frame_bytes_groups as [z Hz]. pose proof frame_bytes_nonneg.
  assert (Z.to_nat FRAME_BYTES = 4 * 0 + 16 * Z.to_nat z) as Hk by lia.
  unfold blit. cbv zeta.
  destruct (blit_loop_run src (Z.to_nat z) (Z.to_nat FRAME_BYTES) 0 dst)
    as (out & E & Len & P & F); [lia..|].
  change (4 * 0) with 0 in E, Hk, F. rewrite <- Hk in E, F. rewrite E. f_equal.
  assert (length (blit_image src) = Z.to_nat FRAME_BYTES) as Limg
    by (unfold blit_image; by rewrite length_fmap, length_seq).
  apply list_eq. intros j.
  destruct (decide (j < Z.to_nat FRAME_BYTES)) as [Hj|Hj].
  - rewrite lookup_app_l by lia. rewrite blit_image_lookup by done.
    pose proof (Nat.div_mod_eq j 4) as Ej. pose proof (Nat.mod_upper_bound j 4) as Hr.
    revert Ej Hr. generalize (j / 4)%nat (j mod 4)%nat. intros q r -> Hr.
    apply pixel_converted_bytes; [|lia]. apply P. lia.
  - rewrite lookup_app_r by lia. rewrite lookup_drop, Limg, F by lia. f_equal. lia.
Qed.

(** X1.  [blit] in closed form.  It is defined exactly on buffers that hold
    the frame: [dst] needs all [FRAME_BYTES] bytes, [src] all but the last
    one, since the fourth byte of a source pixel is never read; on shorter
    buffers an access is out of bounds.  Where defined, it returns the
    caller's buffer with its first [FRAME_BYTES] bytes replaced by the image
    of [src] and the rest as it was: the frame written depends neither on
    what [dst] held nor on the fourth byte of any source pixel, and the loop
    never runs out of turns. *)
Theorem blit_total (dst src : bytes) :
  blit dst src =
    if decide (FRAME_BYTES ≤ Z.of_nat (length dst)
               ∧ FRAME_BYTES ≤ Z.of_nat (length src) + 1)%Z
    then Ok (blit_image src ++ drop (Z.to_nat FRAME_BYTES) dst)
    else Undefined.
Proof.
  case_decide as Hfit.
  - destruct Hfit. by apply blit_closed_form.
  - by apply blit_short.
Qed.

End BlitMore.

Lemma write_strided_fail (samples : list Z) :
  ∀ (out : list Z) (off : nat),
    off ≤ length out + 1 →
    length out + 1 < off + 2 * length samples →
    write_strided out off 2 samples = Undefined.
Proof.
  induction samples as [|x samples IH]; intros out off Hoff Hshort;
    cbn [write_strided length] in *; [lia|].
  unfold store. case_decide as Hin; [|done]. rewrite bind_Ok.
  apply IH; rewrite length_insert; lia.
Qed.

Section AdvanceMore.
Context `{Platform} `{Engine} `{!PlatformOk} `{!EngineOk}.

(** A loop whose condition never fails uses up any fuel. *)
Lemma frame_loop_never (fuel : nat) :
  ∀ (frameCount : Z) (c : bizctx),
    (∀ k, video_frameCounter (gba (run_steps k c)) = frameCount) →
    frame_loop fuel frameCount c = OutOfFuel.
Proof.
  induction fuel as [|fuel IH]; intros fc c Hk; cbn [frame_loop];
    rewrite decide_True by (symmetry; apply (Hk 0)); [done|].
  apply IH. intros k. apply (Hk (S k)).
Qed.

(** A loop that returns has stopped at the first step that changed the
    counter. *)
Lemma frame_loop_exit (fuel : nat) :
  ∀ (c c' : bizctx),
    frame_loop fuel (video_frameCounter (gba c)) c = Ok c' →
    ∃ n, n ≤ fuel ∧ first_frame n c ∧ c' = run_steps n c.
Proof.
  intros c c' Hl.
  assert (∀ fuel fc c c', frame_loop fuel fc c = Ok c' →
            ∃ n, n ≤ fuel ∧ c' = run_steps n c ∧
              (∀ k, k < n → video_frameCounter (gba (run_steps k c)) = fc) ∧
              video_frameCounter (gba (run_steps n c)) ≠ fc) as Hgen.
  { clear. induction fuel as [|fuel IH]; intros fc c c'; cbn [frame_loop];
      case_decide as Hc; try done.
    - intros [= <-]. exists 0. split; [lia|]. split; [done|]. split; [intros; lia|].
      cbn [run_steps]. congruence.
    - intros Hl. destruct (IH _ _ _ Hl) as (n & Hn & -> & Hb & Ha).
      exists (S n). split; [lia|]. split; [done|]. split; [|done].
      intros [|k] Hk; [done|]. cbn [run_steps]. apply Hb. lia.
    - intros [= <-]. exists 0. split; [lia|]. split; [done|]. split; [intros; lia|].
      cbn [run_steps]. congruence. }
  destruct (Hgen _ _ _ _ Hl) as (n & Hn & -> & Hb & Ha). by exists n.
Qed.

(** Lines 242-246 on a caller's buffer of any length. *)
Lemma drain_cases (c : bizctx) (sbuff : list Z) :
  let ls := (blip_take (audio_left (gba c)) 1024).1 in
  let rs := (blip_take (audio_right (gba c)) 1024).1 in
  let run :=
    '(bl, sbuff) ← blip_read_samples (audio_left (gba c)) sbuff 0 1024 true;
    let c := set_gba (set_audio_left bl (gba c)) c in
    '(br, sbuff) ← blip_read_samples (audio_right (gba c)) sbuff 1 1024 true;
    let c := set_gba (set_audio_right br (gba c)) c in
    Ok (c, sbuff) in
  (2 * length ls ≤ length sbuff + 1 ∧ 2 * length rs ≤ length sbuff →
     ∃ out, run = Ok (drained c, out) ∧ interleaved ls rs sbuff out) ∧
  (¬ (2 * length ls ≤ length sbuff + 1 ∧ 2 * length rs ≤ length sbuff) →
     run = Undefined).
Proof.
  cbv zeta. unfold blip_read_samples, drained.
  destruct (blip_take (audio_left (gba c)) 1024) as [ls bl]. cbn [fst snd].
  destruct (decide (2 * length ls ≤ length sbuff + 1)) as [Hl|Hl].
  - destruct (write_strided_ok ls sbuff 0) as (o1 & E1 & Len1 & W1 & R1); [lia|].
    rewrite E1, !bind_Ok. cbn [gba set_gba audio_right set_audio_left].
    destruct (blip_take (audio_right (gba c)) 1024) as [rs br]. cbn [fst snd].
    split.
    + intros [_ Hr].
      destruct (write_strided_ok rs o1 1) as (o2 & E2 & Len2 & W2 & R2); [lia|].
      rewrite E2, !bind_Ok. exists o2. split; [done|].
      unfold interleaved.
      split; [lia|]. split; [|split; [|split]].
      * intros i x Hi. rewrite R2 by (intros; lia). by apply (W1 i x).
      * intros i x Hi. replace (2 * i + 1) with (1 + 2 * i) by lia. by apply W2.
      * intros i Hi. rewrite R2 by (intros; lia). apply R1. intros; lia.
      * intros i Hi. rewrite R2 by (intros; lia). apply R1. intros; lia.
    + intros Hn. rewrite write_strided_fail by lia. done.
  - split; [lia|]. intros _. rewrite write_strided_fail by lia. done.
Qed.

(** X2.  When a call of [BizAdvance] is defined.  Once the frame loop has
    stopped (the engine completes its frame at step [n], and the loop was
    given that many turns), the call returns exactly when the caller's
    buffers hold what is written to them: the frame buffer all
    [FRAME_BYTES] bytes, the audio buffer the last slot used by the samples
    actually read, [2 * length ls - 2] for the left channel and
    [2 * length rs - 1] for the right.  It then hands back the drained
    context, the frame in closed form with the rest of the caller's frame
    buffer untouched, and the interleaved samples.  On shorter buffers the
    call writes out of bounds; nothing in the code tests a length. *)
Theorem BizAdvance_defined_iff (fuel : nat) (c : bizctx) (keys : Z) (dst_vbuff : bytes)
    (sbuff : list Z) (time gyrox gyroy gyroz luma : Z) (n : nat) :
  let c0 := latch c keys time gyrox gyroy gyroz luma in
  let c1 := run_steps n c0 in
  let ls := (blip_take (audio_left (gba c1)) 1024).1 in
  let rs := (blip_take (audio_right (gba c1)) 1024).1 in
  let fits := (FRAME_BYTES ≤ Z.of_nat (length dst_vbuff))%Z ∧
              2 * length ls ≤ length sbuff + 1 ∧ 2 * length rs ≤ length sbuff in
  first_frame n c0 →
  length (vbuff c) = Z.to_nat FRAME_BYTES →
  n ≤ fuel →
  (fits →
     ∃ a, BizAdvance fuel c keys dst_vbuff sbuff time gyrox gyroy gyroz luma = Ok a ∧
       adv_ctx a = drained c1 ∧
       adv_vbuff a = blit_image (vbuff c1) ++ drop (Z.to_nat FRAME_BYTES) dst_vbuff ∧
       interleaved ls rs sbuff (adv_sbuff a)) ∧
  (¬ fits →
     BizAdvance fuel c keys dst_vbuff sbuff time gyrox gyroy gyroz luma = Undefined).
Proof.
  intros c0 c1 ls rs fits [Hbefore Hat] Hv Hfuel.
  pose proof frame_bytes_nonneg as Hnn.
  assert (length (vbuff c1) = Z.to_nat FRAME_BYTES) as Hv1.
  { unfold c1. by rewrite run_steps_vbuff. }
  destruct (drain_cases c1 sbuff) as [Hdrain Hdrain'].
  fold ls rs in Hdrain, Hdrain'.
  unfold BizAdvance. fold c0.
  rewrite (frame_loop_spec n fuel _ c0 Hbefore Hat), decide_True by done.
  rewrite bind_Ok. fold c1.
  destruct (decide (FRAME_BYTES ≤ Z.of_nat (length dst_vbuff))%Z) as [Hd|Hd].
  - rewrite blit_closed_form by lia. rewrite bind_Ok.
    split.
    + intros (_ & Hl & Hr). destruct (Hdrain (conj Hl Hr)) as (s' & Es & Hint).
      eexists {| adv_ctx := drained c1; adv_sbuff := s' |}.
      cbn [adv_ctx adv_vbuff adv_nsamp adv_sbuff].
      split; [|split; [done|split; [reflexivity|exact Hint]]].
      destruct (blip_read_samples (audio_left (gba c1)) sbuff 0 1024 true)
        as [[bl o1]| |]; cbn [mbind result_bind] in Es |- *; try discriminate Es.
      destruct (blip_read_samples _ o1 1 1024 true)
        as [[br o2]| |]; cbn [mbind result_bind] in Es |- *; try discriminate Es.
      pose proof (f_equal (λ r, match r with Ok (_, s) => s | _ => [] end) Es) as Eo.
      pose proof (f_equal (λ r, match r with Ok (c, _) => c | _ => c1 end) Es) as Ec.
      cbn beta iota in Eo, Ec. rewrite Ec, Eo. reflexivity.
    + intros Hn. assert (¬ (2 * length ls ≤ length sbuff + 1 ∧ 2 * length rs ≤ length sbuff))
        as Hn' by (unfold fits in Hn; tauto).
      specialize (Hdrain' Hn').
      destruct (blip_read_samples (audio_left (gba c1)) sbuff 0 1024 true)
        as [[bl o1]| |]; cbn [mbind result_bind] in Hdrain' |- *; try done.
      destruct (blip_read_samples _ o1 1 1024 true)
        as [[br o2]| |]; cbn [mbind result_bind] in Hdrain' |- *; done.
  - split; [unfold fits; tauto|]. intros _.
    rewrite blit_short by lia. done.
Qed.

(** X3.  The frame loop has no exit but the frame counter: on a context
    whose engine never completes a frame (no ROM running, or a halted CPU)
    [BizAdvance] does not return, whatever bound the loop is given, and
    writes neither the frame nor the sample count. *)
Theorem BizAdvance_never_returns (c : bizctx) (keys : Z) (dst_vbuff : bytes)
    (sbuff : list Z) (time gyrox gyroy gyroz luma : Z) :
  let c0 := latch c keys time gyrox gyroy gyroz luma in
  (∀ k, video_frameCounter (gba (run_steps k c0)) = video_frameCounter (gba c)) →
  ∀ fuel, BizAdvance fuel c keys dst_vbuff sbuff time gyrox gyroy gyroz luma = OutOfFuel.
Proof.
  intros c0 Hk fuel. unfold BizAdvance. fold c0.
  rewrite (frame_loop_never fuel _ c0); [done|].
  intros k. rewrite Hk. reflexivity.
Qed.

(** A call that returns has completed one frame. *)
Lemma advance_frameCounter (fuel : nat) (c : bizctx) (x : advance_args) (a : advanced) :
  advance fuel c x = Ok a →
  video_frameCounter (gba (adv_ctx a)) = frame_succ (video_frameCounter (gba c)).
Proof.
  unfold advance, BizAdvance. intros Ha.
  apply bind_Ok_inv in Ha as (c1 & Hloop & Ha).
  apply frame_loop_exit in Hloop as (n & _ & Hn & ->).
  apply first_frame_succ in Hn as [_ Hn].
  apply bind_Ok_inv in Ha as (v & _ & Ha).
  apply bind_Ok_inv in Ha as ([bl s1] & _ & Ha).
  apply bind_Ok_inv in Ha as ([br s2] & _ & Ha).
  injection Ha as <-. cbn [adv_ctx]. etrans; [|exact Hn]. reflexivity.
Qed.

(** The loop's body hands the engine what the accessors of the context
    return, at every turn. *)
Lemma run_steps_seen (n : nat) (c : bizctx) :
  run_steps n c = run_seen (sensors c) n c.
Proof.
  revert c. induction n as [|n IH]; intros c; [done|].
  cbn [run_steps run_seen]. rewrite IH. by rewrite run_cpu_sensors.
Qed.

(** A call that returns has stopped at the first step that completed a
    frame, and hands back the context of that step with the two channels
    read once. *)
Lemma advance_exit (fuel : nat) (c : bizctx) (x : advance_args) (a : advanced) :
  advance fuel c x = Ok a →
  ∃ n, n ≤ fuel ∧ first_frame n (latch_args c x) ∧
       adv_ctx a = drained (run_steps n (latch_args c x)).
Proof.
  unfold advance, BizAdvance. intros Ha.
  apply bind_Ok_inv in Ha as (c1 & Hloop & Ha).
  apply frame_loop_exit in Hloop as (n & Hle & Hn & ->).
  exists n. split; [done|]. split; [done|].
  fold (latch_args c x) in Ha.
  set (c1 := run_steps n (latch_args c x)) in *.
  apply bind_Ok_inv in Ha as (v & _ & Ha).
  unfold blip_read_samples in Ha. unfold drained.
  destruct (blip_take (audio_left (gba c1)) 1024) as [ls bl].
  apply bind_Ok_inv in Ha as ([bl' s1] & Hb1 & Ha).
  apply bind_Ok_inv in Hb1 as (o1 & _ & [= <- <-]).
  cbn [gba set_gba audio_right set_audio_left] in Ha |- *.
  destruct (blip_take (audio_right (gba c1)) 1024) as [rs br].
  apply bind_Ok_inv in Ha as ([br' s2] & Hb2 & Ha).
  apply bind_Ok_inv in Hb2 as (o2 & _ & [= <- <-]).
  injection Ha as <-. reflexivity.
Qed.

(** One call on a context with the accessors installed: every turn of its
    frame loop hands the engine the values the call latched, a call that
    returns has run the turns up to the first completed frame and no
    others, and the call does return once the engine completes a frame. *)
Lemma advance_seen (c : bizctx) (x : advance_args) :
  wired c → args_in_range x →
  let c0 := latch_args c x in
  (∀ k, run_steps k c0 = run_seen (latched_view x) k c0) ∧
  (∀ fuel a, advance fuel c x = Ok a →
     ∃ n, n ≤ fuel ∧ first_frame n c0 ∧
       adv_ctx a = drained (run_seen (latched_view x) n c0) ∧
       sensors (adv_ctx a) = latched_view x) ∧
  (∀ n, first_frame n c0 →
     length (vbuff c) = Z.to_nat FRAME_BYTES →
     length (arg_vbuff x) = Z.to_nat FRAME_BYTES →
     2048 ≤ length (arg_sbuff x) →
     ∃ a, (∀ fuel, n ≤ fuel → advance fuel c x = Ok a) ∧
          adv_ctx a = drained (run_seen (latched_view x) n c0)).
Proof.
  intros Hw Hx c0.
  pose proof (latch_view c x Hw Hx) as Hview. fold c0 in Hview.
  assert (∀ k, run_steps k c0 = run_seen (latched_view x) k c0) as Hseen.
  { intros k. by rewrite run_steps_seen, Hview. }
  split; [done|]. split.
  - intros fuel a Ha. apply advance_exit in Ha as (n & Hle & Hn & Hctx).
    fold c0 in Hn, Hctx. exists n. split; [done|]. split; [done|].
    split; [by rewrite <- Hseen|].
    rewrite Hctx. etrans; [|exact Hview].
    etrans; [|apply (run_steps_sensors n c0)]. reflexivity.
  - intros n Hn Hv Hd Hs.
    destruct (BizAdvance_spec c (arg_keys x) (arg_vbuff x) (arg_sbuff x) (arg_time x)
                (arg_gyrox x) (arg_gyroy x) (arg_gyroz x) (arg_luma x) n Hn Hv Hd Hs)
      as (a & Hrun & Hctx & _).
    exists a. split.
    + intros fuel Hf. unfold advance. by rewrite Hrun, decide_True.
    + rewrite Hctx. fold (latch_args c x). fold c0. by rewrite Hseen.
Qed.

(** C7.  After any sequence of calls of [BizAdvance] on a context whose
    accessors [BizCreate] installed, a further call with arguments [x] runs
    the engine with every accessor returning what [x] carries: the tilt
    values shifted left by 16 bits, luminance and clock as given.  A call
    that returns has run the engine for the [n] steps up to the first
    completed frame, each of them handed exactly those values, and hands
    back the context so obtained (with the two channels read), in which the
    accessors still return them; the call does return once the engine
    completes a frame and the caller's buffers have the sizes the interface
    fixes; and at each of the steps, whatever their number [k], the five
    accessors return the values of [x].  Nothing of the earlier calls'
    arguments is left. *)
Theorem sensors_last_write_wins (fuel : nat) (c c' : bizctx)
    (calls : list advance_args) (x : advance_args) :
  wired c → args_in_range x →
  advance_all fuel c calls = Ok c' →
  let c0 := latch_args c' x in
  (∀ fuel' a, advance fuel' c' x = Ok a →
     ∃ n, n ≤ fuel' ∧ first_frame n c0 ∧
       adv_ctx a = drained (run_seen (latched_view x) n c0) ∧
       sensors (adv_ctx a) = latched_view x) ∧
  (∀ n, first_frame n c0 →
     length (vbuff c') = Z.to_nat FRAME_BYTES →
     length (arg_vbuff x) = Z.to_nat FRAME_BYTES →
     2048 ≤ length (arg_sbuff x) →
     ∃ a, (∀ fuel', n ≤ fuel' → advance fuel' c' x = Ok a) ∧
          adv_ctx a = drained (run_seen (latched_view x) n c0)) ∧
  (∀ k, run_steps k c0 = run_seen (latched_view x) k c0 ∧
        sensors (run_steps k c0) = latched_view x ∧
        GetX (run_steps k c0) = Z.shiftl (arg_gyrox x) 16 ∧
        GetY (run_steps k c0) = Z.shiftl (arg_gyroy x) 16 ∧
        GetZ (run_steps k c0) = Z.shiftl (arg_gyroz x) 16 ∧
        GetLight (run_steps k c0) = arg_luma x ∧
        GetTime (run_steps k c0) = arg_time x).
Proof.
  intros Hw Hx Hall c0.
  pose proof (advance_all_wired fuel calls c c' Hw Hall) as Hw'.
  destruct (advance_seen c' x Hw' Hx) as (Hseen & Hret & Hdef). fold c0 in Hseen, Hret, Hdef.
  pose proof (latch_view c' x Hw' Hx) as Hview. fold c0 in Hview.
  split; [exact Hret|]. split; [exact Hdef|].
  intros k. split; [apply Hseen|]. split; [by rewrite run_steps_sensors|].
  destruct (run_steps_frame k c0) as (_&_&_&_&_&_&Ex&Ey&Ez&Et&El&_).
  destruct Hx as (Rt & Rx & Ry & Rz & Rl).
  unfold GetX, GetY, GetZ, GetLight, GetTime. rewrite Ex, Ey, Ez, Et, El. cbn.
  by rewrite !shiftl16_int32, uint8_id, time_t_holds_int64.
Qed.

Lemma frame_succ_iter (n : nat) (fc : Z) :
  0 < n → Nat.iter n frame_succ fc = CInt.int32 (fc + Z.of_nat n).
Proof.
  assert (∀ z, frame_succ (CInt.int32 z) = CInt.int32 (z + 1)) as Hstep.
  { intros z. unfold frame_succ, CInt.int32, CInt.sint.
    change (2 ^ (32 - 1))%Z with 2147483648%Z. change (2 ^ 32)%Z with 4294967296%Z.
    f_equal.
    replace ((z + 2147483648) mod 4294967296 - 2147483648 + 1 + 2147483648)%Z
      with ((z + 2147483648) mod 4294967296 + 1)%Z by lia.
    rewrite Zplus_mod_idemp_l. f_equal. lia. }
  induction n as [|[|n] IH]; intros Hn; [lia|reflexivity|].
  change (Nat.iter (S (S n)) frame_succ fc) with (frame_succ (Nat.iter (S n) frame_succ fc)).
  rewrite IH, Hstep by lia. f_equal. lia.
Qed.

(** X4.  A sequence of calls of [BizAdvance] that all return advances the
    frame counter by one frame a call: after the calls it is the entry value
    with [frame_succ] applied once per call, that is the entry value plus
    the number of calls, as an [int32_t]. *)
Theorem advance_all_frameCounter (fuel : nat) (calls : list advance_args) :
  ∀ c c', advance_all fuel c calls = Ok c' →
    video_frameCounter (gba c')
      = Nat.iter (length calls) frame_succ (video_frameCounter (gba c)) ∧
    (calls ≠ [] →
       video_frameCounter (gba c')
         = CInt.int32 (video_frameCounter (gba c) + Z.of_nat (length calls))).
Proof.
  assert (∀ c c', advance_all fuel c calls = Ok c' →
            video_frameCounter (gba c')
              = Nat.iter (length calls) frame_succ (video_frameCounter (gba c))) as Hiter.
  { induction calls as [|x calls IH]; intros c c'; cbn [advance_all length].
    - by intros [= <-].
    - intros Hall. apply bind_Ok_inv in Hall as (a & Ha & Hall).
      rewrite (IH _ _ Hall), (advance_frameCounter _ _ _ _ Ha).
      symmetry. apply Nat.iter_succ_r. }
  intros c c' Hall. specialize (Hiter c c' Hall). split; [done|].
  assert (calls ≠ [] → 0 < length calls) as Hpos by (destruct calls; [done|cbn; lia]).
  intros Hne. rewrite Hiter. apply frame_succ_iter. auto.
Qed.

End AdvanceMore.

(** ** The ledger, continued *)

Lemma lookup_release (ps : list nat) (h : heap) (a : nat) :
  release ps h !! a = if decide (a ∈ ps) then None else h !! a.
Proof.
  induction ps as [|p ps IH]; cbn [release foldr].
  - rewrite decide_False by set_solver. done.
  - fold (release ps h). destruct (decide (a = p)) as [->|Hne].
    + rewrite lookup_delete_eq, decide_True by set_solver. done.
    + rewrite lookup_delete_ne, IH by done.
      destruct (decide (a ∈ ps)) as [Ha|Ha].
      * rewrite decide_True; [done|]. by apply elem_of_cons; right.
      * rewrite decide_False; [done|]. by intros [?|?]%elem_of_cons.
Qed.

Lemma grown_fresh (bs : list block) :
  ∀ (h : heap) (a : nat), a ∈ grown h bs → h !! a = None.
Proof.
  induction bs as [|b bs IH]; intros h a; cbn [grown alloc fst snd]; [set_solver|].
  intros [->|Ha]%elem_of_cons; [apply fresh_unused|].
  apply IH in Ha. apply lookup_insert_None in Ha. tauto.
Qed.

Lemma grown_NoDup (bs : list block) : ∀ h : heap, NoDup (grown h bs).
Proof.
  induction bs as [|b bs IH]; intros h; cbn [grown alloc fst snd]; [constructor|].
  apply NoDup_cons. split; [|apply IH].
  intros Ha%grown_fresh. by rewrite lookup_insert_eq in Ha.
Qed.

Lemma lookup_grow_other (bs : list block) :
  ∀ (h : heap) (a : nat), a ∉ grown h bs → grow h bs !! a = h !! a.
Proof.
  induction bs as [|b bs IH]; intros h a; cbn [grow grown alloc fst snd]; [done|].
  intros [Hne Ha]%not_elem_of_cons. rewrite IH by done. by rewrite lookup_insert_ne.
Qed.

Lemma lookup_grow (bs : list block) :
  ∀ (h : heap) (i a : nat) (b : block),
    grown h bs !! i = Some a → bs !! i = Some b → grow h bs !! a = Some b.
Proof.
  induction bs as [|b0 bs IH]; intros h i a b; cbn [grow grown alloc fst snd]; [done|].
  destruct i as [|i]; cbn.
  - intros [= <-] [= <-]. rewrite lookup_grow_other; [apply lookup_insert_eq|].
    intros Ha%grown_fresh. by rewrite lookup_insert_eq in Ha.
  - apply IH.
Qed.

Lemma grow_app (bs1 bs2 : list block) :
  ∀ h : heap, grow h (bs1 ++ bs2) = grow (grow h bs1) bs2.
Proof. induction bs1 as [|b bs1 IH]; intros h; cbn [grow app]; [done|apply IH]. Qed.

Lemma grown_app (bs1 bs2 : list block) :
  ∀ h : heap, grown h (bs1 ++ bs2) = grown h bs1 ++ grown (grow h bs1) bs2.
Proof.
  induction bs1 as [|b bs1 IH]; intros h; cbn [grow grown app]; [done|].
  by rewrite IH.
Qed.

(** Releasing exactly what was allocated gives the ledger back. *)
Lemma release_grow (h : heap) (bs : list block) (ps : list nat) :
  (∀ a, a ∈ ps ↔ a ∈ grown h bs) → release ps (grow h bs) = h.
Proof.
  intros Hps. apply map_eq. intros a. rewrite lookup_release.
  destruct (decide (a ∈ ps)) as [Ha|Ha].
  - symmetry. apply (grown_fresh bs). by apply Hps.
  - apply lookup_grow_other. by rewrite <- Hps.
Qed.

Lemma VFile_close_inv (h h' : heap) (vf : option nat) :
  VFile_close h vf = Ok h' →
  ∃ a m, vf = Some a ∧ h !! a = Some (BlkVFile m) ∧ h' = delete a h.
Proof.
  destruct vf as [a|]; [|done]. cbn.
  destruct (h !! a) as [[]|] eqn:Ha; try done. intros [= <-]. eauto.
Qed.

Lemma free_inv (h h' : heap) (p : option nat) :
  free h p = Ok h' →
  (p = None ∧ h' = h) ∨ (∃ a, p = Some a ∧ is_Some (h !! a) ∧ h' = delete a h).
Proof.
  destruct p as [a|]; cbn; [|intros [= <-]; by left].
  destruct (h !! a) eqn:Ha; [|done]. intros [= <-]. right. eauto.
Qed.

Section Destroy.
Context `{Platform} `{Engine} `{Allocator}.

Lemma GBADestroy_inv (h h' : heap) (c : bizctx) :
  GBADestroy h c = Ok h' →
  ∃ e, engine_mem c = Some e ∧ h !! e = Some BlkEngine ∧ h' = delete e h.
Proof.
  unfold GBADestroy. destruct (engine_mem c) as [e|]; [|done].
  destruct (h !! e) as [[]|] eqn:He; try done. intros [= <-]. eauto.
Qed.

Lemma BizDestroy_defined (h : heap) (c : bizctx) : BizDestroy h c ≠ OutOfFuel.
Proof.
  unfold BizDestroy.
  destruct (VFile_close_cases h (romvf c)) as [->|(v & _ & ->)]; [done|].
  rewrite bind_Ok. cbn [rom set_romvf biosvf set_rom sramvf].
  destruct (free_cases (delete v h) (rom c)) as [->|(h1 & ->)]; [done|].
  rewrite bind_Ok.
  assert (∃ h2, (if biosvf c is Some _ then VFile_close h1 (biosvf c) else Ok h1) = Undefined
                ∨ (if biosvf c is Some _ then VFile_close h1 (biosvf c) else Ok h1) = Ok h2)
    as (h2 & [->| ->]); [|done|].
  { destruct (biosvf c) as [b|]; [|by exists h1; right].
    destruct (VFile_close_cases h1 (Some b)) as [->|(? & _ & ->)]; eexists; eauto.
    Unshelve. exact h1. }
  rewrite bind_Ok.
  destruct (VFile_close_cases h2 (sramvf c)) as [->|(s & _ & ->)]; [done|].
  rewrite bind_Ok. unfold GBADestroy. cbn [engine_mem set_rom set_romvf this].
  destruct (engine_mem c) as [e|]; [|done].
  destruct (delete s h2 !! e) as [[]|]; try done.
  rewrite bind_Ok. by destruct (free_cases (delete e (delete s h2)) (Some (this c)))
    as [->|(? & ->)].
Qed.

Lemma BizDestroy_inv (h h' : heap) (c : bizctx) :
  BizDestroy h c = Ok h' → handles_ok h c ∧ h' = release (handles c) h.
Proof.
  unfold BizDestroy. intros Hd.
  apply bind_Ok_inv in Hd as (h1 & Hv & Hd).
  apply VFile_close_inv in Hv as (v & mv & Ev & Lv & ->).
  apply bind_Ok_inv in Hd as (h2 & Hr & Hd).
  cbn [rom set_romvf biosvf set_rom sramvf engine_mem this] in *.
  apply bind_Ok_inv in Hd as (h3 & Hb & Hd).
  apply bind_Ok_inv in Hd as (h4 & Hs & Hd).
  apply VFile_close_inv in Hs as (s & ms & Es & Ls & ->).
  apply bind_Ok_inv in Hd as (h5 & He & Hd).
  unfold GBADestroy in He. cbn [engine_mem set_rom set_romvf] in He.
  destruct (engine_mem c) as [e|] eqn:Ee; [|done].
  destruct (delete s h3 !! e) as [[]|] eqn:Le; try done. injection He as <-.
  apply free_inv in Hd as [[? _]|(t & [= <-] & Lt & ->)]; [done|].
  unfold handles_ok, handles, release. rewrite Ev, Es, Ee.
  apply lookup_delete_Some in Le as [Nes Le].
  apply lookup_delete_is_Some in Lt as [Nte Lt].
  apply lookup_delete_is_Some in Lt as [Nts Lt].
  apply free_inv in Hr as [[Er ->]|(r & Er & Lr & ->)]; rewrite Er;
    (destruct (biosvf c) as [b|] eqn:Eb;
     [apply VFile_close_inv in Hb as (b' & mb & [= <-] & Lb & ->)|injection Hb as <-]);
    cbn [option_list option_rect app foldr];
    repeat match goal with
    | H : delete _ _ !! _ = Some _ |- _ => apply lookup_delete_Some in H as [? H]
    | H : is_Some (delete _ _ !! _) |- _ => apply lookup_delete_is_Some in H as [? H]
    end;
    (split; [|done]);
    (split; [by eauto|]); (split; [intros ? ?; simplify_eq; eauto|]);
    (split; [intros ? ?; simplify_eq; eauto|]); (split; [by eauto|]);
    (split; [by eauto|]); (split; [done|]);
    rewrite ?NoDup_cons, ?not_elem_of_cons; repeat split;
      try apply NoDup_nil_2; try apply not_elem_of_nil; congruence.
Qed.

Lemma BizDestroy_ok (h : heap) (c : bizctx) :
  handles_ok h c → BizDestroy h c = Ok (release (handles c) h).
Proof.
  intros ((v & mv & Ev & Lv) & Hr & Hb & (s & ms & Es & Ls) & (e & Ee & Le) & Lt & Hnd).
  unfold handles in Hnd. unfold handles, release. rewrite Ev, Es, Ee in *.
  unfold BizDestroy. rewrite Ev, (VFile_close_live h v mv), bind_Ok by done.
  cbn [rom set_romvf biosvf set_rom sramvf engine_mem this].
  unfold GBADestroy. cbn [engine_mem set_rom set_romvf]. rewrite Es, Ee.
  destruct Lt as [bt Lt].
  destruct (rom c) as [r|] eqn:Er; [destruct (Hr r eq_refl) as [br Lr]|];
    (destruct (biosvf c) as [b|] eqn:Eb; [destruct (Hb b eq_refl) as [mb Lb]|]);
    cbn [option_list option_rect app foldr] in *;
    rewrite ?NoDup_cons, ?not_elem_of_cons in Hnd;
    destruct_and?.
  - rewrite (free_live _ r br), bind_Ok by (rewrite lookup_delete_ne by done; done).
    rewrite (VFile_close_live _ b mb), bind_Ok by (rewrite !lookup_delete_ne by done; done).
    rewrite (VFile_close_live _ s ms), bind_Ok by (rewrite !lookup_delete_ne by done; done).
    rewrite !lookup_delete_ne, Le, bind_Ok by done.
    rewrite (free_live _ (this c) bt); [done|]. by rewrite !lookup_delete_ne by done.
  - rewrite (free_live _ r br), bind_Ok by (rewrite lookup_delete_ne by done; done).
    rewrite bind_Ok.
    rewrite (VFile_close_live _ s ms), bind_Ok by (rewrite !lookup_delete_ne by done; done).
    rewrite !lookup_delete_ne, Le, bind_Ok by done.
    rewrite (free_live _ (this c) bt); [done|]. by rewrite !lookup_delete_ne by done.
  - change (free (delete v h) None) with (Ok (delete v h)). rewrite bind_Ok.
    rewrite (VFile_close_live _ b mb), bind_Ok by (rewrite !lookup_delete_ne by done; done).
    rewrite (VFile_close_live _ s ms), bind_Ok by (rewrite !lookup_delete_ne by done; done).
    rewrite !lookup_delete_ne, Le, bind_Ok by done.
    rewrite (free_live _ (this c) bt); [done|]. by rewrite !lookup_delete_ne by done.
  - change (free (delete v h) None) with (Ok (delete v h)). rewrite !bind_Ok.
    rewrite (VFile_close_live _ s ms), bind_Ok by (rewrite !lookup_delete_ne by done; done).
    rewrite !lookup_delete_ne, Le, bind_Ok by done.
    rewrite (free_live _ (this c) bt); [done|]. by rewrite !lookup_delete_ne by done.
Qed.

(** X5.  [BizDestroy] exactly.  It is defined when, and only when, the
    context has its ROM file, its save file and its engine instance, every
    address it holds is live in the ledger with a block of the right kind,
    and no two of those addresses are the same; it then releases those
    addresses and nothing else.  In every other case it is undefined (a null
    or dangling access, or a double release); it has no loop to run out. *)
Theorem BizDestroy_exact (h : heap) (c : bizctx) :
  (handles_ok h c ∧ BizDestroy h c = Ok (release (handles c) h)) ∨
  (¬ handles_ok h c ∧ BizDestroy h c = Undefined).
Proof.
  destruct (BizDestroy h c) as [h'| |] eqn:Hd.
  - apply BizDestroy_inv in Hd as [Hok ->]. by left.
  - right. split; [|done]. intros Hok%BizDestroy_ok. congruence.
  - by apply BizDestroy_defined in Hd.
Qed.

(** X6.  [BizDestroy] cannot be called twice.  After a call that returned,
    none of the context's addresses is live and every other block is as it
    was; a second call on the same context goes through the ROM file that
    was just closed. *)
Theorem BizDestroy_twice (h h' : heap) (c : bizctx) :
  BizDestroy h c = Ok h' →
  BizDestroy h' c = Undefined ∧
  (∀ a, a ∈ handles c → h' !! a = None) ∧
  (∀ a, a ∉ handles c → h' !! a = h !! a).
Proof.
  intros Hd. apply BizDestroy_inv in Hd as [Hok ->].
  split; [|split].
  - destruct Hok as ((v & mv & Ev & Lv) & _).
    unfold BizDestroy. rewrite Ev. unfold VFile_close.
    rewrite lookup_release, decide_True; [done|].
    unfold handles. rewrite Ev. set_solver.
  - intros a Ha. by rewrite lookup_release, decide_True.
  - intros a Ha. by rewrite lookup_release, decide_False.
Qed.

End Destroy.

Lemma grow_subseteq (h : heap) (bs : list block) : h ⊆ grow h bs.
Proof.
  apply map_subseteq_spec. intros a x Ha. rewrite lookup_grow_other; [done|].
  intros Hin%grown_fresh. congruence.
Qed.

Section SessionLemmas.
Context `{Platform} `{Engine} `{Allocator}.

(** [memcpy(ctx->bios, bios, 16384)] reads past a shorter buffer. *)
Lemma BizCreate_bios_short (h : heap) (b : bytes) :
  (Z.of_nat (length b) < 16384)%Z → BizCreate h (Some b) = Undefined.
Proof.
  intros Hb. unfold BizCreate, calloc_bizctx.
  destruct (alloc_succeeds h ReqContext); [|done].
  unfold alloc. cbn [fmap option_fmap option_map deref mbind result_bind].
  set (h1 := <[fresh (dom h) := BlkContext]> h).
  set (cz := set_savedata _ _).
  destruct (create_engine_spec h1 cz) as (c & Ec & _). rewrite Ec.
  unfold memcpy. rewrite decide_False by lia. done.
Qed.

Lemma BizCreate_bios_heap (h : heap) (b : bytes) :
  alloc_succeeds h ReqContext = true →
  (16384 ≤ Z.of_nat (length b))%Z →
  GBAIsBIOS (take (Z.to_nat 16384) b) = true →
  let h1 := <[fresh (dom h) := BlkContext]> h in
  let h2 := <[fresh (dom h1) := BlkEngine]> h1 in
  ∃ c,
    BizCreate h (Some b) = Ok (<[fresh (dom h2) := BlkVFile VfBios]> h2, Some c) ∧
    this c = fresh (dom h) ∧ engine_mem c = Some (fresh (dom h1)) ∧
    biosvf c = Some (fresh (dom h2)) ∧ bios c = take (Z.to_nat 16384) b.
Proof.
  intros Hok Hb Hgood h1 h2. unfold BizCreate, calloc_bizctx. rewrite Hok.
  unfold alloc. cbn [fmap option_fmap option_map deref mbind result_bind].
  fold h1. set (cz := set_savedata _ _).
  destruct (create_engine_spec h1 cz) as (c & Ec & Emem & Ethis & Ebios & _).
  rewrite Ec. fold h2.
  rewrite Ebios. change (bios cz) with (replicate (Z.to_nat 16384) 0%Z).
  rewrite memcpy_whole by (rewrite ?length_replicate; lia).
  rewrite bind_Ok. unfold VFileFromMemory, alloc.
  cbn [bios set_biosvf set_bios biosvf this]. rewrite Hgood. cbn [negb].
  eexists. split; [reflexivity|].
  match goal with |- context [wire_hooks ?x] =>
    destruct (wire_hooks_handles x) as (-> & -> & ->) end.
  cbn [this engine_mem biosvf bios set_gba set_biosvf set_bios].
  by rewrite Emem, Ethis.
Qed.

(** What a [BizCreate] that returns a context has allocated, and where. *)
Lemma BizCreate_grow (h h1 : heap) (bios_arg : option bytes) (c : bizctx) :
  BizCreate h bios_arg = Ok (h1, Some c) →
  let bs := BlkContext :: BlkEngine ::
            (if bios_arg is Some _ then [BlkVFile VfBios] else []) in
  h1 = grow h bs ∧
  ∃ e, engine_mem c = Some e ∧
    this c :: e :: option_list (biosvf c) = grown h bs ∧
    (is_Some (biosvf c) ↔ is_Some bios_arg).
Proof.
  intros Hc bs.
  destruct (alloc_succeeds h ReqContext) eqn:Hok.
  2:{ unfold BizCreate, calloc_bizctx in Hc. by rewrite Hok in Hc. }
  destruct bios_arg as [b|].
  - destruct (decide (16384 ≤ Z.of_nat (length b))%Z) as [Hb|Hb].
    2:{ rewrite BizCreate_bios_short in Hc by lia. done. }
    destruct (GBAIsBIOS (take (Z.to_nat 16384) b)) eqn:Hgood.
    2:{ rewrite BizCreate_bios, Hgood in Hc by done. done. }
    destruct (BizCreate_bios_heap h b Hok Hb Hgood) as (c' & Hc' & Et & Ee & Eb & _).
    cbv zeta in Hc'. rewrite Hc' in Hc. injection Hc as <- <-.
    split; [reflexivity|]. eexists. split; [exact Ee|]. rewrite Et, Eb.
    split; [reflexivity|]. split; eauto.
  - destruct (BizCreate_no_bios_heap h Hok) as (c' & Hc' & Et & Ee & Eb).
    cbv zeta in Hc'. rewrite Hc' in Hc. injection Hc as <- <-.
    split; [reflexivity|]. eexists. split; [exact Ee|]. rewrite Et, Eb.
    split; [reflexivity|]. split; intros [? [=]].
Qed.

(** What a [BizLoad] that returns 1 has allocated, and where. *)
Lemma BizLoad_grow (h h' : heap) (c c' : bizctx) (data : bytes) (len : Z) :
  BizLoad h c data len = Ok (h', c', 1%Z) →
  let image := take (Z.to_nat len) data in
  let bs := [BlkBytes image; BlkVFile (VfRom (fresh (dom h))); BlkVFile VfSavedata] in
  h' = grow h bs ∧
  ∃ r v s, grown h bs = [r; v; s] ∧ c' = mounted c image r v s.
Proof.
  intros Hl image bs.
  destruct (alloc_succeeds h (ReqBytes len)) eqn:Hok.
  2:{ rewrite BizLoad_no_memory in Hl by done. done. }
  destruct (decide (0 ≤ len ≤ Z.of_nat (length data))%Z) as [Hlen|Hlen].
  2:{ rewrite BizLoad_out_of_bounds in Hl by done. done. }
  rewrite BizLoad_spec in Hl by done. cbv zeta in Hl. fold image in Hl.
  destruct (GBAIsROM image); [|done]. case_decide; [|done].
  injection Hl as <- <-.
  split; [reflexivity|]. by eexists _, _, _.
Qed.

(** A [BizLoad] that returns 0 has left the ledger alone. *)
Lemma BizLoad_zero (h h' : heap) (c c' : bizctx) (data : bytes) (len : Z) :
  BizLoad h c data len = Ok (h', c', 0%Z) →
  h' = h ∧ (c' = set_rom None c ∨ c' = set_rom None (set_romvf None c)).
Proof.
  intros Hl. apply BizLoad_cases in Hl as [(_ & -> & ->)|[(_ & -> & ->)|(? & _)]]; auto.
  done.
Qed.

Lemma BizLoad_base_fields (h h' : heap) (c c' : bizctx) (data : bytes) (len r : Z) :
  BizLoad h c data len = Ok (h', c', r) →
  this c' = this c ∧ engine_mem c' = engine_mem c ∧ biosvf c' = biosvf c.
Proof.
  intros Hl.
  apply BizLoad_cases in Hl as [(_ & _ & ->)|[(_ & _ & ->)|(_ & im & p & v & s & ->)]];
    [done..|].
  split; [|split]; apply mounted_fields.
Qed.

Lemma BizCreate_base (h h1 : heap) (bios_arg : option bytes) (c : bizctx) :
  BizCreate h bios_arg = Ok (h1, Some c) → base_ok h1 c.
Proof.
  intros Hc. apply BizCreate_grow in Hc as (-> & e & Ee & Hg & Hb). cbv zeta in Hg.
  pose proof (λ i a b, lookup_grow (BlkContext :: BlkEngine ::
    (if bios_arg is Some _ then [BlkVFile VfBios] else [])) h i a b) as Hl.
  rewrite <- Hg in Hl. unfold base_ok. rewrite Ee.
  destruct (biosvf c) as [b|], bios_arg as [b0|];
    cbn [option_list option_rect app grown alloc fst snd] in Hg;
    try (exfalso; clear Hl; destruct Hb as [Hb1 Hb2];
         first [by destruct Hb1; eauto|by destruct Hb2; eauto]).
  - split; [by apply (Hl 0)|]. split; [exists e; split; [done|by apply (Hl 1)]|].
    intros ? [= <-]. by apply (Hl 2).
  - split; [by apply (Hl 0)|]. split; [exists e; split; [done|by apply (Hl 1)]|].
    intros ? [=].
Qed.

Lemma base_ok_mono (h h' : heap) (c c' : bizctx) :
  base_ok h c → h ⊆ h' →
  this c' = this c → engine_mem c' = engine_mem c → biosvf c' = biosvf c →
  base_ok h' c'.
Proof.
  intros (Lt & (e & Ee & Le) & Lb) Hsub Et Em Eb. unfold base_ok.
  rewrite Et, Em, Eb. split; [by eapply lookup_weaken|].
  split; [exists e; split; [done|by eapply lookup_weaken]|].
  intros b Hb. eapply lookup_weaken; [by apply Lb|done].
Qed.

(** After a [BizLoad] that returns 1 the context can be destroyed. *)
Lemma BizLoad_handles_ok (h h' : heap) (c c' : bizctx) (data : bytes) (len : Z) :
  base_ok h c → BizLoad h c data len = Ok (h', c', 1%Z) →
  handles_ok h' c' ∧ base_ok h' c' ∧
  ∃ r v s,
    grown h [BlkBytes (take (Z.to_nat len) data); BlkVFile (VfRom (fresh (dom h)));
             BlkVFile VfSavedata] = [r; v; s] ∧
    rom c' = Some r ∧ romvf c' = Some v ∧ sramvf c' = Some s.
Proof.
  intros Hbase Hl. apply BizLoad_grow in Hl as (-> & r & v & s & Hg & ->).
  cbv zeta in Hg.
  set (bs := [BlkBytes _; _; _]) in *.
  destruct (mounted_fields c (take (Z.to_nat len) data) r v s)
    as (Er & Ev & Es & Eb & Et & Em & _).
  assert (base_ok (grow h bs) (mounted c (take (Z.to_nat len) data) r v s)) as Hbase'.
  { eapply base_ok_mono; [exact Hbase|apply grow_subseteq|done..]. }
  split; [|split; [done|by exists r, v, s]].
  pose proof (λ i a b, lookup_grow bs h i a b) as Hl. rewrite Hg in Hl.
  pose proof (Hl 0 r _ eq_refl eq_refl) as Lr.
  pose proof (Hl 1 v _ eq_refl eq_refl) as Lv.
  pose proof (Hl 2 s _ eq_refl eq_refl) as Ls.
  destruct Hbase' as (Lt & (e & Ee & Le) & Lb).
  unfold handles_ok, handles. rewrite Er, Ev, Es, Ee.
  split; [by eauto|]. split; [intros ? [= <-]; eauto|].
  split; [intros b Hb; eauto|]. split; [by eauto|]. split; [by eauto|].
  split; [by eauto|].
  destruct (biosvf _) as [b|] eqn:Hb; [specialize (Lb b eq_refl)|];
    cbn [option_list option_rect app];
    rewrite ?NoDup_cons, ?not_elem_of_cons; repeat split;
    try apply NoDup_nil_2; try apply not_elem_of_nil; congruence.
Qed.

End SessionLemmas.

Section SessionClaims.
Context `{Platform} `{Engine} `{Allocator}.

(** What every call between [BizCreate] and [BizDestroy] leaves alone. *)
Lemma run_op_keeps (h h' : heap) (c c' : bizctx) (o : op) :
  run_op (h, c) o = Ok (h', c') →
  h ⊆ h' ∧ this c' = this c ∧ engine_mem c' = engine_mem c ∧ biosvf c' = biosvf c ∧
  (wired c → wired c') ∧
  (is_load o = false →
     h' = h ∧ rom c' = rom c ∧ romvf c' = romvf c ∧ sramvf c' = sramvf c) ∧
  (keeps_save o = true → savedata c' = savedata c).
Proof.
  destruct o as [|data len|fuel x|data]; cbn [run_op fst snd is_load keeps_save].
  - intros [= <- <-]. split; [done|]. do 3 (split; [reflexivity|]).
    split; [intros Hw; exact Hw|]. split; [intros _; by repeat split|reflexivity].
  - intros Hl. apply bind_Ok_inv in Hl as ([[h1 c1] r] & Hl & [= <- <-]).
    split; [|split; [|split; [|split; [|split; [|split; [done|]]]]]].
    + destruct (BizLoad_cases _ _ _ _ _ _ _ Hl) as [(-> & -> & _)|[(-> & -> & _)|(-> & _)]];
        [done..|].
      apply BizLoad_grow in Hl as [-> _]. apply grow_subseteq.
    + apply BizLoad_cases in Hl as [(_ & _ & ->)|[(_ & _ & ->)|(_ & im & p & v & s & ->)]];
        [done..|]. apply mounted_fields.
    + apply BizLoad_cases in Hl as [(_ & _ & ->)|[(_ & _ & ->)|(_ & im & p & v & s & ->)]];
        [done..|]. apply mounted_fields.
    + apply BizLoad_cases in Hl as [(_ & _ & ->)|[(_ & _ & ->)|(_ & im & p & v & s & ->)]];
        [done..|]. apply mounted_fields.
    + by apply BizLoad_keeps in Hl as (Hw & _).
    + intros _. by apply BizLoad_keeps in Hl as (_ & _ & ->).
  - intros Ha. apply bind_Ok_inv in Ha as (a & Ha & [= <- <-]).
    apply BizAdvance_inv in Ha as (k & g & ->).
    destruct (run_steps_frame k (latch_args c x)) as (Et&Er&Ev&Eb&Es&Em&_).
    cbn [this engine_mem biosvf rom romvf sramvf set_gba].
    rewrite Et, Er, Ev, Eb, Es, Em.
    split; [done|]. split; [done|]. split; [done|]. split; [done|].
    split; [intros Hw; by apply wired_run_steps|]. split; [done|]. done.
  - intros Hp. apply bind_Ok_inv in Hp as (c1 & Hp & [= <- <-]).
    unfold BizPutSaveRam in Hp. apply bind_Ok_inv in Hp as (im & _ & [= <-]).
    split; [done|]. do 3 (split; [reflexivity|]).
    split; [intros Hw; exact Hw|]. split; [intros _; by repeat split|done].
Qed.

Lemma run_ops_keeps (os : list op) :
  ∀ (h h' : heap) (c c' : bizctx),
    run_ops (h, c) os = Ok (h', c') →
    h ⊆ h' ∧ this c' = this c ∧ engine_mem c' = engine_mem c ∧ biosvf c' = biosvf c ∧
    (wired c → wired c') ∧
    (Forall (λ o, is_load o = false) os →
       h' = h ∧ rom c' = rom c ∧ romvf c' = romvf c ∧ sramvf c' = sramvf c) ∧
    (Forall (λ o, keeps_save o = true) os → savedata c' = savedata c).
Proof.
  induction os as [|o os IH]; intros h h' c c'; cbn [run_ops].
  - intros [= <- <-]. split; [done|]. do 3 (split; [reflexivity|]).
    split; [intros Hw; exact Hw|]. split; [intros _; by repeat split|reflexivity].
  - intros Hr. apply bind_Ok_inv in Hr as ([h1 c1] & Ho & Hr).
    apply run_op_keeps in Ho as (S1 & T1 & M1 & B1 & W1 & L1 & K1).
    apply IH in Hr as (S2 & T2 & M2 & B2 & W2 & L2 & K2).
    split; [by etrans|]. split; [congruence|]. split; [congruence|].
    split; [congruence|]. split; [auto|]. split.
    + intros [Ho Hos]%Forall_cons. destruct (L1 Ho) as (-> & <- & <- & <-).
      by apply L2.
    + intros [Ho Hos]%Forall_cons. rewrite <- (K1 Ho). by apply K2.
Qed.

Lemma handles_ok_same (h : heap) (c c' : bizctx) :
  handles_ok h c →
  this c' = this c → engine_mem c' = engine_mem c → biosvf c' = biosvf c →
  rom c' = rom c → romvf c' = romvf c → sramvf c' = sramvf c →
  handles_ok h c' ∧ handles c' = handles c.
Proof.
  intros Hok Et Em Eb Er Ev Es. unfold handles_ok, handles in *.
  by rewrite Et, Em, Eb, Er, Ev, Es.
Qed.

(** X7.  The nominal session leaks nothing.  [BizCreate] with or without a
    BIOS, one [BizLoad] that returns 1, then any frames, resets and save-RAM
    writes that return, then [BizDestroy]: the last call is defined and
    hands back the ledger the session started from, every block the session
    allocated released. *)
Theorem session_balanced (h h1 h2 h3 : heap) (bios_arg : option bytes)
    (c1 c2 c3 : bizctx) (data : bytes) (len : Z) (os : list op) :
  BizCreate h bios_arg = Ok (h1, Some c1) →
  BizLoad h1 c1 data len = Ok (h2, c2, 1%Z) →
  Forall (λ o, is_load o = false) os →
  run_ops (h2, c2) os = Ok (h3, c3) →
  BizDestroy h3 c3 = Ok h.
Proof.
  intros Hc Hl Hos Hr.
  pose proof (BizCreate_base _ _ _ _ Hc) as Hbase.
  destruct (BizLoad_handles_ok _ _ _ _ _ _ Hbase Hl)
    as (Hok & _ & r & v & s & Hg2 & Er & Ev & Es).
  apply run_ops_keeps in Hr as (_ & Et & Em & Eb & _ & Hsame & _).
  destruct (Hsame Hos) as (-> & Er' & Ev' & Es').
  destruct (handles_ok_same h2 c2 c3 Hok) as [Hok3 Eh]; [done..|].
  rewrite (BizDestroy_ok h2 c3 Hok3), Eh. f_equal.
  apply BizCreate_grow in Hc as (-> & e & Ee & Hg1 & _). cbv zeta in Hg1.
  assert (this c2 = this c1 ∧ engine_mem c2 = engine_mem c1 ∧ biosvf c2 = biosvf c1)
    as (Et2 & Em2 & Eb2).
  { destruct (BizLoad_grow _ _ _ _ _ _ Hl) as (_ & ? & ? & ? & _ & ->).
    split; [|split]; apply mounted_fields. }
  apply BizLoad_grow in Hl as (-> & _). cbv zeta.
  rewrite <- grow_app. apply release_grow. intros a.
  rewrite grown_app, Hg2, <- Hg1.
  unfold handles. rewrite Er, Ev, Es, Et2, Em2, Eb2, Ee.
  destruct (biosvf c1); cbn [option_list option_rect app];
    rewrite ?elem_of_cons, ?elem_of_nil; tauto.
Qed.

(** X8.  A second load leaks the first.  [BizLoad] overwrites [ctx->rom],
    [ctx->romvf] and [ctx->sramvf] without releasing what they held.  So
    after two calls that return 1, [BizDestroy] is defined and releases the
    second ROM copy and its two files, and the first ROM copy, its file and
    the first save file stay allocated: three blocks that were not in the
    ledger before [BizCreate] and that no pointer of the bridge reaches any
    longer. *)
Theorem reload_leaks (h h1 h2 h3 : heap) (bios_arg : option bytes)
    (c1 c2 c3 : bizctx) (data1 data2 : bytes) (len1 len2 : Z) :
  BizCreate h bios_arg = Ok (h1, Some c1) →
  BizLoad h1 c1 data1 len1 = Ok (h2, c2, 1%Z) →
  BizLoad h2 c2 data2 len2 = Ok (h3, c3, 1%Z) →
  ∃ h4 r v s,
    rom c2 = Some r ∧ romvf c2 = Some v ∧ sramvf c2 = Some s ∧
    BizDestroy h3 c3 = Ok h4 ∧
    h4 !! r = Some (BlkBytes (take (Z.to_nat len1) data1)) ∧
    h4 !! v = Some (BlkVFile (VfRom r)) ∧
    h4 !! s = Some (BlkVFile VfSavedata) ∧
    h !! r = None ∧ h !! v = None ∧ h !! s = None ∧
    h4 ≠ h.
Proof.
  intros Hc Hl1 Hl2.
  pose proof (BizCreate_base _ _ _ _ Hc) as Hbase1.
  destruct (BizLoad_handles_ok _ _ _ _ _ _ Hbase1 Hl1)
    as (_ & Hbase2 & r & v & s & Hg2 & Er & Ev & Es).
  destruct (BizLoad_handles_ok _ _ _ _ _ _ Hbase2 Hl2)
    as (Hok3 & _ & r3 & v3 & s3 & Hg3 & Er3 & Ev3 & Es3).
  destruct (BizLoad_base_fields _ _ _ _ _ _ _ Hl1) as (Et2 & Em2 & Eb2).
  destruct (BizLoad_base_fields _ _ _ _ _ _ _ Hl2) as (Et3 & Em3 & Eb3).
  apply BizCreate_grow in Hc as (Eh1 & _).
  apply BizLoad_grow in Hl1 as (Eh2 & _). apply BizLoad_grow in Hl2 as (Eh3 & _).
  cbv zeta in Eh1, Eh2, Eh3.
  set (bs2 := [BlkBytes _; _; _]) in Hg2, Eh2. set (bs3 := [BlkBytes _; _; _]) in Hg3, Eh3.
  pose proof (λ i a b, lookup_grow bs2 h1 i a b) as L2. rewrite Hg2, <- Eh2 in L2.
  pose proof (L2 0 r _ eq_refl eq_refl) as Lr.
  pose proof (L2 1 v _ eq_refl eq_refl) as Lv.
  pose proof (L2 2 s _ eq_refl eq_refl) as Ls.
  assert (fresh (dom h1) = r) as Efr by (cbn in Hg2; congruence).
  rewrite Efr in Lv. clear L2.
  assert (∀ a, a ∈ [r; v; s] → h1 !! a = None) as F2.
  { intros a Ha. apply (grown_fresh bs2). by rewrite Hg2. }
  assert (∀ a, a ∈ [r3; v3; s3] → h2 !! a = None) as F3.
  { intros a Ha. apply (grown_fresh bs3). by rewrite Hg3. }
  assert (∀ a, a ∈ handles c3 → is_Some (h1 !! a) ∨ h2 !! a = None) as Hh.
  { destruct Hbase1 as (Lt1 & (e1 & Ee1 & Le1) & Lb1).
    unfold handles. rewrite Er3, Ev3, Es3, Et3, Em3, Eb3, Et2, Em2, Eb2, Ee1.
    intros a. destruct (biosvf c1) as [b|] eqn:Hb; [specialize (Lb1 b eq_refl)|];
      cbn [option_list option_rect app]; rewrite ?elem_of_cons, ?elem_of_nil;
      intros Ha; decompose [or] Ha; subst; try done; eauto;
      right; apply F3; rewrite ?elem_of_cons; auto. }
  assert (∀ a x, a ∈ [r; v; s] → h2 !! a = Some x →
            release (handles c3) h3 !! a = Some x) as Hkeep.
  { intros a x Ha La. rewrite lookup_release, decide_False.
    - rewrite Eh3, lookup_grow_other; [done|]. rewrite Hg3. intros Ha3%F3. congruence.
    - intros [[y Hy]|Hn]%Hh; [|congruence]. rewrite F2 in Hy; done. }
  assert (∀ a, a ∈ [r; v; s] → h !! a = None) as F1.
  { intros a Ha%F2. eapply lookup_weaken_None; [exact Ha|].
    rewrite Eh1. apply grow_subseteq. }
  exists (release (handles c3) h3), r, v, s.
  split; [done|]. split; [done|]. split; [done|].
  split; [by apply BizDestroy_ok|].
  split; [apply Hkeep; [rewrite !elem_of_cons; auto|done]|].
  split; [apply Hkeep; [rewrite !elem_of_cons; auto|done]|].
  split; [apply Hkeep; [rewrite !elem_of_cons; auto|done]|].
  split; [apply F1; rewrite !elem_of_cons; auto|].
  split; [apply F1; rewrite !elem_of_cons; auto|].
  split; [apply F1; rewrite !elem_of_cons; auto|].
  intros Eq. pose proof (Hkeep r _ ltac:(rewrite !elem_of_cons; auto) Lr) as Hr.
  rewrite Eq, F1 in Hr; [done|]. rewrite !elem_of_cons; auto.
Qed.

End SessionClaims.

Lemma memcpy_inv (dst src out : bytes) (n : Z) :
  memcpy dst src n = Ok out →
  (0 ≤ n ∧ n ≤ Z.of_nat (length src) ∧ n ≤ Z.of_nat (length dst))%Z ∧
  out = take (Z.to_nat n) src ++ drop (Z.to_nat n) dst.
Proof. unfold memcpy. case_decide; [|done]. by intros [= <-]. Qed.

Section FailedReload.
Context `{Platform} `{Engine} `{Allocator}.

(** X9.  What a failed [BizLoad] does to a loaded context.  On a context
    that [BizDestroy] would release in full, ROM copy included: when the new
    bytes fail [GBAIsROM], [BizLoad] returns 0 with the ledger unchanged and
    both ROM pointers null, and [BizDestroy] is then undefined; when
    [malloc] fails, [BizLoad] returns 0 having already overwritten
    [ctx->rom] with null, so [BizDestroy] is still defined but no longer
    frees the old ROM copy, which stays allocated. *)
Theorem failed_reload (h : heap) (c : bizctx) (data : bytes) (len : Z) (r : nat) :
  handles_ok h c → rom c = Some r →
  (∃ h', BizDestroy h c = Ok h' ∧ h' !! r = None) ∧
  (alloc_succeeds h (ReqBytes len) = true →
   (0 ≤ len ≤ Z.of_nat (length data))%Z →
   GBAIsROM (take (Z.to_nat len) data) = false →
   ∃ c', BizLoad h c data len = Ok (h, c', 0%Z) ∧ BizDestroy h c' = Undefined) ∧
  (alloc_succeeds h (ReqBytes len) = false →
   ∃ c' h', BizLoad h c data len = Ok (h, c', 0%Z) ∧ BizDestroy h c' = Ok h' ∧
     is_Some (h !! r) ∧ h' !! r = h !! r).
Proof.
  intros Hok Er. split; [|split].
  - exists (release (handles c) h). split; [by apply BizDestroy_ok|].
    rewrite lookup_release, decide_True; [done|].
    unfold handles. rewrite Er. cbn [option_list option_rect].
    rewrite !elem_of_cons, !elem_of_app, !elem_of_cons. tauto.
  - intros Hserved Hlen Hbad. exists (set_rom None (set_romvf None c)).
    split; [|apply BizDestroy_null; by left].
    rewrite BizLoad_spec by done. cbv zeta. by rewrite Hbad.
  - intros Hno. exists (set_rom None c), (release (handles (set_rom None c)) h).
    split; [by apply BizLoad_no_memory|].
    destruct Hok as (Hv & Hr & Hb & Hs & He & Ht & Hnd).
    assert (NoDup (handles (set_rom None c)) ∧ r ∉ handles (set_rom None c)) as [Hnd' Hnot].
    { revert Hnd. unfold handles. cbn [this engine_mem sramvf biosvf rom romvf set_rom].
      destruct Hv as (v & mv & -> & _), Hs as (s & ms & -> & _), He as (e & -> & _).
      rewrite Er.
      destruct (biosvf c) as [b|]; cbn [option_list option_rect app];
        rewrite !NoDup_cons, !not_elem_of_cons; intros Hnd; split;
        rewrite ?NoDup_cons, ?not_elem_of_cons; intuition congruence. }
    split; [|split; [by apply Hr|]].
    + apply BizDestroy_ok. unfold handles_ok.
      cbn [this engine_mem sramvf biosvf rom romvf set_rom]. by repeat split.
    + by rewrite lookup_release, decide_False.
Qed.

End FailedReload.

Section SessionReady.
Context `{Platform} `{Engine} `{Allocator} `{!PlatformOk} `{!EngineOk}.

Lemma run_ops_vbuff (os : list op) :
  ∀ (h h' : heap) (c c' : bizctx),
    run_ops (h, c) os = Ok (h', c') → length (vbuff c') = length (vbuff c).
Proof.
  induction os as [|o os IH]; intros h h' c c'; cbn [run_ops].
  - by intros [= <- <-].
  - intros Hr. apply bind_Ok_inv in Hr as ([h1 c1] & Ho & Hr).
    rewrite (IH _ _ _ _ Hr). clear IH Hr.
    destruct o as [|data len|fuel x|data]; cbn [run_op fst snd] in Ho.
    + by injection Ho as <- <-.
    + apply bind_Ok_inv in Ho as ([[h2 c2] r] & Hl & [= <- <-]).
      by apply BizLoad_keeps in Hl as (_ & -> & _).
    + apply bind_Ok_inv in Ho as (a & Ha & [= <- <-]).
      apply BizAdvance_inv in Ha as (k & g & ->).
      cbn [vbuff set_gba]. by rewrite run_steps_vbuff.
    + apply bind_Ok_inv in Ho as (c2 & Hp & [= <- <-]).
      unfold BizPutSaveRam in Hp. by apply bind_Ok_inv in Hp as (im & _ & [= <-]).
Qed.

(** X10.  What a session keeps.  After [BizCreate] and any sequence of
    resets, loads (whatever they return), frames and save-RAM writes that
    return, the accessors are still the ones [BizCreate] installed, the
    frame buffer has the frame's size, the context block, the engine
    instance and the BIOS file are the ones [BizCreate] made, nothing
    allocated before the session has been released, and a further call of
    [BizAdvance] with arguments [x] makes the accessors return what [x]
    carries at every step of the engine: a call that returns has run the
    engine up to the first completed frame with each step handed those
    values, and the call does return once the engine completes a frame and
    the caller's buffers have the sizes the interface fixes. *)
Theorem session_ready (h h1 h' : heap) (bios_arg : option bytes) (c1 c' : bizctx)
    (os : list op) :
  BizCreate h bios_arg = Ok (h1, Some c1) →
  run_ops (h1, c1) os = Ok (h', c') →
  wired c' ∧ length (vbuff c') = Z.to_nat FRAME_BYTES ∧
  h ⊆ h' ∧ this c' = this c1 ∧ engine_mem c' = engine_mem c1 ∧ biosvf c' = biosvf c1 ∧
  (∀ x k, args_in_range x → sensors (run_steps k (latch_args c' x)) = latched_view x) ∧
  (∀ x fuel a, args_in_range x → advance fuel c' x = Ok a →
     ∃ n, n ≤ fuel ∧ first_frame n (latch_args c' x) ∧
       adv_ctx a = drained (run_seen (latched_view x) n (latch_args c' x)) ∧
       sensors (adv_ctx a) = latched_view x) ∧
  (∀ x n, args_in_range x → first_frame n (latch_args c' x) →
     length (arg_vbuff x) = Z.to_nat FRAME_BYTES →
     2048 ≤ length (arg_sbuff x) →
     ∃ a, (∀ fuel, n ≤ fuel → advance fuel c' x = Ok a) ∧
          adv_ctx a = drained (run_seen (latched_view x) n (latch_args c' x))).
Proof.
  intros Hc Hr.
  pose proof (BizCreate_inv _ _ _ _ Hc) as (Hw & _ & _ & _ & _ & Hv).
  pose proof (run_ops_vbuff _ _ _ _ _ Hr) as Hv'.
  apply BizCreate_grow in Hc as (-> & _).
  apply run_ops_keeps in Hr as (Hsub & Et & Em & Eb & Hw' & _).
  split; [auto|]. split; [congruence|].
  split; [etrans; [apply grow_subseteq|exact Hsub]|].
  do 3 (split; [done|]).
  assert (wired c') as Hwc by auto.
  assert (length (vbuff c') = Z.to_nat FRAME_BYTES) as Hvc by congruence.
  split; [|split].
  - intros x k Hx. rewrite run_steps_sensors. by apply latch_view.
  - intros x fuel a Hx Ha.
    destruct (advance_seen c' x Hwc Hx) as (_ & Hret & _). by apply Hret.
  - intros x n Hx Hn Hd Hs.
    destruct (advance_seen c' x Hwc Hx) as (_ & _ & Hdef). by apply Hdef.
Qed.

Lemma BizCreate_savedata (h h' : heap) (bios_arg : option bytes) (c : bizctx) :
  BizCreate h bios_arg = Ok (h', Some c) →
  savedata c = replicate (Z.to_nat SIZE_CART_FLASH1M) 255%Z.
Proof.
  unfold BizCreate, calloc_bizctx.
  destruct (alloc_succeeds h ReqContext); [|discriminate].
  unfold alloc. cbn [fmap option_fmap option_map deref mbind result_bind].
  set (h1 := <[fresh (dom h) := BlkContext]> h).
  set (cz := set_savedata (memset (savedata (bizctx_zero (fresh (dom h)))) 0xff)
       (bizctx_zero (fresh (dom h)))).
  destruct (create_engine_spec h1 cz)
    as (c1 & Ec & _ & _ & _ & Esave & _).
  rewrite Ec.
  assert (savedata c1 = replicate (Z.to_nat SIZE_CART_FLASH1M) 255%Z) as Hsave.
  { rewrite Esave. change (savedata cz)
      with (memset (replicate (Z.to_nat SIZE_CART_FLASH1M) 0%Z) 0xff).
    unfold memset. by rewrite length_replicate. }
  destruct bios_arg as [b|].
  - intros Hc. apply bind_Ok_inv in Hc as (image & _ & Hc).
    unfold VFileFromMemory, alloc in Hc.
    cbn [bios set_biosvf set_bios biosvf this] in Hc.
    destruct (GBAIsBIOS image); cbn [negb] in Hc.
    + injection Hc as <- <-. exact Hsave.
    + apply bind_Ok_inv in Hc as (? & _ & Hc).
      apply bind_Ok_inv in Hc as (? & _ & Hc).
      apply bind_Ok_inv in Hc as (? & _ & Hc). done.
  - intros [= <- <-]. exact Hsave.
Qed.

(** X12.  A new save reads as erased flash.  [BizCreate] fills the save
    buffer with 0xFF, and the bridge's other code writes it only in
    [BizPutSaveRam]; the engine is handed it by [BizLoad] and writes it
    while it steps.  So after [BizCreate] and any resets and loads,
    [BizGetSaveRam] copies out [BizGetSaveRamSize] bytes of 0xFF and leaves
    the rest of the caller's buffer alone. *)
Theorem fresh_save_erased (h h1 h' : heap) (bios_arg : option bytes) (c1 c' : bizctx)
    (os : list op) (buf : bytes) :
  let n := BizGetSaveRamSize c' in
  BizCreate h bios_arg = Ok (h1, Some c1) →
  Forall (λ o, keeps_save o = true) os →
  run_ops (h1, c1) os = Ok (h', c') →
  (n ≤ Z.of_nat (length buf))%Z →
  savedata c' = replicate (Z.to_nat SIZE_CART_FLASH1M) 255%Z ∧
  BizGetSaveRam c' buf = Ok (replicate (Z.to_nat n) 255%Z ++ drop (Z.to_nat n) buf).
Proof.
  intros n Hc Hos Hr Hbuf.
  apply BizCreate_savedata in Hc.
  apply run_ops_keeps in Hr as (_ & _ & _ & _ & _ & _ & Hk).
  specialize (Hk Hos). rewrite Hc in Hk. split; [done|].
  pose proof (BizGetSaveRamSize_bounds c') as Hn. fold n in Hn.
  unfold BizGetSaveRam. fold n. rewrite Hk.
  rewrite memcpy_Ok by (rewrite ?length_replicate; lia).
  rewrite take_replicate. do 3 f_equal. lia.
Qed.

End SessionReady.

Section CreateMore.
Context `{Platform} `{Engine} `{Allocator}.

(** X11.  The BIOS argument of [BizCreate].  The [memcpy] of line 127
    takes 16384 bytes whatever the caller's buffer holds: on a shorter
    buffer it reads out of bounds, and of a longer one only the first 16384
    bytes count, for the result and for the image kept in the context. *)
Theorem BizCreate_bios_prefix (h : heap) (b : bytes) :
  ((Z.of_nat (length b) < 16384)%Z → BizCreate h (Some b) = Undefined) ∧
  ((16384 ≤ Z.of_nat (length b))%Z →
     BizCreate h (Some b) = BizCreate h (Some (take (Z.to_nat 16384) b)) ∧
     ∀ h' c, BizCreate h (Some b) = Ok (h', Some c) → bios c = take (Z.to_nat 16384) b).
Proof.
  split; [apply BizCreate_bios_short|]. intros Hb.
  destruct (alloc_succeeds h ReqContext) eqn:Hok.
  - split.
    + rewrite (BizCreate_bios h b) by done.
      rewrite (BizCreate_bios h (take (Z.to_nat 16384) b))
        by first [done|rewrite length_take; lia].
      by rewrite take_take, Nat.min_id.
    + intros h' c Hc.
      destruct (GBAIsBIOS (take (Z.to_nat 16384) b)) eqn:Hgood.
      2:{ rewrite BizCreate_bios, Hgood in Hc by done. done. }
      destruct (BizCreate_bios_heap h b Hok Hb Hgood) as (c' & Hc' & _ & _ & _ & Ebios).
      cbv zeta in Hc'. rewrite Hc' in Hc. by injection Hc as <- <-.
  - split; [|intros h' c Hc].
    + unfold BizCreate, calloc_bizctx. by rewrite Hok.
    + unfold BizCreate, calloc_bizctx in Hc. by rewrite Hok in Hc.
Qed.

End CreateMore.

Section SaveRamMore.
Context `{Platform} `{EngineTypes}.

(** X13.  Of two calls of [BizPutSaveRam] that return, only the second
    shows: the context is the one a single call with the second buffer
    gives. *)
Theorem PutSaveRam_last_wins (c c1 c2 : bizctx) (data1 data2 : bytes) :
  BizPutSaveRam c data1 = Ok c1 →
  BizPutSaveRam c1 data2 = Ok c2 →
  BizPutSaveRam c data2 = Ok c2.
Proof.
  unfold BizPutSaveRam. intros H1 H2.
  apply bind_Ok_inv in H1 as (im1 & M1 & [= <-]).
  apply bind_Ok_inv in H2 as (im2 & M2 & [= <-]).
  change (BizGetSaveRamSize (set_savedata im1 c)) with (BizGetSaveRamSize c) in M2.
  change (savedata (set_savedata im1 c)) with im1 in M2.
  apply memcpy_inv in M1 as [B1 ->]. apply memcpy_inv in M2 as [B2 ->].
  rewrite length_app, length_take, length_drop in B2.
  rewrite memcpy_Ok, bind_Ok by lia.
  rewrite drop_app_ge by (rewrite length_take; lia).
  rewrite length_take, Nat.min_l, Nat.sub_diag by lia. done.
Qed.

(** X14.  Writing back what was read changes nothing: when
    [BizGetSaveRam] has filled a buffer, [BizPutSaveRam] from that buffer
    returns the context it was given. *)
Theorem GetSaveRam_PutSaveRam_id (c : bizctx) (buf out : bytes) :
  BizGetSaveRam c buf = Ok out → BizPutSaveRam c out = Ok c.
Proof.
  unfold BizGetSaveRam, BizPutSaveRam. intros Hg.
  apply memcpy_inv in Hg as [B ->].
  rewrite memcpy_Ok, bind_Ok by (rewrite ?length_app, ?length_take, ?length_drop; lia).
  rewrite take_app_le by (rewrite length_take; lia).
  rewrite take_take, Nat.min_id, take_drop. by destruct c.
Qed.

End SaveRamMore.

(** ** The further statements at concrete inputs *)

Lemma halted_ok : @EngineOk Toy.types halted.
Proof.
  split.
  - intros s fp. by left.
  - done.
  - intros b. cbn. lia.
  - intros b count Hc. cbn. rewrite length_take. lia.
Qed.

Lemma halted_never_frames (k : nat) :
  ∀ c : @bizctx Toy.types,
    video_frameCounter (gba (@run_steps Toy.platform Toy.types halted k c))
      = video_frameCounter (gba c).
Proof. induction k as [|k IH]; intros c; [done|]. cbn [run_steps]. by rewrite IH. Qed.

Section ConcreteMore.
#[local] Existing Instance Toy.types.
#[local] Existing Instance Toy.engine.
#[local] Existing Instance Toy.platform.
#[local] Existing Instance Toy.plenty.
#[local] Existing Instance toy_platform_ok.
#[local] Existing Instance toy_engine_ok.

Lemma toy_loaded_eq :
  BizLoad toy_created.1 toy_created.2 toy_rom 192 = Ok (toy_loaded.1, toy_loaded.2, 1%Z).
Proof. by vm_compute. Qed.

Lemma toy_reloaded_eq :
  BizLoad toy_loaded.1 toy_loaded.2 toy_rom 192 = Ok (toy_reloaded.1, toy_reloaded.2, 1%Z).
Proof. by vm_compute. Qed.

Lemma toy_handles_ok : handles_ok toy_loaded.1 toy_loaded.2.
Proof.
  apply (BizLoad_handles_ok toy_created.1 toy_loaded.1 toy_created.2 toy_loaded.2 toy_rom 192).
  - apply (BizCreate_base ∅ _ None). exact toy_created_eq.
  - exact toy_loaded_eq.
Qed.

Lemma blit_total_witness :
  blit (replicate 17 0%Z) (replicate 15 0xF8%Z)
    = Ok (blit_image (replicate 15 0xF8%Z) ++ [0%Z]) ∧
  blit (replicate 15 0%Z) (replicate 16 0xF8%Z) = Undefined.
Proof.
  split.
  - rewrite (blit_total (replicate 17 0%Z) (replicate 15 0xF8%Z)). reflexivity.
  - rewrite (blit_total (replicate 15 0%Z) (replicate 16 0xF8%Z)). reflexivity.
Defined.

Lemma BizAdvance_defined_iff_witness :
  (∃ a, advance 3 toy_loaded.2 toy_args = Ok a) ∧
  BizAdvance 3 toy_loaded.2 (arg_keys toy_args) (replicate 15 0%Z) (arg_sbuff toy_args)
    (arg_time toy_args) (arg_gyrox toy_args) (arg_gyroy toy_args) (arg_gyroz toy_args)
    (arg_luma toy_args) = Undefined.
Proof.
  split.
  - destruct (BizAdvance_defined_iff 3 toy_loaded.2 (arg_keys toy_args) (arg_vbuff toy_args)
                (arg_sbuff toy_args) (arg_time toy_args) (arg_gyrox toy_args)
                (arg_gyroy toy_args) (arg_gyroz toy_args) (arg_luma toy_args) 3)
      as [Hfit _].
    + apply (toy_first_frame toy_args).
    + reflexivity.
    + lia.
    + destruct Hfit as (a & Ha & _); [|by exists a].
      split; [by vm_compute|]. split; apply Nat.leb_le; by vm_compute.
  - apply (BizAdvance_defined_iff 3 toy_loaded.2 (arg_keys toy_args) (replicate 15 0%Z)
             (arg_sbuff toy_args) (arg_time toy_args) (arg_gyrox toy_args)
             (arg_gyroy toy_args) (arg_gyroz toy_args) (arg_luma toy_args) 3).
    + apply (toy_first_frame toy_args).
    + reflexivity.
    + lia.
    + intros (Hd & _). revert Hd. by vm_compute.
Defined.

Lemma BizAdvance_never_returns_witness :
  @BizAdvance Toy.platform Toy.types halted 1000 (bizctx_zero 0) 0
    (replicate 16 0%Z) (replicate 2048 0%Z) 0 0 0 0 0 = OutOfFuel.
Proof.
  apply (@BizAdvance_never_returns Toy.platform Toy.types halted).
  intros k. etrans; [apply halted_never_frames|reflexivity].
Defined.

Lemma advance_all_frameCounter_witness :
  video_frameCounter (gba toy_advanced_twice) = 2%Z.
Proof.
  destruct (advance_all_frameCounter 3 [toy_args_before; toy_args] toy_loaded.2
              toy_advanced_twice) as [Hiter _].
  - by vm_compute.
  - rewrite Hiter. reflexivity.
Defined.

Lemma BizDestroy_twice_witness :
  BizDestroy ∅ toy_loaded.2 = Undefined.
Proof.
  apply (BizDestroy_twice toy_loaded.1 ∅ toy_loaded.2). by vm_compute.
Defined.

Lemma session_balanced_witness :
  BizDestroy toy_session.1 toy_session.2 = Ok ∅.
Proof.
  apply (session_balanced ∅ toy_created.1 toy_loaded.1 toy_session.1 None
           toy_created.2 toy_loaded.2 toy_session.2 toy_rom 192 toy_ops).
  - exact toy_created_eq.
  - exact toy_loaded_eq.
  - repeat constructor.
  - by vm_compute.
Defined.

Lemma reload_leaks_witness :
  ∃ h4, BizDestroy toy_reloaded.1 toy_reloaded.2 = Ok h4 ∧ h4 ≠ ∅.
Proof.
  destruct (reload_leaks ∅ toy_created.1 toy_loaded.1 toy_reloaded.1 None
              toy_created.2 toy_loaded.2 toy_reloaded.2 toy_rom toy_rom 192 192)
    as (h4 & r & v & s & _ & _ & _ & Hd & _ & _ & _ & _ & _ & _ & Hne).
  - exact toy_created_eq.
  - exact toy_loaded_eq.
  - exact toy_reloaded_eq.
  - exists h4. split; [exact Hd|exact Hne].
Defined.

Lemma failed_reload_witness :
  ∃ c', BizLoad toy_loaded.1 toy_loaded.2 toy_garbage 8 = Ok (toy_loaded.1, c', 0%Z) ∧
    BizDestroy toy_loaded.1 c' = Undefined.
Proof.
  destruct (failed_reload toy_loaded.1 toy_loaded.2 toy_garbage 8 2 toy_handles_ok)
    as (_ & Hbad & _).
  - reflexivity.
  - apply Hbad.
    + reflexivity.
    + cbn [length toy_garbage]. lia.
    + reflexivity.
Defined.

Lemma fresh_save_erased_witness :
  BizGetSaveRam (BizReset toy_loaded.2) (replicate 10 0%Z)
    = Ok (replicate 8 255%Z ++ [0; 0]%Z).
Proof.
  destruct (fresh_save_erased ∅ toy_created.1 toy_loaded.1 None toy_created.2
              (BizReset toy_loaded.2) [OpLoad toy_rom 192; OpReset] (replicate 10 0%Z))
    as [_ Hget].
  - exact toy_created_eq.
  - repeat constructor.
  - by vm_compute.
  - by vm_compute.
  - rewrite Hget. reflexivity.
Defined.

Lemma PutSaveRam_last_wins_witness :
  BizPutSaveRam toy_loaded.2 (replicate 8 7%Z)
    = Ok (set_savedata (replicate 8 7%Z) toy_loaded.2).
Proof.
  apply (PutSaveRam_last_wins toy_loaded.2 (set_savedata (replicate 8 1%Z) toy_loaded.2)
           (set_savedata (replicate 8 7%Z) toy_loaded.2) (replicate 9 1%Z) (replicate 8 7%Z)).
  - by vm_compute.
  - by vm_compute.
Defined.

Lemma GetSaveRam_PutSaveRam_id_witness :
  BizPutSaveRam toy_loaded.2 (replicate 8 255%Z ++ [0; 0]%Z) = Ok toy_loaded.2.
Proof.
  apply (GetSaveRam_PutSaveRam_id toy_loaded.2 (replicate 10 0%Z)). by vm_compute.
Defined.

End ConcreteMore.

(** ** The statements on the recording engine *)

Lemma recording_ok : @EngineOk Toy.types recording.
Proof.
  split.
  - intros s fp. cbn. unfold Toy.step. case_decide; cbn; [by right|by left].
  - intros s fp. cbn. by rewrite length_insert.
  - intros b. cbn. lia.
  - intros b count Hc. cbn. rewrite length_take. lia.
Qed.

Section ConcreteRecording.
#[local] Existing Instance Toy.types.
#[local] Existing Instance recording.
#[local] Existing Instance Toy.platform.
#[local] Existing Instance Toy.plenty.
#[local] Existing Instance toy_platform_ok.
#[local] Existing Instance recording_ok.

Lemma rec_created_eq : BizCreate ∅ None = Ok (rec_created.1, Some rec_created.2).
Proof. by vm_compute. Qed.

Lemma rec_session_eq :
  run_ops (rec_created.1, rec_created.2) (OpLoad toy_rom 192 :: toy_ops)
    = Ok (rec_session.1, rec_session.2).
Proof. by vm_compute. Qed.

Lemma rec_wired : wired rec_loaded.2.
Proof. by vm_compute. Qed.

Lemma rec_advanced_eq : advance_all 3 rec_loaded.2 [toy_args_before] = Ok rec_advanced.
Proof. by vm_compute. Qed.

Lemma rec_advanced_first_frame : first_frame 3 (latch_args rec_advanced toy_args).
Proof.
  split; [|by vm_compute].
  intros k Hk. destruct k as [|[|[|k]]]; [by vm_compute..|lia].
Qed.

Lemma rec_session_first_frame : first_frame 3 (latch_args rec_session.2 toy_args).
Proof.
  split; [|by vm_compute].
  intros k Hk. destruct k as [|[|[|k]]]; [by vm_compute..|lia].
Qed.

Lemma sensors_last_write_wins_witness :
  ∃ a,
    (∀ fuel, 3 ≤ fuel → advance fuel rec_advanced toy_args = Ok a) ∧
    adv_ctx a
      = drained (run_seen (latched_view toy_args) 3 (latch_args rec_advanced toy_args)) ∧
    sensors (adv_ctx a) = latched_view toy_args ∧
    take 6 (adv_sbuff a)
      = [-65536; 200; 2147418112; 1446163200; -2147483648; 0]%Z.
Proof.
  destruct (sensors_last_write_wins 3 rec_loaded.2 rec_advanced [toy_args_before] toy_args
              rec_wired toy_args_in_range rec_advanced_eq) as (Hret & Hdef & _).
  destruct (Hdef 3 rec_advanced_first_frame) as (a & Hrun & Hctx).
  - by vm_compute.
  - by vm_compute.
  - cbn [arg_sbuff toy_args]. rewrite length_replicate. lia.
  - exists a. split; [exact Hrun|]. split; [exact Hctx|].
    pose proof (Hrun 3 (le_n 3)) as Ha.
    destruct (Hret 3 a Ha) as (n & _ & _ & _ & Hs). split; [exact Hs|].
    assert (a = returned (advance 3 rec_advanced toy_args)) as ->
      by (rewrite Ha; reflexivity).
    by vm_compute.
Defined.

Lemma session_ready_witness :
  wired rec_session.2 ∧
  ∃ a,
    (∀ fuel, 3 ≤ fuel → advance fuel rec_session.2 toy_args = Ok a) ∧
    adv_ctx a
      = drained (run_seen (latched_view toy_args) 3 (latch_args rec_session.2 toy_args)) ∧
    sensors (adv_ctx a) = latched_view toy_args ∧
    take 6 (adv_sbuff a)
      = [-65536; 200; 2147418112; 1446163200; -2147483648; 0]%Z.
Proof.
  destruct (session_ready ∅ rec_created.1 rec_session.1 None rec_created.2 rec_session.2
              (OpLoad toy_rom 192 :: toy_ops)) as (Hw & _ & _ & _ & _ & _ & _ & Hret & Hdef).
  - exact rec_created_eq.
  - exact rec_session_eq.
  - split; [exact Hw|].
    destruct (Hdef toy_args 3 toy_args_in_range rec_session_first_frame)
      as (a & Hrun & Hctx).
    + by vm_compute.
    + cbn [arg_sbuff toy_args]. rewrite length_replicate. lia.
    + exists a. split; [exact Hrun|]. split; [exact Hctx|].
      pose proof (Hrun 3 (le_n 3)) as Ha.
      destruct (Hret toy_args 3 a toy_args_in_range Ha) as (n & _ & _ & _ & Hs).
      split; [exact Hs|].
      assert (a = returned (advance 3 rec_session.2 toy_args)) as ->
        by (rewrite Ha; reflexivity).
      by vm_compute.
Defined.

End ConcreteRecording.

(** ** The Qt front end's loader *)

Section LoaderClaims.
Import CoreManager.
Context `{Handles} `{!Library} `{!Build}.

Lemma bind_run {A B : Type} (m : M A) (f : A → M B) (t : list event) :
  (m ≫= f) t = match m t with
               | Ok (a, t') => f a t'
               | Undefined => Undefined
               | OutOfFuel => OutOfFuel
               end.
Proof. reflexivity. Qed.

(** X15.  [loadGame] on a file never fails to return, and accounts for the
    file it is given: with no file it does nothing; when no core recognises
    the file it closes it, logs, and returns no controller; when a core
    does, the file is never closed, it is handed to that core exactly once
    (preloaded or loaded as the manager is set), the core's [init] is the
    first thing recorded and the [coreLoaded] signal the last, and no
    directory is closed. *)
Theorem loadGame_vf_protocol (m : Manager) (vf : option VFile) (path base : string) :
  ∃ r t,
    run (loadGame_vf m vf path base) = Ok (r, t) ∧
    (vf = None → r = None ∧ t = []) ∧
    (∀ v, vf = Some v → mCoreFindVF v = None →
       r = None ∧ t = [EvVFileClose v; EvLogError CouldNotLoadGame]) ∧
    (∀ v core, vf = Some v → mCoreFindVF v = Some core →
       r = Some core ∧
       filter is_file_close t = [] ∧
       filter hands_over t
         = [if m_preload m then EvPreloadVF core v else EvLoadROM core v] ∧
       head t = Some (EvCoreInit core) ∧
       last t = Some (EvCoreLoaded core) ∧
       filter is_dir_close t = []).
Proof.
  destruct vf as [v|]; [|by eexists _, _; split; [reflexivity|]; repeat split].
  unfold run, loadGame_vf, publish.
  destruct (mCoreFindVF v) as [core|] eqn:Hfind.
  - destruct (m_config m), (m_preload m), (mCoreAutoloadSave core), (m_multiplayer m);
      (eexists _, _; split; [reflexivity|]);
      (split; [done|]); (split; [intros ? [= <-] ?; congruence|]);
      intros ? ? [= <-] Hc; rewrite Hfind in Hc; injection Hc as <-; by repeat split.
  - eexists _, _. split; [reflexivity|]. split; [done|].
    split; [by intros ? [= <-] _|]. intros ? ? [= <-] ?. congruence.
Qed.


(** X16.  [loadBIOS] returns a controller exactly when the file opened, the
    GBA core was compiled in, the platform asked for is the GBA and the core
    could be created.  When the file opened and no controller is returned,
    the file is closed and nothing else is done; when one is returned, the
    file is never closed and is handed to the core once, as BIOS 0, the two
    overrides [useBios = 1] and [skipBios = 0] follow at once, the signal is
    the last thing recorded, and, unlike [loadGame], neither saves nor
    cheats are loaded. *)
Theorem loadBIOS_protocol (m : Manager) (platform : Z) (path : string) :
  ∃ r t,
    run (loadBIOS m platform path) = Ok (r, t) ∧
    (is_Some r ↔
       is_Some (VFileOpen (canonicalFilePath path)) ∧ M_CORE_GBA = true ∧
       platform = mPLATFORM_GBA ∧ is_Some GBACoreCreate) ∧
    (VFileOpen (canonicalFilePath path) = None → t = []) ∧
    (∀ vf, VFileOpen (canonicalFilePath path) = Some vf → r = None →
       t = [EvVFileClose vf]) ∧
    (∀ vf core, VFileOpen (canonicalFilePath path) = Some vf → r = Some core →
       GBACoreCreate = Some core ∧
       filter is_file_close t = [] ∧
       filter hands_over t = [EvLoadBIOS core vf 0] ∧
       (∃ t1 t2, t = t1 ++ [EvLoadBIOS core vf 0; EvSetOverrideInt core "useBios" 1;
                            EvSetOverrideInt core "skipBios" 0] ++ t2) ∧
       head t = Some (EvCoreInit core) ∧
       last t = Some (EvCoreLoaded core) ∧
       (∀ e, e ∈ t → e ≠ EvAutoloadSave core ∧ e ≠ EvAutoloadCheats core)).
Proof.
  unfold run, loadBIOS, publish.
  destruct (VFileOpen (canonicalFilePath path)) as [vf|].
  2:{ eexists _, _. split; [reflexivity|].
      split; [split; [by intros [? [=]]|by intros ([? [=]] & _)]|].
      split; [done|]. split; [intros ? [=]|intros ? ? [=]]. }
  destruct M_CORE_GBA.
  2:{ eexists _, _. split; [reflexivity|].
      split; [split; [by intros [? [=]]|by intros (_ & [=] & _)]|].
      split; [intros [=]|]. split; [by intros ? [= <-] _|intros ? ? _ [=]]. }
  cbn [andb]. case_bool_decide as Hp.
  2:{ eexists _, _. split; [reflexivity|].
      split; [split; [by intros [? [=]]|by intros (_ & _ & ? & _)]|].
      split; [intros [=]|]. split; [by intros ? [= <-] _|intros ? ? _ [=]]. }
  destruct GBACoreCreate as [core|].
  2:{ eexists _, _. split; [reflexivity|].
      split; [split; [by intros [? [=]]|by intros (_ & _ & _ & [? [=]])]|].
      split; [intros [=]|]. split; [by intros ? [= <-] _|intros ? ? _ [=]]. }
  assert (∀ (c : mCore) (tl : list event),
            (∀ e, e ∈ tl → e ≠ EvAutoloadSave c ∧ e ≠ EvAutoloadCheats c) ↔
            Forall (λ e, e ≠ EvAutoloadSave c ∧ e ≠ EvAutoloadCheats c) tl) as Hall.
  { intros c tl. by rewrite Forall_forall. }
  destruct (m_config m) as [cfg|], (m_multiplayer m) as [mp|];
    (eexists _, _; split; [reflexivity|]);
    (split; [split; [by eauto|by eauto]|]);
    (split; [done|]); (split; [done|]);
    intros ? ? [= <-] [= <-];
    (split; [done|]); (split; [done|]); (split; [done|]);
    (split; [|split; [done|split; [done|]]]).
  - by exists [EvCoreInit core; EvInitConfig core; EvLoadForeignConfig core cfg], 
      [EvSetBaseName core (baseName path);
       EvAttachBase core (VDirOpen (dir_canonicalPath path)); EvNewController core;
       EvSetMultiplayer core mp; EvCoreLoaded core].
  - apply Hall. repeat constructor; done.
  - by exists [EvCoreInit core; EvInitConfig core; EvLoadForeignConfig core cfg], 
      [EvSetBaseName core (baseName path);
       EvAttachBase core (VDirOpen (dir_canonicalPath path)); EvNewController core;
       EvCoreLoaded core].
  - apply Hall. repeat constructor; done.
  - by exists [EvCoreInit core; EvInitConfig core], 
      [EvSetBaseName core (baseName path);
       EvAttachBase core (VDirOpen (dir_canonicalPath path)); EvNewController core;
       EvSetMultiplayer core mp; EvCoreLoaded core].
  - apply Hall. repeat constructor; done.
  - by exists [EvCoreInit core; EvInitConfig core], 
      [EvSetBaseName core (baseName path);
       EvAttachBase core (VDirOpen (dir_canonicalPath path)); EvNewController core;
       EvCoreLoaded core].
  - apply Hall. repeat constructor; done.
Qed.

(** *** The copy loop *)

Lemma copy_loop_run (vf clone : VFile) (n : nat) :
  ∀ (fuel k : nat) (t : list event),
    (∀ i, i < n → (0 < (vf_read vf (k + i)).1 ≤ 2048)%Z) →
    ((vf_read vf (k + n)).1 ≤ 0)%Z →
    copy_loop fuel vf (Some clone) k t
      = if decide (n < fuel) then Ok (tt, t ++ copy_trace vf clone k n) else OutOfFuel.
Proof.
  induction n as [|n IH]; intros fuel k t Hpos Hend.
  - destruct fuel as [|fuel]; [done|]. rewrite decide_True by lia.
    rewrite Nat.add_0_r in Hend. cbn [copy_loop copy_trace].
    cbv [mbind M_bind emit]. destruct (vf_read vf k) as [read buffer].
    cbn [fst] in Hend. by rewrite decide_False by lia.
  - destruct fuel as [|fuel]; [done|].
    pose proof (Hpos 0 ltac:(lia)) as Hfirst. rewrite Nat.add_0_r in Hfirst.
    cbn [copy_loop copy_trace]. unfold chunk.
    cbv [mbind M_bind emit through mret M_ret]. destruct (vf_read vf k) as [read buffer].
    cbn [fst snd] in *. rewrite decide_True by lia. rewrite decide_True by lia.
    rewrite IH.
    + destruct (decide (n < fuel)); [rewrite decide_True by lia|by rewrite decide_False by lia].
      by rewrite <- !app_assoc.
    + intros i Hi. replace (S k + i) with (k + S i) by lia. apply Hpos. lia.
    + by replace (S k + n) with (k + S n) by lia.
Qed.

Lemma copy_loop_forever (vf clone : VFile) (fuel : nat) :
  ∀ (k : nat) (t : list event),
    (∀ i, (0 < (vf_read vf i).1 ≤ 2048)%Z) →
    copy_loop fuel vf (Some clone) k t = OutOfFuel.
Proof.
  induction fuel as [|fuel IH]; intros k t Hpos; [done|].
  cbn [copy_loop]. cbv [mbind M_bind emit through mret M_ret].
  specialize (Hpos k) as Hk. destruct (vf_read vf k) as [read buffer]. cbn [fst] in Hk.
  rewrite decide_True by lia. rewrite decide_True by lia. by apply IH.
Qed.

Lemma copy_trace_writes (vf clone : VFile) (n : nat) :
  ∀ k, filter is_write (copy_trace vf clone k n)
       = (λ i, EvWrite clone (chunk vf i)) <$> seq k n.
Proof.
  induction n as [|n IH]; intros k; [done|].
  cbn [copy_trace seq fmap list_fmap].
  rewrite filter_cons_False by (cbn; tauto).
  rewrite filter_cons_True by done. by rewrite IH.
Qed.



(** X17.  The copy loop of [loadGame(path)].  When the first [n] reads of
    the archive member fill the buffer with between 1 and 2048 bytes and the
    next one returns none (or an error), the loop ends after [n + 1] reads
    and not before; it has written to the copy exactly the [n] chunks read,
    in order.  When [VFileMemChunk] returned null, the loop ends only for a
    member whose first read yields nothing; otherwise the first write goes
    through the null pointer, which the code never tests. *)
Theorem copy_loop_spec (vf : VFile) (n : nat) :
  (∀ i, i < n → (0 < (vf_read vf i).1 ≤ 2048)%Z) →
  ((vf_read vf n).1 ≤ 0)%Z →
  (∀ fuel clone t,
     copy_loop fuel vf (Some clone) 0 t
       = if decide (n < fuel) then Ok (tt, t ++ copy_trace vf clone 0 n) else OutOfFuel) ∧
  (∀ clone, filter is_write (copy_trace vf clone 0 n)
            = (λ i, EvWrite clone (chunk vf i)) <$> seq 0 n) ∧
  (∀ fuel t, 0 < fuel →
     copy_loop fuel vf None 0 t
       = if decide (n = 0) then Ok (tt, t ++ [EvRead vf 2048]) else Undefined).
Proof.
  intros Hpos Hend. split; [|split].
  - intros fuel clone t. by apply copy_loop_run.
  - intros clone. apply copy_trace_writes.
  - intros [|fuel] t Hfuel; [lia|]. cbn [copy_loop].
    cbv [mbind M_bind emit through mret M_ret undefined].
    destruct n as [|n].
    + destruct (vf_read vf 0) as [read buffer]. cbn [fst] in Hend.
      by rewrite decide_False by lia.
    + specialize (Hpos 0 ltac:(lia)). destruct (vf_read vf 0) as [read buffer].
      cbn [fst] in Hpos. by rewrite decide_True by lia.
Qed.

(** *** [loadGame] on a path *)



(** *** [getExtdata] *)

Lemma extract_run (vf : VFile) (extdataType : Z) (core : option mCore) (t : list event) :
  ∃ st, extract vf extdataType core t = Ok (st, t ++ [EvExtract core]) ∧
    ∀ size, st.2 = Some size → size ≠ 0%Z.
Proof.
  unfold extract. cbv [mbind M_bind mret M_ret emit events].
  destruct (mCoreExtractExtdata core vf); [|by eexists (_, _)].
  destruct (mStateExtdataGet _ extdataType) as [size|]; [|by eexists (_, _)].
  eexists (_, _). split; [reflexivity|]. cbn [snd].
  case_decide; [done|]. by intros ? [= <-].
Qed.

Lemma extract_with_run (create : option mCore) (vf : VFile) (extdataType : Z)
    (st : bool * option Z) (t : list event) :
  (∀ size, st.2 = Some size → size ≠ 0%Z) →
  match extract_with create vf extdataType st t with
  | Ok (st', t') =>
      (∀ size, st'.2 = Some size → size ≠ 0%Z) ∧
      (t' = t ∨
       ∃ c, create = Some c ∧ t' = t ++ [EvCoreInit c; EvExtract (Some c); EvCoreDeinit c])
  | Undefined => create = None
  | OutOfFuel => False
  end.
Proof.
  intros Hst. unfold extract_with. destruct st as [[|] bytes]; cbn [fst snd] in *.
  { cbv [mret M_ret]. split; [done|by left]. }
  destruct create as [c|]; [|done].
  cbv [mbind M_bind mret M_ret emit through].
  destruct (extract_run vf extdataType (Some c) (t ++ [EvCoreInit c])) as ([b r] & -> & Hr).
  cbn [fst snd] in *. split.
  - destruct r as [size|]; [exact Hr|exact Hst].
  - right. exists c. split; [done|]. by rewrite <- !app_assoc.
Qed.

(** X19.  [getExtdata] on a file that opened.  When it returns, it began by
    initialising the extdata and ended by releasing it; the cores it made
    (at most two) were each initialised and released again before the next
    was made; and an array that is not empty refers to an item of non-zero
    size.  It fails to return only by calling [init] through the null
    pointer of a core that could not be created, a result [loadBIOS] tests
    and [getExtdata] does not. *)
Theorem getExtdata_protocol (filename : string) (extdataType : Z) (vf : VFile) :
  VFileDevice_open filename = Some vf →
  match run (getExtdata filename extdataType) with
  | Ok (r, t) =>
      head t = Some EvExtdataInit ∧ last t = Some EvExtdataDeinit ∧
      (∃ cs, filter is_core_life t = cs ≫= (λ c, [EvCoreInit c; EvCoreDeinit c]) ∧
             length cs ≤ 2) ∧
      (∀ size, r = Some size → size ≠ 0%Z)
  | Undefined =>
      (M_CORE_GBA = true ∧ GBACoreCreate = None) ∨ (M_CORE_GB = true ∧ GBCoreCreate = None)
  | OutOfFuel => False
  end.
Proof.
  intros Hopen. unfold run, getExtdata. rewrite Hopen.
  rewrite bind_run. cbv [emit]. cbn [app]. rewrite bind_run.
  assert (∃ st0 t0, (if USE_PNG then extract vf extdataType None else mret (false, None))
                      [EvExtdataInit] = Ok (st0, EvExtdataInit :: t0) ∧
            (∀ size, st0.2 = Some size → size ≠ 0%Z) ∧
            filter is_core_life t0 = []) as (st0 & t0 & -> & Hst0 & Ht0).
  { destruct USE_PNG.
    - destruct (extract_run vf extdataType None [EvExtdataInit]) as (st & -> & Hst).
      by exists st, [EvExtract None].
    - by exists (false, None), []. }
  rewrite bind_run.
  assert (∀ create st t,
            (∀ size, st.2 = Some size → size ≠ 0%Z) →
            ∀ flag : bool,
            match (if flag then extract_with create vf extdataType st else mret st) t with
            | Ok (st', t') =>
                (∀ size, st'.2 = Some size → size ≠ 0%Z) ∧
                (t' = t ∨ ∃ c, create = Some c ∧
                   t' = t ++ [EvCoreInit c; EvExtract (Some c); EvCoreDeinit c])
            | Undefined => flag = true ∧ create = None
            | OutOfFuel => False
            end) as Hstage.
  { intros create st t Hst [|]; [|by split; [|left]].
    pose proof (extract_with_run create vf extdataType st t Hst) as Hw.
    destruct (extract_with create vf extdataType st t) as [[st' t']| |]; done. }
  pose proof (Hstage GBACoreCreate st0 (EvExtdataInit :: t0) Hst0 M_CORE_GBA) as Hgba.
  match type of Hgba with match ?x with _ => _ end =>
    destruct x as [[st1 t1]| |]; [|by left|done] end.
  destruct Hgba as [Hst1 Ht1]. rewrite bind_run.
  pose proof (Hstage GBCoreCreate st1 t1 Hst1 M_CORE_GB) as Hgb.
  match type of Hgb with match ?x with _ => _ end =>
    destruct x as [[st2 t2]| |]; [|by right|done] end.
  destruct Hgb as [Hst2 Ht2]. cbv [mbind M_bind mret M_ret].
  assert (∃ cs, t2 = EvExtdataInit :: t0 ++ (cs ≫= λ c, [EvCoreInit c; EvExtract (Some c);
                                                        EvCoreDeinit c]) ∧
            length cs ≤ 2) as (cs & -> & Hcs).
  { destruct Ht1 as [->|(c1 & _ & ->)], Ht2 as [->|(c2 & _ & ->)].
    - exists []. split; [by rewrite app_nil_r|cbn; lia].
    - exists [c2]. split; [done|cbn; lia].
    - exists [c1]. split; [done|cbn; lia].
    - exists [c1; c2]. split; [by rewrite <- app_assoc|cbn; lia]. }
  split; [done|]. split; [by rewrite last_snoc|]. split; [|exact Hst2].
  exists cs. split; [|done].
  assert (filter is_core_life
            (cs ≫= λ c, [EvCoreInit c; EvExtract (Some c); EvCoreDeinit c])
          = cs ≫= λ c, [EvCoreInit c; EvCoreDeinit c]) as Hpairs.
  { clear. induction cs as [|c cs IH]; [done|]. cbn [mbind list_bind app].
    rewrite filter_cons_True by done. rewrite filter_cons_False by (cbn; tauto).
    rewrite filter_cons_True by done. by rewrite IH. }
  rewrite filter_app. rewrite filter_cons_False by (cbn; tauto).
  rewrite filter_app, Ht0, Hpairs. cbn [app].
  rewrite filter_cons_False by (cbn; tauto). by rewrite app_nil_r.
Qed.

End LoaderClaims.

Section LoaderConcrete.
Import CoreManager.
#[local] Existing Instance toy_handles.
#[local] Existing Instance toy_library.
#[local] Existing Instance toy_build.

Lemma copy_loop_spec_witness :
  @copy_loop toy_handles toy_library 3 0 (Some 7) 0 []
    = Ok (tt, [@EvRead toy_handles 0 2048; @EvWrite toy_handles 7 (replicate 2048 0%Z);
               @EvRead toy_handles 0 2048; @EvWrite toy_handles 7 (replicate 2048 1%Z);
               @EvRead toy_handles 0 2048]).
Proof.
  destruct (@copy_loop_spec toy_handles toy_library 0 2) as (Hrun & _).
  - intros i Hi. destruct i as [|[|i]]; [by vm_compute..|lia].
  - by vm_compute.
  - exact (Hrun 3 7 []).
Defined.

Lemma getExtdata_protocol_witness :
  ∃ r t, run (getExtdata "state.ss1" 2) = Ok (r, t) ∧ last t = Some EvExtdataDeinit.
Proof.
  pose proof (@getExtdata_protocol toy_handles toy_library toy_build "state.ss1" 2 3
                eq_refl) as Hp.
  destruct (run (getExtdata "state.ss1" 2)) as [[r t]| |] eqn:Hrun.
  - exists r, t. split; [reflexivity|]. apply Hp.
  - by vm_compute in Hrun.
  - by vm_compute in Hrun.
Defined.

End LoaderConcrete.
